(** * pygame-menu: the scroll bar widget and the joystick predicates

    A shallow embedding of [pygame_menu/widgets/widget/scrollbar.py] and of
    the analog predicates of [pygame_menu/controls.py].

    Numbers.  Python's [int] and [float] values are both embedded in the
    rationals [Q]: [/] is exact division, [//] is the floor of the
    quotient, [int(...)] truncates towards zero and [round(...)] rounds to
    the nearest integer, ties to even.  A [pygame.Rect] holds integers and
    truncates what is stored into it, as pygame does up to version 2.2;
    later versions round to the nearest integer, which gives the same
    rectangle for a whole number and for a fractional part below one
    half.  Where a statement about [_scroll] or [update] could depend on
    that conversion, it takes the sizes of the rectangles as they are
    stored.  The arithmetic of doubles is exact on whole numbers of
    moderate size; where a statement could depend on the rounding of a
    double, it speaks of the value the object stores or asks for whole
    numbers.

    Effects.  A method is a function from the receiver to the receiver
    after the call together with either the returned value or the
    exception raised; the receiver after a raised exception is the object
    as the exception left it.  The callbacks of the base class are
    recorded, in the order of the calls, in a log next to the widget.
    What [update] reads from the global pygame state while it handles an
    event (keys held, pointer position) travels with the event. *)

From Stdlib Require Import ZArith QArith Qround Qabs Lia Lqa List Bool.
Import ListNotations.

Local Open Scope Z_scope.
Local Open Scope Q_scope.

(** ** Python numbers *)

Module Py.

(** [int(q)]: truncation towards zero. *)
Definition int (q : Q) : Z :=
  if Qle_bool 0 q then Qfloor q else Qceiling q.

(** [round(q)]: nearest integer, ties to the even neighbour. *)
Definition round (q : Q) : Z :=
  let f := Qfloor q in
  match Qcompare (q - inject_Z f) (1 # 2) with
  | Lt => f
  | Gt => (f + 1)%Z
  | Eq => if Z.even f then f else (f + 1)%Z
  end.

(** [round(q, 3)]: three decimals. *)
Definition round3 (q : Q) : Q :=
  inject_Z (round (q * 1000)) / 1000.

(** [q // d] for a non-zero [d]. *)
Definition floordiv (q d : Q) : Q := inject_Z (Qfloor (q / d)).

Definition ltb (a b : Q) : bool := negb (Qle_bool b a).

(** [max(a, b)] and [min(a, b)]: the second argument replaces the first
    only when it is strictly greater (smaller). *)
Definition max (a b : Q) : Q := if ltb a b then b else a.
Definition min (a b : Q) : Q := if ltb b a then b else a.

(** Truth value of a number: [not q] holds exactly for zero. *)
Definition is_zero (q : Q) : bool := Qeq_bool q 0.

End Py.

(** ** Exceptions and the state-and-exception monad *)

Inductive exn : Type :=
| AssertionError
| ZeroDivisionError.

Inductive result (A : Type) : Type :=
| Ok (a : A)
| Raise (e : exn).

Arguments Ok {A} a.
Arguments Raise {A} e.

Section StateExn.

Variable St : Type.

Definition SE (A : Type) : Type := St -> St * result A.

Definition ret {A} (a : A) : SE A := fun s => (s, Ok a).

Definition bind {A B} (m : SE A) (k : A -> SE B) : SE B :=
  fun s =>
    match m s with
    | (s', Ok a) => k a s'
    | (s', Raise e) => (s', Raise e)
    end.

Definition raise {A} (e : exn) : SE A := fun s => (s, Raise e).

Definition get : SE St := fun s => (s, Ok s).

Definition gets {A} (f : St -> A) : SE A := fun s => (s, Ok (f s)).

Definition modify (f : St -> St) : SE unit := fun s => (f s, Ok tt).

(** [assert c]. *)
Definition assert (c : bool) : SE unit :=
  if c then ret tt else raise AssertionError.

(** A computation that only reads the state. *)
Definition read {A} (f : St -> result A) : SE A := fun s => (s, f s).

End StateExn.

Arguments ret {St A} a.
Arguments bind {St A B} m k.
Arguments raise {St A} e.
Arguments get {St}.
Arguments gets {St A} f.
Arguments modify {St} f.
Arguments assert {St} c.
Arguments read {St A} f.

Declare Scope se_scope.
Delimit Scope se_scope with se.
Notation "x <- m ;; k" := (bind m (fun x => k))
(at level 61, m at next level, right associativity) : se_scope.
Notation "m ;;; k" := (bind m (fun _ => k))
(at level 61, right associativity) : se_scope.

(** ** pygame.Rect *)

Module Rect.

Record t : Type := mk { x : Z; y : Z; width : Z; height : Z }.

Definition topleft (r : t) : Z * Z := (x r, y r).
Definition bottomright (r : t) : Z * Z := ((x r + width r)%Z, (y r + height r)%Z).
Definition right (r : t) : Z := (x r + width r)%Z.
Definition bottom (r : t) : Z := (y r + height r)%Z.
Definition left (r : t) : Z := x r.
Definition top (r : t) : Z := y r.

(** [r.move(dx, dy)] *)
Definition move (r : t) (d : Z * Z) : t :=
  mk (x r + fst d) (y r + snd d) (width r) (height r).

(** [r.inflate(dx, dy)]: the size grows by [(dx, dy)] around the centre;
    the halves are C integer quotients. *)
Definition inflate (r : t) (dx dy : Z) : t :=
  mk (x r - Z.quot dx 2) (y r - Z.quot dy 2) (width r + dx) (height r + dy).

(** [r.collidepoint(px, py)] *)
Definition collidepoint (r : t) (p : Z * Z) : bool :=
  (x r <=? fst p)%Z && (fst p <? x r + width r)%Z &&
  (y r <=? snd p)%Z && (snd p <? y r + height r)%Z.

Definition set_width (r : t) (w : Z) : t := mk (x r) (y r) w (height r).
Definition set_height (r : t) (h : Z) : t := mk (x r) (y r) (width r) h.
Definition set_x (r : t) (v : Z) : t := mk v (y r) (width r) (height r).
Definition set_y (r : t) (v : Z) : t := mk (x r) v (width r) (height r).

End Rect.

(** Component [axis] of a pair: [p[0]] or [p[1]]. *)
Definition nth2 {A} (axis : bool) (p : A * A) : A :=
if axis then snd p else fst p.

(** [setattr(r, ('width', 'height')[axis], q)]: the stored value is the
  truncation of [q]. *)
Definition set_dim (axis : bool) (r : Rect.t) (q : Q) : Rect.t :=
if axis then Rect.set_height r (Py.int q) else Rect.set_width r (Py.int q).

(** [setattr(r, ('x', 'y')[axis], q)] *)
Definition set_pos (axis : bool) (r : Rect.t) (q : Q) : Rect.t :=
if axis then Rect.set_y r (Py.int q) else Rect.set_x r (Py.int q).

Definition dim (axis : bool) (r : Rect.t) : Z :=
if axis then Rect.height r else Rect.width r.

Definition pos (axis : bool) (r : Rect.t) : Z :=
if axis then Rect.y r else Rect.x r.

(** ** The widget state *)

(** [_orientation]: 0 is horizontal, 1 is vertical; it indexes pairs. *)
Inductive Orientation : Type :=
| ORIENTATION_HORIZONTAL
| ORIENTATION_VERTICAL.

Definition is_vertical (o : Orientation) : bool :=
match o with ORIENTATION_VERTICAL => true | ORIENTATION_HORIZONTAL => false end.

Definition opposite (o : Orientation) : Orientation :=
match o with
| ORIENTATION_HORIZONTAL => ORIENTATION_VERTICAL
| ORIENTATION_VERTICAL => ORIENTATION_HORIZONTAL
end.

(** [p[axis]] *)
Definition idx {A} (o : Orientation) (p : A * A) : A := nth2 (is_vertical o) p.

(** What the scroll bar reads of the scroll area that owns it. *)
Record ScrollArea : Type := { has_parent : bool }.

(** The part of the base class [Widget] the scroll bar uses.  The class is
    outside the two source files; its fields are taken as they are read:
    [_rect] is the widget's rectangle, [_abs_topleft] the corner that
    [get_rect(to_absolute_position=True)] reports for it. *)
Record Widget : Type := {
  _rect : Rect.t;
  _abs_topleft : Z * Z;
  readonly : bool;
  _visible : bool;
  _keyboard_enabled : bool;
  _mouse_enabled : bool;
  _scrollarea : option ScrollArea
}.

Record ScrollBar : Type := {
  base : Widget;
  _last_mouse_pos : Z * Z;
  _mouseover : bool;
  _orientation : Orientation;
  _page_ctrl_length : Q;
  _page_ctrl_thick : Z;
  _page_step : Q;
  _single_step : Q;
  _slider_pad : Z;
  _slider_position : Q;
  _slider_rect : Rect.t;
  _values_range : Q * Q;
  scrolling : bool
}.

Definition vmin (self : ScrollBar) : Q := fst (_values_range self).
Definition vmax (self : ScrollBar) : Q := snd (_values_range self).

(** Field assignments. *)

Definition set_base_rect (w : Widget) (r : Rect.t) : Widget :=
{| _rect := r; _abs_topleft := _abs_topleft w; readonly := readonly w;
   _visible := _visible w; _keyboard_enabled := _keyboard_enabled w;
   _mouse_enabled := _mouse_enabled w; _scrollarea := _scrollarea w |}.

Definition with_rect (self : ScrollBar) (r : Rect.t) : ScrollBar :=
{| base := set_base_rect (base self) r;
   _last_mouse_pos := _last_mouse_pos self; _mouseover := _mouseover self;
   _orientation := _orientation self;
   _page_ctrl_length := _page_ctrl_length self;
   _page_ctrl_thick := _page_ctrl_thick self; _page_step := _page_step self;
   _single_step := _single_step self; _slider_pad := _slider_pad self;
   _slider_position := _slider_position self;
   _slider_rect := _slider_rect self; _values_range := _values_range self;
   scrolling := scrolling self |}.

Definition with_last_mouse_pos (self : ScrollBar) (p : Z * Z) : ScrollBar :=
{| base := base self;
   _last_mouse_pos := p; _mouseover := _mouseover self;
   _orientation := _orientation self;
   _page_ctrl_length := _page_ctrl_length self;
   _page_ctrl_thick := _page_ctrl_thick self; _page_step := _page_step self;
   _single_step := _single_step self; _slider_pad := _slider_pad self;
   _slider_position := _slider_position self;
   _slider_rect := _slider_rect self; _values_range := _values_range self;
   scrolling := scrolling self |}.

Definition with_mouseover (self : ScrollBar) (b : bool) : ScrollBar :=
{| base := base self;
   _last_mouse_pos := _last_mouse_pos self; _mouseover := b;
   _orientation := _orientation self;
   _page_ctrl_length := _page_ctrl_length self;
   _page_ctrl_thick := _page_ctrl_thick self; _page_step := _page_step self;
   _single_step := _single_step self; _slider_pad := _slider_pad self;
   _slider_position := _slider_position self;
   _slider_rect := _slider_rect self; _values_range := _values_range self;
   scrolling := scrolling self |}.

Definition with_orientation (self : ScrollBar) (o : Orientation) : ScrollBar :=
{| base := base self;
   _last_mouse_pos := _last_mouse_pos self; _mouseover := _mouseover self;
   _orientation := o;
   _page_ctrl_length := _page_ctrl_length self;
   _page_ctrl_thick := _page_ctrl_thick self; _page_step := _page_step self;
   _single_step := _single_step self; _slider_pad := _slider_pad self;
   _slider_position := _slider_position self;
   _slider_rect := _slider_rect self; _values_range := _values_range self;
   scrolling := scrolling self |}.

Definition with_page_ctrl_length (self : ScrollBar) (q : Q) : ScrollBar :=
{| base := base self;
   _last_mouse_pos := _last_mouse_pos self; _mouseover := _mouseover self;
   _orientation := _orientation self;
   _page_ctrl_length := q;
   _page_ctrl_thick := _page_ctrl_thick self; _page_step := _page_step self;
   _single_step := _single_step self; _slider_pad := _slider_pad self;
   _slider_position := _slider_position self;
   _slider_rect := _slider_rect self; _values_range := _values_range self;
   scrolling := scrolling self |}.

Definition with_page_step (self : ScrollBar) (q : Q) : ScrollBar :=
{| base := base self;
   _last_mouse_pos := _last_mouse_pos self; _mouseover := _mouseover self;
   _orientation := _orientation self;
   _page_ctrl_length := _page_ctrl_length self;
   _page_ctrl_thick := _page_ctrl_thick self; _page_step := q;
   _single_step := _single_step self; _slider_pad := _slider_pad self;
   _slider_position := _slider_position self;
   _slider_rect := _slider_rect self; _values_range := _values_range self;
   scrolling := scrolling self |}.

Definition with_single_step (self : ScrollBar) (q : Q) : ScrollBar :=
{| base := base self;
   _last_mouse_pos := _last_mouse_pos self; _mouseover := _mouseover self;
   _orientation := _orientation self;
   _page_ctrl_length := _page_ctrl_length self;
   _page_ctrl_thick := _page_ctrl_thick self; _page_step := _page_step self;
   _single_step := q; _slider_pad := _slider_pad self;
   _slider_position := _slider_position self;
   _slider_rect := _slider_rect self; _values_range := _values_range self;
   scrolling := scrolling self |}.

Definition with_slider_position (self : ScrollBar) (q : Q) : ScrollBar :=
{| base := base self;
   _last_mouse_pos := _last_mouse_pos self; _mouseover := _mouseover self;
   _orientation := _orientation self;
   _page_ctrl_length := _page_ctrl_length self;
   _page_ctrl_thick := _page_ctrl_thick self; _page_step := _page_step self;
   _single_step := _single_step self; _slider_pad := _slider_pad self;
   _slider_position := q;
   _slider_rect := _slider_rect self; _values_range := _values_range self;
   scrolling := scrolling self |}.

Definition with_slider_rect (self : ScrollBar) (r : Rect.t) : ScrollBar :=
{| base := base self;
   _last_mouse_pos := _last_mouse_pos self; _mouseover := _mouseover self;
   _orientation := _orientation self;
   _page_ctrl_length := _page_ctrl_length self;
   _page_ctrl_thick := _page_ctrl_thick self; _page_step := _page_step self;
   _single_step := _single_step self; _slider_pad := _slider_pad self;
   _slider_position := _slider_position self;
   _slider_rect := r; _values_range := _values_range self;
   scrolling := scrolling self |}.

Definition with_values_range (self : ScrollBar) (v : Q * Q) : ScrollBar :=
{| base := base self;
   _last_mouse_pos := _last_mouse_pos self; _mouseover := _mouseover self;
   _orientation := _orientation self;
   _page_ctrl_length := _page_ctrl_length self;
   _page_ctrl_thick := _page_ctrl_thick self; _page_step := _page_step self;
   _single_step := _single_step self; _slider_pad := _slider_pad self;
   _slider_position := _slider_position self;
   _slider_rect := _slider_rect self; _values_range := v;
   scrolling := scrolling self |}.

Definition with_scrolling (self : ScrollBar) (b : bool) : ScrollBar :=
{| base := base self;
   _last_mouse_pos := _last_mouse_pos self; _mouseover := _mouseover self;
   _orientation := _orientation self;
   _page_ctrl_length := _page_ctrl_length self;
   _page_ctrl_thick := _page_ctrl_thick self; _page_step := _page_step self;
   _single_step := _single_step self; _slider_pad := _slider_pad self;
   _slider_position := _slider_position self;
   _slider_rect := _slider_rect self; _values_range := _values_range self;
   scrolling := b |}.

(** [Widget.get_rect()] and [Widget.get_rect(to_absolute_position=True)]:
    the widget's rectangle, and the same rectangle at its absolute corner.
    The scroll bar has no padding ([set_padding] is inert). *)
Definition get_rect (self : ScrollBar) : Rect.t := _rect (base self).

Definition get_rect_abs (self : ScrollBar) : Rect.t :=
Rect.mk (fst (_abs_topleft (base self))) (snd (_abs_topleft (base self)))
        (Rect.width (_rect (base self))) (Rect.height (_rect (base self))).

(** ** Methods of [ScrollBar] *)

Local Open Scope se_scope.

(** [_apply_size_changes] *)
Definition _apply_size_changes (self : ScrollBar) : ScrollBar :=
let o := _orientation self in
let opp_orientation := opposite o in
let rect := set_dim (is_vertical o) (_rect (base self)) (_page_ctrl_length self) in
let rect := set_dim (is_vertical opp_orientation) rect
                    (inject_Z (_page_ctrl_thick self)) in
let self := with_rect self rect in
let srect := Rect.mk 0 0 (Rect.width rect) (Rect.height rect) in
let srect := set_dim (is_vertical o) srect (_page_step self) in
let srect := set_dim (is_vertical opp_orientation) srect
                     (inject_Z (_page_ctrl_thick self)) in
let srect := set_pos (is_vertical o) srect (_slider_position self) in
with_slider_rect self
  (Rect.inflate srect (-2 * _slider_pad self) (-2 * _slider_pad self)).

Definition get_minimum (self : ScrollBar) : Z := Py.int (vmin self).

Definition get_maximum (self : ScrollBar) : Z := Py.int (vmax self).

Definition get_minmax (self : ScrollBar) : Z * Z :=
(get_minimum self, get_maximum self).

(** [get_orientation]: the constant of [pygame_menu.locals] for the axis. *)
Definition get_orientation (self : ScrollBar) : Orientation :=
match _orientation self with
| ORIENTATION_HORIZONTAL => ORIENTATION_HORIZONTAL
| ORIENTATION_VERTICAL => ORIENTATION_VERTICAL
end.

(** [get_thickness] *)
Definition get_thickness (self : ScrollBar) : Z := _page_ctrl_thick self.

(** [get_page_step] *)
Definition get_page_step (self : ScrollBar) : result Z :=
if Py.is_zero (_page_ctrl_length self) then Raise ZeroDivisionError
else Ok (Py.int (_page_step self * (vmax self - vmin self)
                  / _page_ctrl_length self)).

(** [get_value] *)
Definition get_value (self : ScrollBar) : result Z :=
if Py.is_zero (_page_ctrl_length self - _page_step self)
then Raise ZeroDivisionError
else
  let value := vmin self + _slider_position self * (vmax self - vmin self)
                           / (_page_ctrl_length self - _page_step self) in
  let value := Py.max (vmin self) value in
  let value := Py.min (vmax self) value in
  Ok (Py.int value).

(** [get_value_percentual] *)
Definition get_value_percentual (self : ScrollBar) : result Q :=
let '(vmin, vmax) := get_minmax self in
match get_value self with
| Raise e => Raise e
| Ok value =>
    if (vmax - vmin =? 0)%Z then Raise ZeroDivisionError
    else Ok (Py.round3 (inject_Z (value - vmin) / inject_Z (vmax - vmin)))
end.

(** [_scroll(rect, pixels)] *)
Definition _scroll (rect : Rect.t) (pixels : Q) : SE ScrollBar bool :=
fun self =>
  if Py.is_zero pixels then (self, Ok false)
  else
    let axis := _orientation self in
    let space_before :=
      (idx axis (Rect.topleft rect)
       - idx axis (Rect.topleft (Rect.move (_slider_rect self) (Rect.topleft rect)))
       + _slider_pad self)%Z in
    let move := Z.max (Py.round pixels) space_before in
    let space_after :=
      (idx axis (Rect.bottomright rect)
       - idx axis (Rect.bottomright (Rect.move (_slider_rect self) (Rect.topleft rect)))
       - _slider_pad self)%Z in
    let move := Z.min move space_after in
    if (move =? 0)%Z then (self, Ok false)
    else
      let move_pos :=
        match axis with
        | ORIENTATION_HORIZONTAL => (move, 0%Z)
        | ORIENTATION_VERTICAL => (0%Z, move)
        end in
      let self := with_slider_rect self (Rect.move (_slider_rect self) move_pos) in
      let self := with_slider_position self
                    (_slider_position self + inject_Z move) in
      (self, Ok true).

(** [set_length(value)] *)
Definition set_length (value : Q) : SE ScrollBar unit :=
assert (Py.ltb 0 value) ;;;
modify (fun self => with_page_ctrl_length self value) ;;;
modify (fun self =>
  with_slider_position self
    (Py.min (_slider_position self) (_page_ctrl_length self - _page_step self))) ;;;
modify _apply_size_changes.

(** [set_maximum(value)] *)
Definition set_maximum (value : Q) : SE ScrollBar unit :=
self <- get ;;
assert (Py.ltb (vmin self) value) ;;;
modify (fun self => with_values_range self (vmin self, value)).

(** [set_minimum(value)] *)
Definition set_minimum (value : Q) : SE ScrollBar unit :=
self <- get ;;
assert (Qle_bool 0 value && Py.ltb value (vmax self)) ;;;
modify (fun self => with_values_range self (value, vmax self)).

(** [set_orientation(orientation)] *)
Definition set_orientation (orientation : Orientation) : SE ScrollBar unit :=
modify (fun self => with_orientation self orientation) ;;;
modify _apply_size_changes.

(** [set_page_step(value)] *)
Definition set_page_step (value : Q) : SE ScrollBar unit :=
assert (Py.ltb 0 value) ;;;
self <- get ;;
(if Py.is_zero (vmax self - vmin self) then raise ZeroDivisionError
 else modify (fun self =>
        with_page_step self
          (_page_ctrl_length self * value / (vmax self - vmin self)))) ;;;
self <- get ;;
(if Qle_bool (_page_step self) (_single_step self)
 then modify (fun self => with_single_step self (Py.floordiv (_page_step self) 2))
 else ret tt) ;;;
modify _apply_size_changes.

(** [set_value(position_value)] *)
Definition set_value (position_value : Q) : SE ScrollBar unit :=
self <- get ;;
assert (Qle_bool (vmin self) position_value
        && Qle_bool position_value (vmax self)) ;;;
let pixels := (position_value - vmin self)
              * (_page_ctrl_length self - _page_step self) in
if Py.is_zero (vmax self - vmin self) then raise ZeroDivisionError
else
  let pixels := pixels / (vmax self - vmin self) in
  let pixels := Py.max 0 pixels in
  let pixels := Py.min (_page_ctrl_length self - _page_step self) pixels in
  _ <- _scroll (get_rect self) (pixels - _slider_position self) ;;
  ret tt.

(** [get_slider_rect] *)
Definition get_slider_rect (self : ScrollBar) : Rect.t :=
Rect.move (_slider_rect self) (Rect.topleft (get_rect_abs self)).

(** [__init__(length, values_range, orientation, slider_pad,
    page_ctrl_thick)]; [w0] is the object as the base-class constructor
    leaves it.  Identifier, colours, shadow and the callback are not part
    of the geometry.  [_slider_rect] is [None] until the first
    [_apply_size_changes], which runs before the constructor returns. *)
Definition __init__ (w0 : Widget) (length : Q) (values_range : Q * Q)
  (orientation : Orientation) (slider_pad : Z) (page_ctrl_thick : Z)
  : result ScrollBar :=
if negb (Py.ltb (fst values_range) (snd values_range)) then Raise AssertionError
else if negb (2 <=? page_ctrl_thick - 2 * slider_pad)%Z then Raise AssertionError
else
  let self :=
    {| base := w0;
       _last_mouse_pos := ((-1)%Z, (-1)%Z);
       _mouseover := false;
       _orientation := ORIENTATION_HORIZONTAL;
       _values_range := values_range;
       _page_ctrl_length := length;
       _page_ctrl_thick := page_ctrl_thick;
       _slider_rect := Rect.mk 0 0 0 0;
       _slider_pad := slider_pad;
       _slider_position := 0;
       _single_step := 20;
       _page_step := 0;
       scrolling := false |} in
  let body :=
    (if Py.ltb length (snd values_range - fst values_range)
     then set_page_step length
     else set_page_step ((snd values_range - fst values_range) / 5)) ;;;
    set_orientation orientation ;;;
    modify (fun self => with_scrolling self false) in
  match body self with
  | (self, Ok _) => Ok self
  | (_, Raise e) => Raise e
  end.

(** A base part for the examples: an empty rectangle at the origin,
    visible, writable, keyboard and mouse enabled, owned by no scroll
    area.  The theorems hold for every base part. *)
Definition default_widget : Widget :=
{| _rect := Rect.mk 0 0 0 0; _abs_topleft := (0%Z, 0%Z); readonly := false;
   _visible := true; _keyboard_enabled := true; _mouse_enabled := true;
   _scrollarea := None |}.

(** ** Events, callbacks and [update] *)

Inductive Key : Type :=
| K_PAGEUP
| K_PAGEDOWN
| K_other (code : Z).

(** What the global pygame state answers while one event is handled:
    [pygame.key.get_pressed()] at the two shift keys,
    [pygame.mouse.get_pos()], and [mouse_is_over()] of the owning scroll
    area. *)
Record Ambient : Type := {
  pressed_lshift : bool;
  pressed_rshift : bool;
  mouse_pos : Z * Z;
  area_mouse_is_over : bool
}.

Inductive EventData : Type :=
| KEYDOWN (key : Key)
| MOUSEMOTION (rel : option (Z * Z)) (pos : Z * Z)
| ACTIVEEVENT (gain : Z)
| MOUSEBUTTONDOWN (button : Z) (pos : Z * Z)
| MOUSEBUTTONUP
| OTHEREVENT.

Record Event : Type := { data : EventData; ambient : Ambient }.

(** The callbacks of the base class, in the order they are called:
    [change()], [mouseover(event)], [mouseleave(event)] and
    [apply_update_callbacks()]. *)
Inductive Callback : Type :=
| CbChange
| CbMouseOver
| CbMouseLeave
| CbUpdate.

Definition Callback_eq_dec (a b : Callback) : {a = b} + {a <> b}.
Proof. decide equality. Defined.

(** The widget together with the calls made so far. *)
Record World : Type := { sb : ScrollBar; log : list Callback }.

Definition on_sb {A} (m : SE ScrollBar A) : SE World A :=
fun w =>
  match m (sb w) with
  | (s', r) => ({| sb := s'; log := log w |}, r)
  end.

Definition emit (c : Callback) : SE World unit :=
modify (fun w => {| sb := sb w; log := log w ++ [c] |}).

(** [if self._scroll(rect, pixels): self.change(); updated = True] *)
Definition scroll_and_change (rect : Rect.t) (pixels : Q) (updated : bool)
  : SE World bool :=
moved <- on_sb (_scroll rect pixels) ;;
if moved : bool then emit CbChange ;;; ret true else ret updated.

Definition in_0_1 (q : Q) : bool := Qeq_bool q 0 || Qeq_bool q 1.

(** The body of the [for event in events] loop; the result is the value of
    [updated] after the event. *)
Definition handle_event (rect : Rect.t) (event : Event) (updated : bool)
  : SE World bool :=
match data event with
| KEYDOWN key =>
    self <- gets sb ;;
    if _keyboard_enabled (base self) && is_vertical (_orientation self)
       && match key with K_PAGEUP | K_PAGEDOWN => true | K_other _ => false end
    then
      let direction : Q := match key with K_PAGEDOWN => 1 | _ => -1 end in
      let step := _page_step self in
      let step :=
        if pressed_lshift (ambient event) || pressed_rshift (ambient event)
        then step * (35 # 100) else step in
      let pixels := direction * step in
      scroll_and_change rect pixels updated
    else ret updated
| MOUSEMOTION (Some rel) pos =>
    self <- gets sb ;;
    if negb (_mouse_enabled (base self)) then ret updated
    else
      let '(mx, my) := mouse_pos (ambient event) in
      ignore <-
        (if scrolling self then
           percent <- on_sb (read get_value_percentual) ;;
           if in_0_1 percent
              && match _scrollarea (base self) with
                 | Some area => has_parent area
                 | None => false
                 end
           then
             match _orientation self with
             | ORIENTATION_VERTICAL =>
                 let h := inject_Z (Rect.height (_slider_rect self)) / 2 in
                 ret (Py.ltb (inject_Z (Rect.bottom rect) - h) (inject_Z my)
                      || Py.ltb (inject_Z my) (inject_Z (Rect.top rect) + h))
             | ORIENTATION_HORIZONTAL =>
                 let w := inject_Z (Rect.width (_slider_rect self)) / 2 in
                 ret (Py.ltb (inject_Z (Rect.right rect) - w) (inject_Z mx)
                      || Py.ltb (inject_Z mx) (inject_Z (Rect.left rect) + w))
             end
           else ret false
         else ret false) ;;
      if ignore : bool then ret updated
      else
        updated <-
          (if scrolling self
           then scroll_and_change rect (inject_Z (idx (_orientation self) rel)) updated
           else ret updated) ;;
        self <- gets sb ;;
        (if Rect.collidepoint rect pos then
           if negb (_mouseover self)
           then on_sb (modify (fun self => with_mouseover self true)) ;;;
                emit CbMouseOver
           else ret tt
         else
           if _mouseover self
           then on_sb (modify (fun self => with_mouseover self false)) ;;;
                emit CbMouseLeave
           else ret tt) ;;;
        ret updated
| MOUSEMOTION None _ => ret updated
| ACTIVEEVENT gain =>
    let '(mx, my) := mouse_pos (ambient event) in
    if negb (gain =? 1)%Z then
      on_sb (modify (fun self => with_last_mouse_pos self (mx, my))) ;;;
      ret updated
    else
      self <- gets sb ;;
      let '(lmx, lmy) := _last_mouse_pos self in
      on_sb (modify (fun self => with_last_mouse_pos self ((-1)%Z, (-1)%Z))) ;;;
      if (lmx =? -1)%Z || (lmy =? -1)%Z then ret updated
      else if scrolling self then
        match _orientation self with
        | ORIENTATION_HORIZONTAL =>
            _ <- on_sb (_scroll rect (inject_Z (mx - lmx))) ;; ret updated
        | ORIENTATION_VERTICAL =>
            _ <- on_sb (_scroll rect (inject_Z (my - lmy))) ;; ret updated
        end
      else ret updated
| MOUSEBUTTONDOWN button pos =>
    self <- gets sb ;;
    if negb (_mouse_enabled (base self)) then ret updated
    else if ((button =? 4)%Z || (button =? 5)%Z)
            && is_vertical (_orientation self)
            && match _scrollarea (base self) with
               | Some _ => area_mouse_is_over (ambient event)
               | None => true
               end
    then
      let direction : Q := if (button =? 4)%Z then -1 else 1 in
      scroll_and_change rect (direction * _single_step self) updated
    else if (button =? 1)%Z || (button =? 2)%Z || (button =? 3)%Z then
      if Rect.collidepoint (get_slider_rect self) pos then
        on_sb (modify (fun self => with_scrolling self true)) ;;;
        ret updated
      else if Rect.collidepoint rect pos then
        let srect := get_slider_rect self in
        let spos := (Rect.x srect, Rect.y srect) in
        let direction : Q :=
          if (idx (_orientation self) spos <? idx (_orientation self) pos)%Z
          then 1 else -1 in
        scroll_and_change rect (direction * _page_step self) updated
      else ret updated
    else ret updated
| MOUSEBUTTONUP =>
    self <- gets sb ;;
    if negb (_mouse_enabled (base self)) then ret updated
    else if scrolling self then
      on_sb (modify (fun self => with_scrolling self false)) ;;;
      ret true
    else ret updated
| OTHEREVENT => ret updated
end.

(** [for event in events: ...] *)
Fixpoint for_events (rect : Rect.t) (events : list Event) (updated : bool)
  : SE World bool :=
match events with
| [] => ret updated
| event :: rest =>
    updated <- handle_event rect event updated ;;
    for_events rect rest updated
end.

(** [update(events)] *)
Definition update (events : list Event) : SE World bool :=
self <- gets sb ;;
if readonly (base self) || negb (_visible (base self)) then ret false
else
  let updated := false in
  let rect := get_rect_abs self in
  updated <- for_events rect events updated ;;
  (if updated : bool then emit CbUpdate else ret tt) ;;;
  ret updated.

(** ** [controls.py]: the analog predicates of [Controller] *)

Module Controls.

Definition JOY_AXIS_X : Z := 0.
Definition JOY_AXIS_Y : Z := 1.
Definition JOY_DEADZONE : Q := 1 # 2.
Definition JOY_DELAY : Z := 300.
Definition JOY_REPEAT : Z := 100.

Record Controller : Type := { joy_delay : Z; joy_repeat : Z }.

(** [Controller.__init__] *)
Definition new : Controller :=
{| joy_delay := JOY_DELAY; joy_repeat := JOY_REPEAT |}.

(** A [pygame.JOYAXISMOTION] event. *)
Record JoyAxisMotion : Type := { axis : Z; value : Q }.

Section Predicates.

(** The menu or widget that accepts the event; no predicate reads it. *)
Variable Target : Type.

Definition joy_axis_x_left (self : Controller) (event : JoyAxisMotion)
  (widget : Target) : bool :=
(axis event =? JOY_AXIS_X)%Z && Py.ltb (value event) (- JOY_DEADZONE).

Definition joy_axis_x_right (self : Controller) (event : JoyAxisMotion)
  (widget : Target) : bool :=
(axis event =? JOY_AXIS_X)%Z && Py.ltb JOY_DEADZONE (value event).

Definition joy_axis_y_down (self : Controller) (event : JoyAxisMotion)
  (widget : Target) : bool :=
(axis event =? JOY_AXIS_Y)%Z && Py.ltb JOY_DEADZONE (value event).

Definition joy_axis_y_up (self : Controller) (event : JoyAxisMotion)
  (widget : Target) : bool :=
(axis event =? JOY_AXIS_Y)%Z && Py.ltb (value event) (- JOY_DEADZONE).

End Predicates.

Definition JOY_BUTTON_BACK : Z := 1.
Definition JOY_BUTTON_SELECT : Z := 0.
Definition JOY_DOWN : Z * Z := (0, -1)%Z.
Definition JOY_LEFT : Z * Z := (-1, 0)%Z.
Definition JOY_RIGHT : Z * Z := (1, 0)%Z.
Definition JOY_UP : Z * Z := (0, 1)%Z.

(** A [pygame.JOYHATMOTION] event and a [pygame.JOYBUTTONDOWN] event. *)
Record JoyHatMotion : Type := { hat_value : Z * Z }.

Record JoyButtonDown : Type := { button : Z }.

(** [event.value == JOY_UP]: equality of pairs. *)
Definition pair_eqb (a b : Z * Z) : bool :=
(fst a =? fst b)%Z && (snd a =? snd b)%Z.

Section DigitalPredicates.

Variable Target : Type.

Definition joy_back (self : Controller) (event : JoyButtonDown)
  (widget : Target) : bool :=
(button event =? JOY_BUTTON_BACK)%Z.

Definition joy_select (self : Controller) (event : JoyButtonDown)
  (widget : Target) : bool :=
(button event =? JOY_BUTTON_SELECT)%Z.

Definition joy_down (self : Controller) (event : JoyHatMotion)
  (widget : Target) : bool :=
pair_eqb (hat_value event) JOY_DOWN.

Definition joy_left (self : Controller) (event : JoyHatMotion)
  (widget : Target) : bool :=
pair_eqb (hat_value event) JOY_LEFT.

Definition joy_right (self : Controller) (event : JoyHatMotion)
  (widget : Target) : bool :=
pair_eqb (hat_value event) JOY_RIGHT.

Definition joy_up (self : Controller) (event : JoyHatMotion)
  (widget : Target) : bool :=
pair_eqb (hat_value event) JOY_UP.

End DigitalPredicates.

End Controls.

(** * Notions used in the statements *)

(** ** Geometry *)

(** The slider rectangle and the widget rectangle agree with the fields
    they are derived from ([_apply_size_changes] makes them so) and the
    slider position is the integer [p]. *)
Definition slider_in_rect (self : ScrollBar) (p : Z) : Prop :=
let o := is_vertical (_orientation self) in
_slider_position self == inject_Z p
/\ pos o (_slider_rect self) = (p + _slider_pad self)%Z
/\ dim o (_slider_rect self)
   = (Py.int (_page_step self) - 2 * _slider_pad self)%Z
/\ dim o (_rect (base self)) = Py.int (_page_ctrl_length self).

(** The travel of the slider in whole pixels. *)
Definition travel (self : ScrollBar) : Z :=
(Py.int (_page_ctrl_length self) - Py.int (_page_step self))%Z.

(** The slider position is the integer [p] and the slider rectangle lies
    at [p + padding] along the axis; nothing is asked of the sizes of
    the rectangles. *)
Definition slider_at (self : ScrollBar) (p : Z) : Prop :=
let o := is_vertical (_orientation self) in
_slider_position self == inject_Z p
/\ pos o (_slider_rect self) = (p + _slider_pad self)%Z.

(** The pixels the slider can travel inside [rect]: the length of [rect]
    less the length of the slider rectangle and the padding at its two
    ends, in the whole pixels the rectangles hold. *)
Definition track_travel (rect : Rect.t) (self : ScrollBar) : Z :=
let o := is_vertical (_orientation self) in
(dim o rect - dim o (_slider_rect self) - 2 * _slider_pad self)%Z.

(** The move [_scroll] settles on for a non-zero request. *)
Definition clamped_move (rect : Rect.t) (pixels : Q) (self : ScrollBar) : Z :=
let axis := _orientation self in
Z.min
  (Z.max (Py.round pixels)
     (idx axis (Rect.topleft rect)
      - idx axis (Rect.topleft (Rect.move (_slider_rect self) (Rect.topleft rect)))
      + _slider_pad self))
  (idx axis (Rect.bottomright rect)
   - idx axis (Rect.bottomright (Rect.move (_slider_rect self) (Rect.topleft rect)))
   - _slider_pad self).

(** [move_pos = [0, 0]; move_pos[axis] = move] *)
Definition move_pos (o : Orientation) (move : Z) : Z * Z :=
match o with
| ORIENTATION_HORIZONTAL => (move, 0%Z)
| ORIENTATION_VERTICAL => (0%Z, move)
end.

(** A run of [_scroll] calls on the same rectangle. *)
Fixpoint scroll_all (rect : Rect.t) (pixels : list Q) : SE ScrollBar unit :=
match pixels with
| [] => ret tt
| p :: rest => _ <- _scroll rect p ;; scroll_all rect rest
end.

(** ** What a batch of events does *)

(** The event is a focus event ([ACTIVEEVENT]). *)
Definition is_focus (event : Event) : bool :=
match data event with ACTIVEEVENT _ => true | _ => false end.

(** The slider position differs between two states. *)
Definition position_changed (s s' : ScrollBar) : bool :=
negb (Qeq_bool (_slider_position s') (_slider_position s)).

(** The event moved the slider in one of the branches that call
    [change()]: every branch that scrolls but the one of the focus
    event. *)
Definition notified_move (event : Event) (w w' : World) : bool :=
negb (is_focus event) && position_changed (sb w) (sb w').

(** The event ended a drag. *)
Definition ended_drag (w w' : World) : bool :=
scrolling (sb w) && negb (scrolling (sb w')).

(** The calls of [mouseover] and [mouseleave] between two states. *)
Definition hover_calls (w w' : World) : list Callback :=
match _mouseover (sb w), _mouseover (sb w') with
| false, true => [CbMouseOver]
| true, false => [CbMouseLeave]
| _, _ => []
end.

(** What no event changes. *)
Definition same_geometry (s s' : ScrollBar) : Prop :=
base s' = base s
/\ _orientation s' = _orientation s
/\ _page_ctrl_length s' = _page_ctrl_length s
/\ _page_step s' = _page_step s
/\ _values_range s' = _values_range s.

(** The events of a batch that moved the slider with a call of
    [change()], and those that ended a drag. *)
Fixpoint notified_moves (rect : Rect.t) (events : list Event) (updated : bool)
  (w : World) : nat :=
match events with
| [] => 0
| event :: rest =>
    match handle_event rect event updated w with
    | (w', Ok updated') =>
        ((if notified_move event w w' then 1 else 0)
         + notified_moves rect rest updated' w')%nat
    | (_, Raise _) => 0%nat
    end
end.

Fixpoint ended_drags (rect : Rect.t) (events : list Event) (updated : bool)
  (w : World) : nat :=
match events with
| [] => 0
| event :: rest =>
    match handle_event rect event updated w with
    | (w', Ok updated') =>
        ((if ended_drag w w' then 1 else 0)
         + ended_drags rect rest updated' w')%nat
    | (_, Raise _) => 0%nat
    end
end.

(** What one event does, when its handling returns: the geometry is
    kept; [change()] is called once if the event moved the slider outside
    the focus branch, then [mouseover] or [mouseleave] if the hover state
    flipped; [updated] is set by such a move and by the end of a drag. *)
Definition step_summary (event : Event) (updated : bool) (w w' : World)
  (updated' : bool) : Prop :=
same_geometry (sb w) (sb w')
/\ log w' = log w ++ (if notified_move event w w' then [CbChange] else [])
                  ++ hover_calls w w'
/\ updated' = updated || notified_move event w w' || ended_drag w w'.

(** [get_value_percentual] returns when the track is longer than the
    slider and the two integer bounds differ. *)
Definition no_zero_division (s : ScrollBar) : Prop :=
~ _page_ctrl_length s == _page_step s /\ get_maximum s <> get_minimum s.

(** [update] handles events only on a widget that is neither read-only
    nor invisible. *)
Definition update_enabled (s : ScrollBar) : bool :=
negb (readonly (base s) || negb (_visible (base s))).

(** Of one call of [update]: the events that moved the slider with a call
    of [change()], and the events that ended a drag. *)
Definition batch_notified_moves (events : list Event) (w : World) : nat :=
if update_enabled (sb w)
then notified_moves (get_rect_abs (sb w)) events false w else 0%nat.

Definition batch_ended_drags (events : list Event) (w : World) : nat :=
if update_enabled (sb w)
then ended_drags (get_rect_abs (sb w)) events false w else 0%nat.

(** No event of the batch is a focus event. *)
Definition no_focus_event (events : list Event) : bool :=
forallb (fun event => negb (is_focus event)) events.

(** The events of a batch that changed the slider position. *)
Fixpoint position_moves (rect : Rect.t) (events : list Event) (updated : bool)
  (w : World) : nat :=
match events with
| [] => 0
| event :: rest =>
    match handle_event rect event updated w with
    | (w', Ok updated') =>
        ((if position_changed (sb w) (sb w') then 1 else 0)
         + position_moves rect rest updated' w')%nat
    | (_, Raise _) => 0%nat
    end
end.

Definition batch_position_moves (events : list Event) (w : World) : nat :=
if update_enabled (sb w)
then position_moves (get_rect_abs (sb w)) events false w else 0%nat.

(** ** Further notions: placement and calls *)

(** The rectangles are the ones [_apply_size_changes] computes from the
    fields. *)
Definition up_to_date (s : ScrollBar) : Prop := _apply_size_changes s = s.

(** The rectangles are up to date and the slider sits at a whole pixel
    inside its travel. *)
Definition placed (s : ScrollBar) : Prop :=
exists p : Z,
  up_to_date s
  /\ _slider_position s == inject_Z p
  /\ (0 <= p <= travel s)%Z.

(** [min(max(v, lo), hi)] on integers. *)
Definition clamp (lo hi v : Z) : Z := Z.min (Z.max v lo) hi.

(** What [_scroll] and [update] never change: the base part, the
    orientation, the length, the page step, the range, the thickness, the
    padding and the size of the slider rectangle. *)
Definition same_config (s s' : ScrollBar) : Prop :=
same_geometry s s'
/\ _page_ctrl_thick s' = _page_ctrl_thick s
/\ _slider_pad s' = _slider_pad s
/\ _single_step s' = _single_step s
/\ Rect.width (_slider_rect s') = Rect.width (_slider_rect s)
/\ Rect.height (_slider_rect s') = Rect.height (_slider_rect s).

(** What the assertions of the constructor and of the setters guard: an
    ordered range, a positive length and a slider at least 2 pixels
    thick. *)
Definition sound (s : ScrollBar) : Prop :=
vmin s < vmax s
/\ 0 < _page_ctrl_length s
/\ (2 <= _page_ctrl_thick s - 2 * _slider_pad s)%Z.

(** A call of a public method, and a program as a list of calls; an
    exception is caught and the program goes on with the object as the
    exception left it. *)
Inductive Call : Type :=
| CallSetLength (value : Q)
| CallSetMaximum (value : Q)
| CallSetMinimum (value : Q)
| CallSetOrientation (orientation : Orientation)
| CallSetPageStep (value : Q)
| CallSetValue (value : Q)
| CallUpdate (events : list Event).

Definition run_call (c : Call) (w : World) : World :=
match c with
| CallSetLength v => fst (on_sb (set_length v) w)
| CallSetMaximum v => fst (on_sb (set_maximum v) w)
| CallSetMinimum v => fst (on_sb (set_minimum v) w)
| CallSetOrientation o => fst (on_sb (set_orientation o) w)
| CallSetPageStep v => fst (on_sb (set_page_step v) w)
| CallSetValue v => fst (on_sb (set_value v) w)
| CallUpdate events => fst (update events w)
end.

Definition run_calls (calls : list Call) (w : World) : World :=
fold_left (fun w c => run_call c w) calls w.

(** The events [update] passes over on the object [s]: a key event when
    the keyboard is disabled, the bar horizontal or the key not a page
    key; a pointer event when the mouse is disabled; a motion event
    without [rel]; a wheel button on a horizontal bar or with the pointer
    outside the owning scroll area; a button that is none of 1 to 5; an
    event of another type. *)
Definition ignored (s : ScrollBar) (event : Event) : bool :=
match data event with
| KEYDOWN key =>
    negb (_keyboard_enabled (base s))
    || negb (is_vertical (_orientation s))
    || match key with K_other _ => true | _ => false end
| MOUSEMOTION None _ => true
| MOUSEMOTION (Some _) _ => negb (_mouse_enabled (base s))
| ACTIVEEVENT _ => false
| MOUSEBUTTONDOWN button _ =>
    negb (_mouse_enabled (base s))
    || (((button =? 4)%Z || (button =? 5)%Z)
        && (negb (is_vertical (_orientation s))
            || match _scrollarea (base s) with
               | Some _ => negb (area_mouse_is_over (ambient event))
               | None => false
               end))
    || negb ((button =? 1)%Z || (button =? 2)%Z || (button =? 3)%Z
             || (button =? 4)%Z || (button =? 5)%Z)
| MOUSEBUTTONUP => negb (_mouse_enabled (base s))
| OTHEREVENT => true
end.

(** ** Example objects and events *)

(** Scroll bars as the constructor builds them on [default_widget], with
    no padding and the default thickness 20: [ScrollBar(200, (0, 100))]
    and the like. *)
Definition sb_200 : result ScrollBar :=
__init__ default_widget 200 (0, 100) ORIENTATION_HORIZONTAL 0 20.

Definition sb_100 : result ScrollBar :=
__init__ default_widget 100 (0, 100) ORIENTATION_HORIZONTAL 0 20.

Definition sb_10_80 : result ScrollBar :=
__init__ default_widget 10 (0, 80) ORIENTATION_HORIZONTAL 0 20.


Definition sb_200_vertical : result ScrollBar :=
__init__ default_widget 200 (0, 100) ORIENTATION_VERTICAL 0 20.

(** No key held, the pointer at the origin. *)
Definition quiet : Ambient :=
{| pressed_lshift := false; pressed_rshift := false; mouse_pos := (0%Z, 0%Z);
   area_mouse_is_over := false |}.

Definition mouse_at (p : Z * Z) : Ambient :=
{| pressed_lshift := false; pressed_rshift := false; mouse_pos := p;
   area_mouse_is_over := false |}.

Definition page_down : Event :=
{| data := KEYDOWN K_PAGEDOWN; ambient := quiet |}.

Definition press_at (p : Z * Z) : Event :=
{| data := MOUSEBUTTONDOWN 1 p; ambient := mouse_at p |}.

Definition release : Event := {| data := MOUSEBUTTONUP; ambient := quiet |}.

Definition focus_lost_at (p : Z * Z) : Event :=
{| data := ACTIVEEVENT 0; ambient := mouse_at p |}.

Definition focus_gained_at (p : Z * Z) : Event :=
{| data := ACTIVEEVENT 1; ambient := mouse_at p |}.

(** * Properties *)

(** ** Python numbers *)

Lemma inject_Z_sub (a b : Z) : inject_Z (a - b) = inject_Z a - inject_Z b.
Proof.
  unfold Z.sub, Qminus. now rewrite inject_Z_plus, inject_Z_opp.
Qed.

Lemma ltb_lt (a b : Q) : Py.ltb a b = true <-> a < b.
Proof.
  unfold Py.ltb. rewrite negb_true_iff.
  split; intro H.
  - apply Qnot_le_lt. intro Hle. apply Qle_bool_iff in Hle. congruence.
  - destruct (Qle_bool b a) eqn:E; [|reflexivity].
    apply Qle_bool_iff in E. exfalso. apply (Qlt_not_le _ _ H E).
Qed.

Lemma ltb_ge (a b : Q) : Py.ltb a b = false <-> b <= a.
Proof.
  unfold Py.ltb. rewrite negb_false_iff. apply Qle_bool_iff.
Qed.

Lemma is_zero_iff (q : Q) : Py.is_zero q = true <-> q == 0.
Proof. unfold Py.is_zero. apply Qeq_bool_iff. Qed.

Lemma is_zero_false (q : Q) : Py.is_zero q = false <-> ~ q == 0.
Proof.
  unfold Py.is_zero. split; intro H.
  - intro E. apply Qeq_bool_iff in E. congruence.
  - destruct (Qeq_bool q 0) eqn:E; [|reflexivity].
    apply Qeq_bool_iff in E. contradiction.
Qed.

Lemma Qle_bool_false (a b : Q) : Qle_bool a b = false <-> b < a.
Proof.
  split; intro H.
  - apply Qnot_le_lt. intro Hle. apply Qle_bool_iff in Hle. congruence.
  - destruct (Qle_bool a b) eqn:E; [|reflexivity].
    apply Qle_bool_iff in E. exfalso. apply (Qlt_not_le _ _ H E).
Qed.

Lemma max_spec (a b : Q) : a <= Py.max a b /\ b <= Py.max a b
  /\ (Py.max a b == a \/ Py.max a b == b).
Proof.
  unfold Py.max. destruct (Py.ltb a b) eqn:E.
  - apply ltb_lt in E. repeat split; try lra; try (right; reflexivity).
  - apply ltb_ge in E. repeat split; try lra; try (left; reflexivity).
Qed.

Lemma min_spec (a b : Q) : Py.min a b <= a /\ Py.min a b <= b
  /\ (Py.min a b == a \/ Py.min a b == b).
Proof.
  unfold Py.min. destruct (Py.ltb b a) eqn:E.
  - apply ltb_lt in E. repeat split; try lra; try (right; reflexivity).
  - apply ltb_ge in E. repeat split; try lra; try (left; reflexivity).
Qed.




#[export] Instance int_comp : Proper (Qeq ==> eq) Py.int.
Proof.
  intros a b E. unfold Py.int.
  assert (Hb : Qle_bool 0 a = Qle_bool 0 b).
  { destruct (Qle_bool 0 a) eqn:Ea; destruct (Qle_bool 0 b) eqn:Eb; auto.
    - apply Qle_bool_iff in Ea. apply Qle_bool_false in Eb. lra.
    - apply Qle_bool_iff in Eb. apply Qle_bool_false in Ea. lra. }
  rewrite Hb. destruct (Qle_bool 0 b).
  - apply Qfloor_comp; exact E.
  - apply Qceiling_comp; exact E.
Qed.

Lemma int_inject_Z (z : Z) : Py.int (inject_Z z) = z.
Proof.
  unfold Py.int. destruct (Qle_bool 0 (inject_Z z)).
  - apply Qfloor_Z.
  - apply Qceiling_Z.
Qed.

Lemma int_mono (a b : Q) : a <= b -> (Py.int a <= Py.int b)%Z.
Proof.
  intro H. unfold Py.int.
  destruct (Qle_bool 0 a) eqn:Ea; destruct (Qle_bool 0 b) eqn:Eb.
  - apply Qfloor_resp_le; exact H.
  - apply Qle_bool_iff in Ea. apply Qle_bool_false in Eb. lra.
  - apply Qle_bool_false in Ea. apply Qle_bool_iff in Eb.
    apply Z.le_trans with 0%Z.
    + change 0%Z with (Qceiling 0). apply Qceiling_resp_le. lra.
    + change 0%Z with (Qfloor 0). apply Qfloor_resp_le. exact Eb.
  - apply Qceiling_resp_le; exact H.
Qed.

(** [round] is within one half of its argument. *)
Lemma round_close (q : Q) : Qabs (inject_Z (Py.round q) - q) <= 1 # 2.
Proof.
  apply Qabs_Qle_condition. unfold Py.round.
  pose proof (Qfloor_le q) as Hl. pose proof (Qlt_floor q) as Hu.
  rewrite inject_Z_plus in Hu. change (inject_Z 1) with 1 in Hu.
  destruct (Qcompare (q - inject_Z (Qfloor q)) (1 # 2)) eqn:C.
  - apply Qeq_alt in C.
    destruct (Z.even (Qfloor q)); [|rewrite inject_Z_plus; change (inject_Z 1) with 1];
      split; lra.
  - apply Qlt_alt in C. split; lra.
  - apply Qgt_alt in C. rewrite inject_Z_plus. change (inject_Z 1) with 1.
    split; lra.
Qed.

Ltac se_unfold :=
  unfold bind, get, gets, modify, assert, ret, raise, read in *.

(** Evaluate a construction or a call and hand the object it yields to
    the continuation. *)
Ltac with_ok r k :=
  let v := eval vm_compute in r in
  lazymatch v with Ok ?s => k s end.

(** Compute projections and constructors, leave the arithmetic alone. *)
Ltac zcbn :=
  cbn -[Z.mul Z.add Z.sub Z.min Z.max Z.opp Z.quot Py.int Py.round Py.floordiv
        get_value get_value_percentual
        Qplus Qmult Qminus Qdiv Qopp inject_Z] in *.

Ltac with_run m k :=
  let v := eval vm_compute in m in
  lazymatch v with (?s, Ok _) => k s end.

(** ** The analog joystick predicates *)

Section ControlsProperties.

Import Controls.

Variable Target : Type.

Lemma below_deadzone (v : Q) :
  v < - JOY_DEADZONE <-> JOY_DEADZONE < Qabs v /\ v < 0.
Proof.
  unfold JOY_DEADZONE. split.
  - intro H. split; [|lra].
    rewrite Qabs_neg by lra. lra.
  - intros [H N]. rewrite Qabs_neg in H by lra. lra.
Qed.

Lemma above_deadzone (v : Q) :
  JOY_DEADZONE < v <-> JOY_DEADZONE < Qabs v /\ 0 < v.
Proof.
  unfold JOY_DEADZONE. split.
  - intro H. split; [|lra].
    rewrite Qabs_pos by lra. lra.
  - intros [H N]. rewrite Qabs_pos in H by lra. lra.
Qed.

(** C9.  Each of the four analog predicates answers true exactly when the
    event is on the predicate's axis, the magnitude of its value exceeds
    the deadzone and its sign is the one of the direction: negative for
    left and up, positive for right and down.  The predicates are functions
    of the controller, the event and the target to a boolean: there is no
    state for them to change. *)
Theorem joy_axis_predicates
  (self : Controller) (event : JoyAxisMotion) (widget : Target) :
  (joy_axis_x_left Target self event widget = true <->
     axis event = JOY_AXIS_X /\ JOY_DEADZONE < Qabs (value event)
     /\ value event < 0)
  /\ (joy_axis_x_right Target self event widget = true <->
     axis event = JOY_AXIS_X /\ JOY_DEADZONE < Qabs (value event)
     /\ 0 < value event)
  /\ (joy_axis_y_up Target self event widget = true <->
     axis event = JOY_AXIS_Y /\ JOY_DEADZONE < Qabs (value event)
     /\ value event < 0)
  /\ (joy_axis_y_down Target self event widget = true <->
     axis event = JOY_AXIS_Y /\ JOY_DEADZONE < Qabs (value event)
     /\ 0 < value event).
Proof.
  unfold joy_axis_x_left, joy_axis_x_right, joy_axis_y_up, joy_axis_y_down.
  split; [|split; [|split]]; rewrite andb_true_iff, Z.eqb_eq, ltb_lt;
    first [rewrite below_deadzone | rewrite above_deadzone]; tauto.
Qed.

End ControlsProperties.

(** ** The range setters *)

Lemma set_minimum_cases (value : Q) (self : ScrollBar) :
  (0 <= value /\ value < vmax self
   /\ set_minimum value self
      = (with_values_range self (value, vmax self), Ok tt))
  \/ ((value < 0 \/ vmax self <= value)
      /\ set_minimum value self = (self, Raise AssertionError)).
Proof.
  unfold set_minimum. se_unfold.
  destruct (Qle_bool 0 value) eqn:E0; destruct (Py.ltb value (vmax self)) eqn:E1;
    cbn [andb].
  - left. apply Qle_bool_iff in E0. apply ltb_lt in E1. auto.
  - right. apply ltb_ge in E1. auto.
  - right. apply Qle_bool_false in E0. auto.
  - right. apply Qle_bool_false in E0. auto.
Qed.

Lemma set_maximum_cases (value : Q) (self : ScrollBar) :
  (vmin self < value
   /\ set_maximum value self
      = (with_values_range self (vmin self, value), Ok tt))
  \/ (value <= vmin self
      /\ set_maximum value self = (self, Raise AssertionError)).
Proof.
  unfold set_maximum. se_unfold.
  destruct (Py.ltb (vmin self) value) eqn:E.
  - left. apply ltb_lt in E. auto.
  - right. apply ltb_ge in E. auto.
Qed.

(** C7, as the claim states it, fails: [set_minimum(-1)] raises although
    [-1] is below the maximum [100]. *)
Lemma set_minimum_rejects_negative :
  exists self,
    sb_200 = Ok self /\ -1 < vmax self
    /\ set_minimum (-1) self = (self, Raise AssertionError).
Proof.
  eexists. split; [vm_compute; reflexivity|].
  split; vm_compute; reflexivity.
Qed.

(** C7, amended.  [set_minimum(v)] fails exactly when [v] is negative or
    is not below the current maximum, and a failing call leaves the whole
    object as it was; otherwise ([0 <= v < max]) the call succeeds, the
    minimum becomes [v] and no other field changes. *)
Theorem set_minimum_accepts_iff (value : Q) (self : ScrollBar) :
  ((value < 0 \/ vmax self <= value)
   /\ set_minimum value self = (self, Raise AssertionError))
  \/ (0 <= value /\ value < vmax self
      /\ exists self',
           set_minimum value self = (self', Ok tt)
           /\ self' = with_values_range self (value, vmax self)
           /\ vmin self' = value /\ vmax self' = vmax self
           /\ _page_step self' = _page_step self
           /\ _slider_position self' = _slider_position self).
Proof.
  destruct (set_minimum_cases value self) as [(H0 & H1 & E)|[H E]].
  - right. repeat split; try assumption.
    eexists. split; [exact E|]. repeat split.
  - left. auto.
Qed.

(** C5, as the claim states it, fails: with length 200, range [0, 100] and
    a page step of 50 the slider is 100 pixels long; after
    [set_maximum(200)] it is still 100 pixels long, not
    [200 * 50 / 200 = 50]. *)
Lemma set_maximum_keeps_page_step :
  exists s0 s1 s2,
    sb_200 = Ok s0
    /\ set_page_step 50 s0 = (s1, Ok tt)
    /\ set_maximum 200 s1 = (s2, Ok tt)
    /\ _page_step s2 == 100
    /\ ~ _page_step s2 == _page_ctrl_length s2 * 50 / (vmax s2 - vmin s2).
Proof.
  do 3 eexists.
  split; [vm_compute; reflexivity|].
  split; [vm_compute; reflexivity|].
  split; [vm_compute; reflexivity|].
  split; vm_compute; congruence.
Qed.

(** C5, amended.  A successful [set_maximum(v)] replaces the maximum by
    [v], a successful [set_minimum(v)] replaces the minimum by [v], and
    neither does anything else: the other bound, the page step in pixels,
    the single step, the track length, the slider position and the two
    rectangles are the ones from before the call; nothing is derived
    again and nothing is clamped.  [maximum] tells which of the two
    setters is called. *)
Theorem set_bound_keeps_geometry (maximum : bool) (value : Q)
  (self self' : ScrollBar) :
  (if maximum then set_maximum value self else set_minimum value self)
  = (self', Ok tt) ->
  self' = with_values_range self
            (if maximum then (vmin self, value) else (value, vmax self))
  /\ _values_range self'
     = (if maximum then (vmin self, value) else (value, vmax self))
  /\ _page_step self' = _page_step self
  /\ _single_step self' = _single_step self
  /\ _page_ctrl_length self' = _page_ctrl_length self
  /\ _slider_position self' = _slider_position self
  /\ _slider_rect self' = _slider_rect self
  /\ base self' = base self.
Proof.
  intro H. destruct maximum.
  - destruct (set_maximum_cases value self) as [[_ E]|[_ E]];
      rewrite E in H; inversion H; subst; cbn; repeat split; reflexivity.
  - destruct (set_minimum_cases value self) as [(_ & _ & E)|[_ E]];
      rewrite E in H; inversion H; subst; cbn; repeat split; reflexivity.
Qed.

Lemma set_bound_keeps_geometry_witness :
  exists s0 s1 s2,
    sb_200 = Ok s0
    /\ set_maximum 200 s0 = (s1, Ok tt)
    /\ set_minimum 50 s1 = (s2, Ok tt)
    /\ _values_range s1 = (0, 200) /\ _page_step s1 = _page_step s0
    /\ _values_range s2 = (50, 200) /\ _page_step s2 = _page_step s0.
Proof.
  with_ok sb_200 ltac:(fun s0 =>
    with_run (set_maximum 200 s0) ltac:(fun s1 =>
      with_run (set_minimum 50 s1) ltac:(fun s2 =>
        exists s0, s1, s2;
        split; [vm_compute; reflexivity|];
        split; [vm_compute; reflexivity|];
        split; [vm_compute; reflexivity|];
        assert (H1 := set_bound_keeps_geometry true 200 s0 s1
                        ltac:(vm_compute; reflexivity));
        assert (H2 := set_bound_keeps_geometry false 50 s1 s2
                        ltac:(vm_compute; reflexivity));
        destruct H1 as (_ & R1 & P1 & _);
        destruct H2 as (_ & R2 & P2 & _);
        split; [exact R1|]; split; [exact P1|];
        split; [exact R2|]; rewrite P2; exact P1))).
Defined.

(** ** The page step *)


Lemma floordiv_2_lt (p : Q) : 0 < p -> Py.floordiv p 2 < p.
Proof.
  intro H. unfold Py.floordiv.
  apply Qle_lt_trans with (p / 2); [apply Qfloor_le|].
  apply Qlt_shift_div_r; lra.
Qed.

(** The fields [set_page_step] assigns, case by case. *)
Lemma set_page_step_cases (value : Q) (self : ScrollBar) :
  vmin self < vmax self ->
  let p := _page_ctrl_length self * value / (vmax self - vmin self) in
  (value <= 0 /\ set_page_step value self = (self, Raise AssertionError))
  \/ (0 < value /\ p <= _single_step self
      /\ set_page_step value self
         = (_apply_size_changes
              (with_single_step (with_page_step self p) (Py.floordiv p 2)),
            Ok tt))
  \/ (0 < value /\ _single_step self < p
      /\ set_page_step value self
         = (_apply_size_changes (with_page_step self p), Ok tt)).
Proof.
  intros Hr p. unfold set_page_step. se_unfold.
  destruct (Py.ltb 0 value) eqn:Ev.
  - apply ltb_lt in Ev. right.
    assert (Z0 : Py.is_zero (vmax self - vmin self) = false)
      by (apply is_zero_false; lra).
    rewrite Z0. cbn [_page_step _single_step with_page_step].
    fold p.
    destruct (Qle_bool p (_single_step self)) eqn:Es.
    + left. apply Qle_bool_iff in Es. auto.
    + right. apply Qle_bool_false in Es. auto.
  - apply ltb_ge in Ev. left. auto.
Qed.

(** C8, as the claim states it, fails: with length 200 and range
    [0, 100], [set_page_step(2.5)] gives a page step of 5 pixels, which the
    stored single step 20 is not below; the single step becomes
    [5 // 2 = 2], not [5 / 2]. *)
Lemma set_page_step_single_step_is_floor :
  exists s0 s1,
    sb_200 = Ok s0
    /\ set_page_step (5 # 2) s0 = (s1, Ok tt)
    /\ _page_step s1 <= _single_step s0
    /\ _page_step s1 == 5
    /\ _single_step s1 == 2
    /\ ~ _single_step s1 == _page_step s1 / 2.
Proof.
  do 2 eexists.
  split; [vm_compute; reflexivity|].
  split; [vm_compute; reflexivity|].
  repeat split; vm_compute; congruence.
Qed.

(** C8, amended.  After a successful [set_page_step], with the page step
    in pixels that the call stored: if the single step from before the
    call is not below it, the single step becomes the floor of half the
    page step ([page_step // 2]), and otherwise it is kept; in both cases,
    when the stored page step is positive, the single step is afterwards
    strictly smaller than the page step. *)
Theorem set_page_step_single_step (value : Q) (self self' : ScrollBar) :
  set_page_step value self = (self', Ok tt) ->
  (_page_step self' <= _single_step self ->
   _single_step self' = inject_Z (Qfloor (_page_step self' / 2)))
  /\ (_single_step self < _page_step self' ->
      _single_step self' = _single_step self)
  /\ (0 < _page_step self' -> _single_step self' < _page_step self').
Proof.
  intro H. unfold set_page_step in H. se_unfold.
  destruct (Py.ltb 0 value); [|discriminate].
  destruct (Py.is_zero (vmax self - vmin self)); [discriminate|].
  cbn [_page_step _single_step with_page_step] in H.
  set (p := _page_ctrl_length self * value / (vmax self - vmin self)) in *.
  destruct (Qle_bool p (_single_step self)) eqn:Es;
    inversion H; subst self'; clear H;
    cbn [_apply_size_changes _page_step _single_step with_slider_rect
         with_rect with_single_step with_page_step].
  - apply Qle_bool_iff in Es.
    split; [intros _; reflexivity|].
    split; [intro; lra|]. apply floordiv_2_lt.
  - apply Qle_bool_false in Es.
    split; [intro; lra|].
    split; [intros _; reflexivity|]. intros _; exact Es.
Qed.

Lemma set_page_step_single_step_witness :
  exists s0 s1,
    sb_200 = Ok s0 /\ set_page_step (5 # 2) s0 = (s1, Ok tt)
    /\ _single_step s1 = inject_Z (Qfloor (_page_step s1 / 2))
    /\ _single_step s1 < _page_step s1.
Proof.
  with_ok sb_200 ltac:(fun s0 =>
    with_run (set_page_step (5 # 2) s0) ltac:(fun s1 =>
      exists s0, s1;
      split; [vm_compute; reflexivity|];
      split; [vm_compute; reflexivity|];
      assert (H := set_page_step_single_step (5 # 2) s0 s1
                     ltac:(vm_compute; reflexivity));
      destruct H as (H1 & _ & H3);
      split; [apply H1|apply H3]; vm_compute; congruence)).
Defined.

(** ** The constructor *)

Lemma init_cases (w0 : Widget) (length : Q) (values_range : Q * Q)
  (orientation : Orientation) (slider_pad page_ctrl_thick : Z)
  (self : ScrollBar) :
  __init__ w0 length values_range orientation slider_pad page_ctrl_thick
  = Ok self ->
  let self0 :=
    {| base := w0;
       _last_mouse_pos := ((-1)%Z, (-1)%Z);
       _mouseover := false;
       _orientation := ORIENTATION_HORIZONTAL;
       _values_range := values_range;
       _page_ctrl_length := length;
       _page_ctrl_thick := page_ctrl_thick;
       _slider_rect := Rect.mk 0 0 0 0;
       _slider_pad := slider_pad;
       _slider_position := 0;
       _single_step := 20;
       _page_step := 0;
       scrolling := false |} in
  let value :=
    if Py.ltb length (snd values_range - fst values_range)
    then length else (snd values_range - fst values_range) / 5 in
  fst values_range < snd values_range
  /\ (2 <= page_ctrl_thick - 2 * slider_pad)%Z
  /\ exists self1,
       set_page_step value self0 = (self1, Ok tt)
       /\ self = with_scrolling
                   (_apply_size_changes (with_orientation self1 orientation))
                   false.
Proof.
  intros H self0 value. unfold __init__ in H.
  destruct (Py.ltb (fst values_range) (snd values_range)) eqn:Er;
    cbn [negb] in H; [|discriminate].
  destruct (2 <=? page_ctrl_thick - 2 * slider_pad)%Z eqn:Et;
    cbn [negb] in H; [|discriminate].
  apply ltb_lt in Er. apply Z.leb_le in Et.
  split; [exact Er|]. split; [exact Et|].
  fold self0 in H.
  assert (Hv : (if Py.ltb length (snd values_range - fst values_range)
                then set_page_step length
                else set_page_step ((snd values_range - fst values_range) / 5))
               = set_page_step value).
  { unfold value. destruct (Py.ltb length _); reflexivity. }
  rewrite Hv in H. unfold bind at 1 in H.
  destruct (set_page_step value self0) as [self1 [[]|e]] eqn:E1.
  - exists self1. split; [reflexivity|].
    unfold set_orientation in H. se_unfold. inversion H. reflexivity.
  - discriminate.
Qed.



(** ** [get_value] without scrollable range *)

Lemma get_value_raises_iff (self : ScrollBar) :
  get_value self = Raise ZeroDivisionError
  <-> _page_ctrl_length self == _page_step self.
Proof.
  unfold get_value.
  destruct (Py.is_zero (_page_ctrl_length self - _page_step self)) eqn:E.
  - apply is_zero_iff in E. split; [intros _; lra|reflexivity].
  - apply is_zero_false in E. split; [discriminate|intro; lra].
Qed.

(** C2.  With length 100 and range [0, 100], [set_page_step(100)] makes
    the page step 100 pixels, the length of the track; in that state
    [get_value()] divides by [length - page_step = 0] and raises
    [ZeroDivisionError] instead of returning the minimum. *)
Theorem get_value_without_range_raises :
  exists s0 s1,
    sb_100 = Ok s0
    /\ set_page_step 100 s0 = (s1, Ok tt)
    /\ _page_ctrl_length s1 == _page_step s1
    /\ _slider_position s1 == 0
    /\ get_value s1 = Raise ZeroDivisionError.
Proof.
  do 2 eexists.
  split; [vm_compute; reflexivity|].
  split; [vm_compute; reflexivity|].
  split; [vm_compute; reflexivity|].
  split; [vm_compute; reflexivity|].
  apply get_value_raises_iff. vm_compute; reflexivity.
Qed.

(** The slider is not moved back either: at the maximum of the range
    the slider is at 80; [set_page_step(100)] then leaves it there while
    the travel shrinks to nothing. *)
Lemma set_page_step_keeps_position :
  exists s0 s1 s2,
    sb_100 = Ok s0
    /\ set_value 100 s0 = (s1, Ok tt)
    /\ set_page_step 100 s1 = (s2, Ok tt)
    /\ _page_ctrl_length s2 == _page_step s2
    /\ _slider_position s2 == 80
    /\ get_value s2 = Raise ZeroDivisionError.
Proof.
  with_ok sb_100 ltac:(fun s0 =>
    with_run (set_value 100 s0) ltac:(fun s1 =>
      with_run (set_page_step 100 s1) ltac:(fun s2 => exists s0, s1, s2))).
  repeat split; vm_compute; reflexivity.
Qed.

(** ** The clamped scroll *)

Lemma _scroll_cases (rect : Rect.t) (pixels : Q) (self : ScrollBar) :
  let move := clamped_move rect pixels self in
  ((pixels == 0 \/ move = 0%Z) /\ _scroll rect pixels self = (self, Ok false))
  \/ (~ pixels == 0 /\ move <> 0%Z
      /\ _scroll rect pixels self
         = (with_slider_position
              (with_slider_rect self
                 (Rect.move (_slider_rect self) (move_pos (_orientation self) move)))
              (_slider_position self + inject_Z move),
            Ok true)).
Proof.
  intro move. unfold _scroll.
  destruct (Py.is_zero pixels) eqn:E0.
  - left. apply is_zero_iff in E0. auto.
  - apply is_zero_false in E0. fold (clamped_move rect pixels self). fold move.
    destruct (move =? 0)%Z eqn:Em.
    + left. apply Z.eqb_eq in Em. auto.
    + right. apply Z.eqb_neq in Em. repeat split; auto.
Qed.

(** Under the geometry invariant the two free spaces are the distances of
    the slider to the ends of its travel; where the rectangle lies does
    not matter. *)
Lemma clamped_move_travel (rect : Rect.t) (pixels : Q) (self : ScrollBar) (p : Z) :
  slider_in_rect self p ->
  dim (is_vertical (_orientation self)) rect
  = dim (is_vertical (_orientation self)) (_rect (base self)) ->
  clamped_move rect pixels self
  = Z.min (Z.max (Py.round pixels) (- p)) (travel self - p).
Proof.
  intros (_ & Hp & Hd & Hr) Hrect. unfold clamped_move, travel, idx.
  rewrite Hr in Hrect.
  destruct (_orientation self); zcbn; lia.
Qed.

Lemma _scroll_invariant (rect : Rect.t) (pixels : Q) (self : ScrollBar) (p : Z) :
  slider_in_rect self p ->
  dim (is_vertical (_orientation self)) rect
  = dim (is_vertical (_orientation self)) (_rect (base self)) ->
  let m := Z.min (Z.max (Py.round pixels) (- p)) (travel self - p) in
  exists self' moved,
    _scroll rect pixels self = (self', Ok moved)
    /\ (moved = true -> ~ pixels == 0 /\ m <> 0%Z
                        /\ slider_in_rect self' (p + m))
    /\ (moved = false -> (pixels == 0 \/ m = 0%Z) /\ self' = self)
    /\ base self' = base self
    /\ _orientation self' = _orientation self
    /\ _page_ctrl_length self' = _page_ctrl_length self
    /\ _page_step self' = _page_step self
    /\ _values_range self' = _values_range self.
Proof.
  intros Hinv Hrect m.
  pose proof (clamped_move_travel rect pixels self p Hinv Hrect) as Hm.
  fold m in Hm.
  destruct (_scroll_cases rect pixels self) as [[Hz E]|(Hz & Hmz & E)];
    cbv zeta in *; rewrite Hm in *; rewrite E.
  - exists self, false. repeat split; auto; discriminate.
  - eexists _, true. split; [reflexivity|].
    repeat split; auto; try discriminate.
    all: destruct Hinv as (Hq & Hp & Hd & Hr); zcbn.
    + rewrite Hq, inject_Z_plus. reflexivity.
    + destruct (_orientation self); zcbn; lia.
    + destruct (_orientation self); zcbn; lia.
    + exact Hr.
Qed.

Lemma scroll_all_invariant (rect : Rect.t) (pixels : list Q) :
  forall (self : ScrollBar) (p : Z),
    slider_in_rect self p ->
    dim (is_vertical (_orientation self)) rect
    = dim (is_vertical (_orientation self)) (_rect (base self)) ->
    (0 <= p <= travel self)%Z ->
    exists self' p',
      scroll_all rect pixels self = (self', Ok tt)
      /\ slider_in_rect self' p'
      /\ (0 <= p' <= travel self)%Z
      /\ travel self' = travel self.
Proof.
  induction pixels as [|q rest IH]; intros self p Hinv Hrect Hp.
  - exists self, p. cbn. unfold ret. auto.
  - destruct (_scroll_invariant rect q self p Hinv Hrect)
      as (s1 & moved & E & Ht & Hf & Hb & Ho & HL & HP & _).
    cbv zeta in Ht, Hf.
    assert (H1 : exists p1, slider_in_rect s1 p1 /\ (0 <= p1 <= travel self)%Z).
    { destruct moved.
      - destruct (Ht eq_refl) as (_ & _ & Hs). eexists. split; [exact Hs|]. lia.
      - destruct (Hf eq_refl) as (_ & ->). exists p. auto. }
    destruct H1 as (p1 & Hinv1 & Hp1).
    assert (Htr : travel s1 = travel self) by (unfold travel; rewrite HL, HP; reflexivity).
    destruct (IH s1 p1 Hinv1) as (s2 & p2 & E2 & Hinv2 & Hp2 & Htr2).
    + rewrite Ho, Hb. exact Hrect.
    + rewrite Htr. exact Hp1.
    + exists s2, p2. cbn. unfold bind. rewrite E.
      rewrite Htr in Hp2. rewrite Htr in Htr2. auto.
Qed.

Lemma quot_double_opp (a : Z) : Z.quot (-2 * a) 2 = (- a)%Z.
Proof.
  replace (-2 * a)%Z with ((- a) * 2)%Z by lia.
  apply Z.quot_mul. discriminate.
Qed.

Lemma apply_size_changes_slider_in_rect (self : ScrollBar) (p : Z) :
  _slider_position self == inject_Z p ->
  slider_in_rect (_apply_size_changes self) p.
Proof.
  intro Hp. unfold slider_in_rect, _apply_size_changes.
  assert (Hi : Py.int (_slider_position self) = p)
    by (rewrite (int_comp _ _ Hp); apply int_inject_Z).
  pose proof (quot_double_opp (_slider_pad self)) as Hq.
  zcbn. destruct (_orientation self); zcbn; rewrite Hi, Hq;
    repeat split; try exact Hp; lia.
Qed.

(** The constructor only succeeds for a positive length, and leaves the
    slider at 0 inside a travel that is not negative. *)
Lemma init_slider_in_rect (w0 : Widget) (length : Q) (values_range : Q * Q)
  (orientation : Orientation) (slider_pad page_ctrl_thick : Z)
  (self : ScrollBar) :
  __init__ w0 length values_range orientation slider_pad page_ctrl_thick
  = Ok self ->
  0 < length /\ slider_in_rect self 0 /\ (0 <= travel self)%Z.
Proof.
  intro H. apply init_cases in H. cbv zeta in H.
  destruct H as (Hr & _ & self1 & E & ->).
  match type of E with set_page_step ?v ?s0 = _ =>
    set (value := v) in *; set (self0 := s0) in * end.
  assert (Hr0 : vmin self0 < vmax self0) by exact Hr.
  assert (Hpos : 0 < value -> 0 < length).
  { unfold value.
    destruct (Py.ltb length (snd values_range - fst values_range)) eqn:El.
    - auto.
    - intros _. apply ltb_ge in El. lra. }
  assert (Hle : 0 < length ->
                length * value / (snd values_range - fst values_range) <= length).
  { intro HL. unfold value.
    destruct (Py.ltb length (snd values_range - fst values_range)) eqn:El.
    - apply ltb_lt in El. apply Qle_shift_div_r; [lra|]. nra.
    - apply Qle_shift_div_r; [lra|].
      setoid_replace (length * ((snd values_range - fst values_range) / 5))
        with ((length * (snd values_range - fst values_range)) / 5) by field.
      apply Qle_shift_div_r; [lra|]. nra. }
  destruct (set_page_step_cases value self0 Hr0)
    as [[_ E']|[(Hv & _ & E')|(Hv & _ & E')]];
    rewrite E' in E; inversion E; subst self1; clear E E';
    (split; [exact (Hpos Hv)|]); (split;
      [ assert (S : forall s, slider_in_rect s 0%Z ->
                              slider_in_rect (with_scrolling s false) 0%Z)
          by (intros s Hs; exact Hs);
        apply S, apply_size_changes_slider_in_rect; reflexivity
      | unfold travel; zcbn; apply Zle_minus_le_0, int_mono;
        exact (Hle (Hpos Hv)) ]).
Qed.

(** With the slider rectangle at [p + padding], the two free spaces
    [_scroll] computes are [p] pixels before the slider and
    [track_travel - p] pixels after it, whatever the sizes of the
    rectangles and wherever [rect] lies. *)
Lemma clamped_move_track (rect : Rect.t) (pixels : Q) (self : ScrollBar) (p : Z) :
  slider_at self p ->
  clamped_move rect pixels self
  = Z.min (Z.max (Py.round pixels) (- p)) (track_travel rect self - p).
Proof.
  intros (_ & Hp). unfold clamped_move, track_travel, idx.
  destruct (_orientation self); zcbn; lia.
Qed.

Lemma _scroll_track_invariant (rect : Rect.t) (pixels : Q) (self : ScrollBar)
  (p : Z) :
  slider_at self p ->
  let m := Z.min (Z.max (Py.round pixels) (- p)) (track_travel rect self - p) in
  exists self' moved,
    _scroll rect pixels self = (self', Ok moved)
    /\ slider_at self' (if moved then p + m else p)
    /\ (moved = true -> ~ pixels == 0 /\ m <> 0%Z)
    /\ (moved = false -> (pixels == 0 \/ m = 0%Z) /\ self' = self)
    /\ track_travel rect self' = track_travel rect self
    /\ _page_ctrl_length self' = _page_ctrl_length self
    /\ _page_step self' = _page_step self.
Proof.
  intros Hat m.
  pose proof (clamped_move_track rect pixels self p Hat) as Hm.
  fold m in Hm.
  destruct (_scroll_cases rect pixels self) as [[Hz E]|(Hz & Hmz & E)];
    cbv zeta in *; rewrite Hm in *; rewrite E.
  - exists self, false. repeat split; auto; try discriminate; apply Hat.
  - eexists _, true. split; [reflexivity|].
    destruct Hat as (Hq & Hp).
    unfold slider_at, track_travel. zcbn.
    repeat split; auto; try discriminate.
    + rewrite Hq, inject_Z_plus. reflexivity.
    + destruct (_orientation self); zcbn; lia.
Qed.

Lemma scroll_all_track_invariant (rect : Rect.t) (pixels : list Q) :
  forall (self : ScrollBar) (p : Z),
    slider_at self p ->
    (0 <= p <= track_travel rect self)%Z ->
    exists self' p',
      scroll_all rect pixels self = (self', Ok tt)
      /\ slider_at self' p'
      /\ (0 <= p' <= track_travel rect self)%Z
      /\ track_travel rect self' = track_travel rect self
      /\ _page_ctrl_length self' = _page_ctrl_length self
      /\ _page_step self' = _page_step self.
Proof.
  induction pixels as [|q rest IH]; intros self p Hat Hp.
  - exists self, p. cbn. unfold ret. auto 7.
  - destruct (_scroll_track_invariant rect q self p Hat)
      as (s1 & moved & E & Hat1 & _ & _ & Htr & HL & HP).
    cbv zeta in Hat1.
    set (p1 := if moved
               then (p + Z.min (Z.max (Py.round q) (- p))
                               (track_travel rect self - p))%Z
               else p) in *.
    assert (Hp1 : (0 <= p1 <= track_travel rect s1)%Z)
      by (rewrite Htr; unfold p1; destruct moved; lia).
    destruct (IH s1 p1 Hat1 Hp1) as (s2 & p2 & E2 & Hat2 & Hp2 & Htr2 & HL2 & HP2).
    exists s2, p2. cbn. unfold bind. rewrite E.
    rewrite Htr in Hp2, Htr2. rewrite HL in HL2. rewrite HP in HP2. auto 7.
Qed.

(** C3, as the claim states it, fails: with length 10 and range [0, 80]
    the page step is 1.25 pixels and the slider rectangle 1 pixel long,
    whether the rectangle stores 1.25 by truncation or by rounding; a
    scroll far to the right stops at position 9, beyond
    [length - page_step = 8.75]. *)
Lemma scroll_passes_length_minus_page_step :
  exists s0 s1,
    sb_10_80 = Ok s0
    /\ _page_step s0 == 5 # 4
    /\ Py.int (_page_step s0) = 1%Z /\ Py.round (_page_step s0) = 1%Z
    /\ dim false (_slider_rect s0) = 1%Z
    /\ _page_ctrl_length s0 - _page_step s0 == 35 # 4
    /\ _scroll (get_rect s0) 100 s0 = (s1, Ok true)
    /\ _slider_position s1 == 9
    /\ ~ _slider_position s1 <= _page_ctrl_length s1 - _page_step s1.
Proof.
  with_ok sb_10_80 ltac:(fun s0 =>
    with_run (_scroll (get_rect s0) 100 s0) ltac:(fun s1 => exists s0, s1)).
  do 8 (split; [vm_compute; reflexivity|]).
  vm_compute. intro H. apply H. reflexivity.
Qed.

(** C3, amended.  Take a state whose slider position is a whole number
    [p] with the slider rectangle at [p + padding], and a rectangle
    [rect] in which the slider has [T] whole pixels of travel: [T] is the
    length of [rect] less the length of the slider rectangle and the
    padding at both ends, as the rectangles hold them.  If
    [0 <= p <= T], every sequence of [_scroll] calls on [rect] returns
    and leaves the slider position between 0 and [T].  [T] is
    [length - page_step] when the rectangles hold the length and the
    page step exactly, as they do for whole numbers; the slider then
    stays within [[0, length - page_step]]. *)
Theorem scroll_all_within_track
  (rect : Rect.t) (pixels : list Q) (self : ScrollBar) (p : Z) :
  slider_at self p ->
  (0 <= p <= track_travel rect self)%Z ->
  exists self',
    scroll_all rect pixels self = (self', Ok tt)
    /\ _page_ctrl_length self' = _page_ctrl_length self
    /\ _page_step self' = _page_step self
    /\ track_travel rect self' = track_travel rect self
    /\ 0 <= _slider_position self'
    /\ _slider_position self' <= inject_Z (track_travel rect self)
    /\ (inject_Z (dim (is_vertical (_orientation self)) rect)
        == _page_ctrl_length self ->
        inject_Z (dim (is_vertical (_orientation self)) (_slider_rect self)
                  + 2 * _slider_pad self)
        == _page_step self ->
        _slider_position self' <= _page_ctrl_length self' - _page_step self').
Proof.
  intros Hat Hp.
  destruct (scroll_all_track_invariant rect pixels self p Hat Hp)
    as (self' & p' & E & (Hq & _) & Hp' & Htr & HL & HP).
  exists self'. split; [exact E|].
  split; [exact HL|]. split; [exact HP|]. split; [exact Htr|].
  assert (B : 0 <= _slider_position self'
              /\ _slider_position self' <= inject_Z (track_travel rect self)).
  { rewrite Hq. change 0 with (inject_Z 0). rewrite <- !Zle_Qle. exact Hp'. }
  destruct B as [B0 B1].
  split; [exact B0|]. split; [exact B1|].
  intros IL IP. rewrite HL, HP, <- IL, <- IP, <- inject_Z_sub.
  eapply Qle_trans; [exact B1|]. rewrite <- Zle_Qle.
  unfold track_travel. lia.
Qed.

Lemma scroll_all_within_track_witness :
  exists s0 s1,
    sb_10_80 = Ok s0
    /\ scroll_all (get_rect s0) [100; -3; 50] s0 = (s1, Ok tt)
    /\ 0 <= _slider_position s1
    /\ _slider_position s1 <= 9.
Proof.
  with_ok sb_10_80 ltac:(fun s0 =>
    with_run (scroll_all (get_rect s0) [100; -3; 50] s0) ltac:(fun s1 =>
      exists s0, s1;
      split; [vm_compute; reflexivity|];
      split; [vm_compute; reflexivity|];
      destruct (scroll_all_within_track (get_rect s0) [100; -3; 50] s0 0)
        as (s' & E & _ & _ & _ & H0 & H1 & _);
      [ vm_compute; split; reflexivity
      | vm_compute; split; discriminate
      | vm_compute in E; inversion E; subst s'; split; [exact H0|exact H1] ])).
Defined.

(** ** The round trip of [set_value] and [get_value] *)



Lemma set_value_cases (v : Q) (self : ScrollBar) :
  vmin self < vmax self -> vmin self <= v -> v <= vmax self ->
  let pixels := Py.min (_page_ctrl_length self - _page_step self)
                  (Py.max 0 ((v - vmin self)
                             * (_page_ctrl_length self - _page_step self)
                             / (vmax self - vmin self))) in
  set_value v self
  = bind (_scroll (get_rect self) (pixels - _slider_position self))
         (fun _ => ret tt) self.
Proof.
  intros Hr H0 H1 pixels. unfold set_value.
  unfold bind at 1. unfold get at 1.
  assert (A : Qle_bool (vmin self) v && Qle_bool v (vmax self) = true).
  { apply andb_true_iff. split; apply Qle_bool_iff; assumption. }
  rewrite A. unfold bind at 1. unfold assert, ret at 1.
  assert (Z0 : Py.is_zero (vmax self - vmin self) = false)
    by (apply is_zero_false; lra).
  rewrite Z0. reflexivity.
Qed.




(** ** [update] *)

Lemma Qeq_bool_refl (q : Q) : Qeq_bool q q = true.
Proof. apply Qeq_bool_iff. reflexivity. Qed.

Lemma Qeq_bool_moved (q : Q) (m : Z) :
  m <> 0%Z -> Qeq_bool (q + inject_Z m) q = false.
Proof.
  intro H. destruct (Qeq_bool (q + inject_Z m) q) eqn:E; [|reflexivity].
  apply Qeq_bool_iff in E. exfalso. apply H.
  apply inject_Z_injective. change (inject_Z 0) with 0. lra.
Qed.

Lemma position_changed_refl (s : ScrollBar) : position_changed s s = false.
Proof. unfold position_changed. now rewrite Qeq_bool_refl. Qed.

(** [scroll_and_change] either moves the slider, calls [change()] once and
    answers true, or changes nothing and answers the old [updated]. *)
Lemma scroll_and_change_cases (rect : Rect.t) (pixels : Q) (updated : bool)
  (w : World) :
  (exists s',
     scroll_and_change rect pixels updated w
     = ({| sb := s'; log := log w ++ [CbChange] |}, Ok true)
     /\ _scroll rect pixels (sb w) = (s', Ok true)
     /\ position_changed (sb w) s' = true
     /\ same_geometry (sb w) s'
     /\ scrolling s' = scrolling (sb w)
     /\ _mouseover s' = _mouseover (sb w))
  \/ (scroll_and_change rect pixels updated w = (w, Ok updated)
      /\ _scroll rect pixels (sb w) = (sb w, Ok false)).
Proof.
  unfold scroll_and_change, on_sb, emit. se_unfold.
  destruct (_scroll_cases rect pixels (sb w)) as [[_ E]|(_ & Hm & E)];
    cbv zeta in *; rewrite E.
  - right. destruct w; auto.
  - left. eexists. split; [reflexivity|]. split; [reflexivity|].
    split.
    + unfold position_changed. zcbn. now rewrite Qeq_bool_moved.
    + unfold same_geometry. zcbn. tauto.
Qed.

Ltac step_case :=
  repeat first
    [ progress (se_unfold; unfold on_sb, emit)
    | match goal with
      | |- context [scroll_and_change ?r ?p ?u ?w] =>
          let E := fresh "E" in
          destruct (scroll_and_change_cases r p u w)
            as [(? & E & _ & ? & ? & ? & ?)|[E _]]; rewrite E; clear E
      | |- context [_scroll ?r ?p ?s] =>
          let E := fresh "E" in
          destruct (_scroll_cases r p s) as [[_ E]|(_ & ? & E)];
          cbv zeta in E; rewrite E; clear E
      | |- context [get_value_percentual ?s] =>
          destruct (get_value_percentual s) eqn:?
      | |- context [_last_mouse_pos ?s] =>
          destruct (_last_mouse_pos s) eqn:?
      | |- context [match _orientation ?s with _ => _ end] =>
          destruct (_orientation s) eqn:?
      | |- context [if ?c then _ else _] => destruct c eqn:?
      end ].

Ltac step_finish :=
  unfold step_summary, notified_move, ended_drag, hover_calls, is_focus,
         position_changed, same_geometry in *;
  zcbn;
  repeat match goal with
         | H : _ /\ _ |- _ => destruct H
         end;
  repeat match goal with
         | H : negb (Qeq_bool _ _) = true |- _ => rewrite H in *; clear H
         | H : scrolling _ = _ |- _ => rewrite H in *; clear H
         | H : _mouseover _ = _ |- _ => rewrite H in *; clear H
         end;
  rewrite ?Qeq_bool_refl, ?Qeq_bool_moved by assumption;
  cbn [negb andb orb];
  repeat split; try congruence;
  try (repeat match goal with b : bool |- _ => destruct b end;
       cbn; rewrite ?app_nil_r; reflexivity);
  try (repeat match goal with
              | |- context [_mouseover ?s] => destruct (_mouseover s)
              | |- context [scrolling ?s] => destruct (scrolling s)
              end;
       repeat match goal with b : bool |- _ => destruct b end;
       cbn; rewrite ?app_nil_r; try reflexivity;
       try discriminate).

(** Handling one event either returns, as [step_summary] says, or raises
    what [get_value_percentual] raises on a drag, leaving the object as
    it was. *)
Lemma handle_event_summary (rect : Rect.t) (event : Event) (updated : bool)
  (w : World) :
  match handle_event rect event updated w with
  | (w', Ok updated') => step_summary event updated w w' updated'
  | (w', Raise ex) =>
      w' = w /\ scrolling (sb w) = true
      /\ get_value_percentual (sb w) = Raise ex
  end.
Proof.
  destruct event as [d [ls rs [mx my] over]]. destruct w as [s l].
  unfold handle_event. cbn [data ambient mouse_pos sb log].
  destruct d as [key|[rel|] pos|gain|button pos| |].
  all: step_case.
  all: try (repeat split; auto; fail).
  all: step_finish.
  all: rewrite <- ?app_assoc; cbn [app]; reflexivity.
Qed.

Lemma get_value_percentual_ok (s : ScrollBar) :
  no_zero_division s -> exists q, get_value_percentual s = Ok q.
Proof.
  intros [HL Hm]. unfold get_value_percentual, get_minmax, get_value.
  assert (Z0 : Py.is_zero (_page_ctrl_length s - _page_step s) = false)
    by (apply is_zero_false; lra).
  rewrite Z0.
  destruct (get_maximum s - get_minimum s =? 0)%Z eqn:E.
  - apply Z.eqb_eq in E. lia.
  - eexists. reflexivity.
Qed.

Lemma no_zero_division_same_geometry (s s' : ScrollBar) :
  same_geometry s s' -> no_zero_division s -> no_zero_division s'.
Proof.
  intros (_ & _ & HL & HP & HR) [H0 H1].
  unfold no_zero_division, get_maximum, get_minimum, vmax, vmin.
  rewrite HL, HP, HR. auto.
Qed.

Lemma same_geometry_trans (a b c : ScrollBar) :
  same_geometry a b -> same_geometry b c -> same_geometry a c.
Proof.
  unfold same_geometry. intuition congruence.
Qed.

Lemma same_geometry_refl (s : ScrollBar) : same_geometry s s.
Proof. unfold same_geometry; tauto. Qed.

Lemma hover_calls_count (w w' : World) :
  count_occ Callback_eq_dec (hover_calls w w') CbChange = 0%nat
  /\ ~ In CbUpdate (hover_calls w w').
Proof.
  unfold hover_calls.
  destruct (_mouseover (sb w)), (_mouseover (sb w')); cbn; split;
    try reflexivity; intuition discriminate.
Qed.

(** The loop over a batch: it returns, calls [change()] as many times as
    events moved the slider with notification, never calls the update
    callbacks, and ends with [updated] true exactly when it started true,
    or some event made a notified move, or some event ended a drag. *)
Lemma for_events_summary (rect : Rect.t) (events : list Event) :
  forall (updated : bool) (w : World),
    no_zero_division (sb w) ->
    exists w' updated' cbs,
      for_events rect events updated w = (w', Ok updated')
      /\ same_geometry (sb w) (sb w')
      /\ log w' = log w ++ cbs
      /\ ~ In CbUpdate cbs
      /\ count_occ Callback_eq_dec cbs CbChange
         = notified_moves rect events updated w
      /\ (updated' = true <->
          updated = true
          \/ (0 < notified_moves rect events updated w)%nat
          \/ (0 < ended_drags rect events updated w)%nat).
Proof.
  induction events as [|event rest IH]; intros updated w Hz.
  - exists w, updated, []. cbn. unfold ret.
    rewrite app_nil_r. repeat split; auto using same_geometry_refl.
    + intros [H|[H|H]]; [exact H|lia|lia].
  - pose proof (handle_event_summary rect event updated w) as Hs.
    cbn [for_events notified_moves ended_drags]. unfold bind.
    destruct (handle_event rect event updated w) as [w1 [u1|ex]].
    + destruct Hs as (Hg & Hl & Hu).
      destruct (IH u1 w1 (no_zero_division_same_geometry _ _ Hg Hz))
        as (w2 & u2 & cbs & E & Hg2 & Hl2 & Hn & Hc & Hiff).
      exists w2, u2.
      exists ((if notified_move event w w1 then [CbChange] else [])
              ++ hover_calls w w1 ++ cbs).
      destruct (hover_calls_count w w1) as [Hh0 Hh1].
      split; [exact E|]. split; [eapply same_geometry_trans; eassumption|].
      split; [rewrite Hl2, Hl, <- !app_assoc; reflexivity|].
      split.
      { rewrite !in_app_iff. intros [H|[H|H]]; try tauto.
        destruct (notified_move event w w1); cbn in H; intuition discriminate. }
      split.
      { rewrite !count_occ_app, Hh0, Hc.
        destruct (notified_move event w w1); reflexivity. }
      rewrite Hiff, Hu.
      destruct updated, (notified_move event w w1), (ended_drag w w1);
        cbn; split; intros; auto; try lia;
        repeat match goal with
               | H : _ \/ _ |- _ => destruct H
               end; auto; try discriminate.
    + destruct Hs as (_ & _ & Hr).
      destruct (get_value_percentual_ok _ Hz) as [q Hq]. congruence.
Qed.

Lemma update_summary (events : list Event) (w : World) :
  no_zero_division (sb w) ->
  exists w' b cbs,
    update events w = (w', Ok b)
    /\ log w' = log w ++ cbs ++ (if b then [CbUpdate] else [])
    /\ ~ In CbUpdate cbs
    /\ count_occ Callback_eq_dec cbs CbChange = batch_notified_moves events w
    /\ (b = true <->
        (0 < batch_notified_moves events w)%nat
        \/ (0 < batch_ended_drags events w)%nat).
Proof.
  intro Hz. unfold update, batch_notified_moves, batch_ended_drags, update_enabled.
  unfold bind at 1. unfold gets at 1.
  destruct (readonly (base (sb w)) || negb (_visible (base (sb w)))).
  - exists w, false, []. cbn. unfold ret. rewrite app_nil_r.
    repeat split; auto; try discriminate. intros [H|H]; lia.
  - cbn [negb].
    destruct (for_events_summary (get_rect_abs (sb w)) events false w Hz)
      as (w1 & u1 & cbs & E & Hg & Hl & Hn & Hc & Hiff).
    unfold bind. rewrite E.
    destruct u1.
    + unfold emit, modify. cbn [sb log].
      eexists _, true, cbs. split; [reflexivity|]. cbn [log].
      split; [rewrite Hl, <- app_assoc; reflexivity|].
      split; [exact Hn|]. split; [exact Hc|].
      split; [intros _|reflexivity].
      destruct (proj1 Hiff eq_refl) as [H|[H|H]]; [discriminate|auto|auto].
    + unfold ret. exists w1, false, cbs. split; [reflexivity|].
      split; [rewrite Hl, app_nil_r; reflexivity|].
      split; [exact Hn|]. split; [exact Hc|].
      split; [discriminate|].
      intros [H|H]; apply Hiff; auto.
Qed.

(** C1, as the claim states it, fails.  On a vertical bar of length 200
    over [0, 100] (page step 40 pixels) a batch of two page-down keys
    moves the slider twice and calls [change()] twice, before the update
    callbacks are called once.  And a press on the slider followed by a
    release in the same batch moves nothing, yet [update] answers true and
    the update callbacks are called. *)
Lemma update_change_fires_twice :
  exists s0 w1 w2,
    sb_200_vertical = Ok s0
    /\ update [page_down; page_down] {| sb := s0; log := [] |} = (w1, Ok true)
    /\ log w1 = [CbChange; CbChange; CbUpdate]
    /\ _slider_position (sb w1) == 80
    /\ update [press_at (5, 5)%Z; release] {| sb := s0; log := [] |}
       = (w2, Ok true)
    /\ log w2 = [CbUpdate]
    /\ sb w2 = s0.
Proof.
  with_ok sb_200_vertical ltac:(fun s0 =>
    with_run (update [page_down; page_down] {| sb := s0; log := [] |})
      ltac:(fun w1 =>
        with_run (update [press_at (5, 5)%Z; release] {| sb := s0; log := [] |})
          ltac:(fun w2 => exists s0, w1, w2))).
  repeat split; vm_compute; reflexivity.
Qed.

(** C1, amended.  When [get_value_percentual] cannot divide by zero, one
    call of [update] returns, and what it called is: [change()] once for
    every event of the batch that moved the slider by a non-zero clamped
    move in the key, motion, wheel or track-click branch (so possibly
    several times in one call), each before the end of the batch; then
    the update callbacks, exactly once if [update] answers true and not
    at all if it answers false, as the last call. *)
Theorem update_notifications (events : list Event) (w : World) :
  ~ _page_ctrl_length (sb w) == _page_step (sb w) ->
  get_maximum (sb w) <> get_minimum (sb w) ->
  exists w' b cbs,
    update events w = (w', Ok b)
    /\ log w' = log w ++ cbs ++ (if b then [CbUpdate] else [])
    /\ ~ In CbUpdate cbs
    /\ count_occ Callback_eq_dec cbs CbChange = batch_notified_moves events w
    /\ count_occ Callback_eq_dec (cbs ++ (if b then [CbUpdate] else [])) CbUpdate
       = (if b then 1 else 0)%nat.
Proof.
  intros HL Hm.
  destruct (update_summary events w (conj HL Hm))
    as (w' & b & cbs & E & Hl & Hn & Hc & _).
  exists w', b, cbs. repeat split; auto.
  rewrite count_occ_app.
  rewrite (proj1 (count_occ_not_In Callback_eq_dec cbs CbUpdate) Hn).
  destruct b; reflexivity.
Qed.

Lemma update_notifications_witness :
  exists s0 w' cbs,
    sb_200_vertical = Ok s0
    /\ update [page_down; page_down] {| sb := s0; log := [] |} = (w', Ok true)
    /\ log w' = cbs ++ [CbUpdate]
    /\ count_occ Callback_eq_dec cbs CbChange = 2%nat.
Proof.
  with_ok sb_200_vertical ltac:(fun s0 =>
    destruct (update_notifications [page_down; page_down]
                {| sb := s0; log := [] |})
      as (w' & b & cbs & E & Hl & _ & Hc & _);
    [ vm_compute; discriminate
    | vm_compute; discriminate
    | exists s0, w', cbs;
      split; [vm_compute; reflexivity|];
      assert (Hb : b = true) by (vm_compute in E; congruence);
      subst b; split; [exact E|]; split; [exact Hl|];
      rewrite Hc; vm_compute; reflexivity ]).
Defined.

(** In a batch without focus events every change of position is a
    notified move. *)
Lemma position_moves_no_focus (rect : Rect.t) (events : list Event) :
  forall (updated : bool) (w : World),
    no_focus_event events = true ->
    notified_moves rect events updated w = position_moves rect events updated w.
Proof.
  induction events as [|event rest IH]; intros updated w H.
  - reflexivity.
  - cbn [no_focus_event forallb] in H. apply andb_true_iff in H.
    destruct H as [Hf Hrest].
    cbn [notified_moves position_moves].
    destruct (handle_event rect event updated w) as [w1 [u1|ex]];
      [|reflexivity].
    unfold notified_move. rewrite Hf. cbn [andb].
    rewrite (IH u1 w1 Hrest). reflexivity.
Qed.

(** C6, as the claim states it, fails: a press on the slider followed by
    a release changes no position, yet [update] answers true (and calls
    the update callbacks). *)
Lemma update_true_without_move :
  exists s0 w1,
    sb_200 = Ok s0
    /\ update [press_at (5, 5)%Z; release] {| sb := s0; log := [] |}
       = (w1, Ok true)
    /\ _slider_position (sb w1) == _slider_position s0
    /\ batch_position_moves [press_at (5, 5)%Z; release]
         {| sb := s0; log := [] |} = 0%nat
    /\ batch_ended_drags [press_at (5, 5)%Z; release]
         {| sb := s0; log := [] |} = 1%nat.
Proof.
  with_ok sb_200 ltac:(fun s0 =>
    with_run (update [press_at (5, 5)%Z; release] {| sb := s0; log := [] |})
      ltac:(fun w1 => exists s0, w1)).
  repeat split; vm_compute; reflexivity.
Qed.

(** The branch of the focus event is the one place where [update]
    scrolls without looking at what [_scroll] answers: a press on the
    slider, the loss of the focus with the pointer at 10 and its return
    with the pointer at 60 move the slider by 50 pixels, while [update]
    answers false and calls nothing. *)
Lemma update_focus_return_moves_unreported :
  exists s0 w2,
    sb_200 = Ok s0
    /\ update [press_at (5, 5)%Z; focus_lost_at (10, 5)%Z;
               focus_gained_at (60, 5)%Z] {| sb := s0; log := [] |}
       = (w2, Ok false)
    /\ log w2 = []
    /\ _slider_position s0 == 0
    /\ _slider_position (sb w2) == 50.
Proof.
  with_ok sb_200 ltac:(fun s0 =>
    with_run (update [press_at (5, 5)%Z; focus_lost_at (10, 5)%Z;
                      focus_gained_at (60, 5)%Z] {| sb := s0; log := [] |})
      ltac:(fun w2 => exists s0, w2)).
  repeat split; vm_compute; reflexivity.
Qed.

(** C6, amended.  For a batch without focus events, when
    [get_value_percentual] cannot divide by zero, [update(events)]
    returns, and it answers true exactly when some event of the batch
    changed the slider position or some button release ended a drag.
    [update([])] answers false and calls nothing.  What a focus event
    adds to the answer is not stated. *)
Theorem update_return_value (events : list Event) (w : World) :
  ~ _page_ctrl_length (sb w) == _page_step (sb w) ->
  get_maximum (sb w) <> get_minimum (sb w) ->
  no_focus_event events = true ->
  (exists w' b,
     update events w = (w', Ok b)
     /\ (b = true <->
         (0 < batch_position_moves events w)%nat
         \/ (0 < batch_ended_drags events w)%nat))
  /\ update [] w = (w, Ok false).
Proof.
  intros HL Hm Hf. split.
  - destruct (update_summary events w (conj HL Hm))
      as (w' & b & cbs & E & _ & _ & _ & Hiff).
    exists w', b. split; [exact E|].
    assert (Hn : batch_notified_moves events w = batch_position_moves events w).
    { unfold batch_notified_moves, batch_position_moves.
      destruct (update_enabled (sb w)); [|reflexivity].
      apply position_moves_no_focus; exact Hf. }
    rewrite <- Hn. exact Hiff.
  - unfold update. se_unfold.
    destruct (readonly (base (sb w)) || negb (_visible (base (sb w))));
      reflexivity.
Qed.

Lemma update_return_value_witness :
  exists s0 w',
    sb_200 = Ok s0
    /\ update [press_at (5, 5)%Z; release] {| sb := s0; log := [] |}
       = (w', Ok true)
    /\ ((0 < batch_position_moves [press_at (5, 5)%Z; release]
               {| sb := s0; log := [] |})%nat
        \/ (0 < batch_ended_drags [press_at (5, 5)%Z; release]
                  {| sb := s0; log := [] |})%nat)
    /\ update [] {| sb := s0; log := [] |}
       = ({| sb := s0; log := [] |}, Ok false).
Proof.
  with_ok sb_200 ltac:(fun s0 =>
    destruct (update_return_value [press_at (5, 5)%Z; release]
                {| sb := s0; log := [] |})
      as ((w' & b & E & Hiff) & Hnil);
    [ vm_compute; discriminate
    | vm_compute; discriminate
    | reflexivity
    | exists s0, w';
      split; [vm_compute; reflexivity|];
      assert (Hb : b = true) by (vm_compute in E; congruence);
      subst b; split; [exact E|]; split; [apply Hiff; reflexivity|exact Hnil] ]).
Defined.

(** ** Scenarios *)

(** Length 200, range [0, 100], page step 50: the slider is 100 pixels
    long; [set_value(50)] puts it at 50 and [get_value()] is 50. *)
Example scenario_centered :
  exists s0 s1 s2,
    sb_200 = Ok s0
    /\ set_page_step 50 s0 = (s1, Ok tt)
    /\ _page_step s1 == 100
    /\ set_value 50 s1 = (s2, Ok tt)
    /\ _slider_position s2 == 50
    /\ get_value s2 = Ok 50%Z.
Proof.
  with_ok sb_200 ltac:(fun s0 =>
    with_run (set_page_step 50 s0) ltac:(fun s1 =>
      with_run (set_value 50 s1) ltac:(fun s2 => exists s0, s1, s2))).
  repeat split; vm_compute; reflexivity.
Qed.

(** A thickness of 2 with a padding of 1 is rejected. *)
Example scenario_invisible_slider (w0 : Widget) (length : Q) (range : Q * Q)
  (o : Orientation) :
  fst range < snd range ->
  __init__ w0 length range o 1 2 = Raise AssertionError.
Proof.
  intro H. unfold __init__.
  apply ltb_lt in H. rewrite H. reflexivity.
Qed.

(** Page-down with shift held on a vertical bar whose page step is 40
    pixels moves the slider by 14. *)
Example scenario_shift_page_down :
  exists s0 w',
    sb_200_vertical = Ok s0
    /\ _page_step s0 == 40
    /\ update [{| data := KEYDOWN K_PAGEDOWN;
                  ambient := {| pressed_lshift := true; pressed_rshift := false;
                                mouse_pos := (0%Z, 0%Z);
                                area_mouse_is_over := false |} |}]
              {| sb := s0; log := [] |} = (w', Ok true)
    /\ _slider_position (sb w') == 14.
Proof.
  with_ok sb_200_vertical ltac:(fun s0 =>
    with_run (update [{| data := KEYDOWN K_PAGEDOWN;
                  ambient := {| pressed_lshift := true; pressed_rshift := false;
                                mouse_pos := (0%Z, 0%Z);
                                area_mouse_is_over := false |} |}]
              {| sb := s0; log := [] |}) ltac:(fun w' => exists s0, w')).
  repeat split; vm_compute; reflexivity.
Qed.

(** * Further properties of the scroll bar *)

(** ** The getters *)

Lemma round_bounds (a b : Z) (x : Q) :
  inject_Z a <= x -> x <= inject_Z b -> (a <= Py.round x <= b)%Z.
Proof.
  intros Ha Hb.
  pose proof (round_close x) as R. apply Qabs_Qle_condition in R.
  destruct R as [R0 R1]. split.
  - destruct (Z_le_gt_dec a (Py.round x)) as [H|H]; [exact H|].
    assert (H' : (Py.round x + 1 <= a)%Z) by lia.
    rewrite Zle_Qle, inject_Z_plus in H'. change (inject_Z 1) with 1 in H'.
    lra.
  - destruct (Z_le_gt_dec (Py.round x) b) as [H|H]; [exact H|].
    assert (H' : (b + 1 <= Py.round x)%Z) by lia.
    rewrite Zle_Qle, inject_Z_plus in H'. change (inject_Z 1) with 1 in H'.
    lra.
Qed.

Lemma clamped_between (lo hi v : Q) :
  lo <= hi -> lo <= Py.min hi (Py.max lo v) /\ Py.min hi (Py.max lo v) <= hi.
Proof.
  intro H.
  destruct (max_spec lo v) as (M0 & M1 & M2).
  destruct (min_spec hi (Py.max lo v)) as (N0 & N1 & N2).
  destruct M2, N2; split; lra.
Qed.

Lemma get_value_cases (self : ScrollBar) :
  (_page_ctrl_length self == _page_step self
   /\ get_value self = Raise ZeroDivisionError)
  \/ (~ _page_ctrl_length self == _page_step self
      /\ exists g, get_value self = Ok g).
Proof.
  unfold get_value.
  destruct (Py.is_zero (_page_ctrl_length self - _page_step self)) eqn:E.
  - left. apply is_zero_iff in E. split; [lra|reflexivity].
  - right. apply is_zero_false in E. split; [lra|]. eexists. reflexivity.
Qed.

Lemma get_value_ok_bounds (self : ScrollBar) (g : Z) :
  vmin self <= vmax self -> get_value self = Ok g ->
  (get_minimum self <= g <= get_maximum self)%Z.
Proof.
  intros Hr E. unfold get_value in E.
  destruct (Py.is_zero (_page_ctrl_length self - _page_step self));
    [discriminate|].
  inversion E as [Hg]. clear E Hg.
  destruct (clamped_between (vmin self) (vmax self)
              (vmin self + _slider_position self * (vmax self - vmin self)
                           / (_page_ctrl_length self - _page_step self)) Hr)
    as [C0 C1].
  unfold get_minimum, get_maximum. split; apply int_mono; assumption.
Qed.

(** X1.  [get_value()] raises [ZeroDivisionError] exactly when the length
    equals the page step; otherwise it returns an integer between
    [get_minimum()] and [get_maximum()], wherever the slider is. *)
Theorem get_value_within_bounds (self : ScrollBar) :
  vmin self <= vmax self ->
  (_page_ctrl_length self == _page_step self
   /\ get_value self = Raise ZeroDivisionError)
  \/ (~ _page_ctrl_length self == _page_step self
      /\ exists g, get_value self = Ok g
                   /\ (get_minimum self <= g <= get_maximum self)%Z).
Proof.
  intro Hr.
  destruct (get_value_cases self) as [H|(HL & g & E)].
  - left. exact H.
  - right. split; [exact HL|]. exists g. split; [exact E|].
    apply get_value_ok_bounds; assumption.
Qed.

Lemma get_value_within_bounds_witness :
  exists s g,
    sb_200 = Ok s /\ get_value s = Ok g
    /\ (get_minimum s <= g <= get_maximum s)%Z.
Proof.
  with_ok sb_200 ltac:(fun s =>
    destruct (get_value_within_bounds s) as [[_ E]|(_ & g & E & B)];
    [ vm_compute; discriminate
    | vm_compute in E; discriminate
    | exists s, g; split; [vm_compute; reflexivity|]; split; assumption ]).
Defined.

(** X2.  [get_value_percentual()] raises [ZeroDivisionError] exactly when
    the length equals the page step or the two integer bounds coincide;
    otherwise it returns a number between 0 and 1. *)
Theorem get_value_percentual_range (self : ScrollBar) :
  vmin self <= vmax self ->
  ((_page_ctrl_length self == _page_step self
    \/ get_maximum self = get_minimum self)
   /\ get_value_percentual self = Raise ZeroDivisionError)
  \/ (~ _page_ctrl_length self == _page_step self
      /\ get_maximum self <> get_minimum self
      /\ exists q, get_value_percentual self = Ok q /\ 0 <= q /\ q <= 1).
Proof.
  intro Hr. unfold get_value_percentual, get_minmax.
  destruct (get_value_cases self) as [[HL E]|(HL & g & E)];
    [|destruct (get_value_ok_bounds self g Hr E) as [B0 B1]]; rewrite E.
  - left. auto.
  - destruct (get_maximum self - get_minimum self =? 0)%Z eqn:Ed.
    + left. apply Z.eqb_eq in Ed. split; [right; lia|reflexivity].
    + right. apply Z.eqb_neq in Ed. split; [exact HL|]. split; [lia|].
      eexists. split; [reflexivity|].
      set (d := (get_maximum self - get_minimum self)%Z) in *.
      set (n := (g - get_minimum self)%Z).
      assert (Hd : 0 < inject_Z d).
      { change 0 with (inject_Z 0). rewrite <- Zlt_Qlt. lia. }
      assert (Hn0 : 0 <= inject_Z n).
      { change 0 with (inject_Z 0). rewrite <- Zle_Qle. lia. }
      assert (Hn1 : inject_Z n <= inject_Z d) by (rewrite <- Zle_Qle; lia).
      assert (Q0 : 0 <= inject_Z n / inject_Z d)
        by (apply Qle_shift_div_l; lra).
      assert (Q1 : inject_Z n / inject_Z d <= 1)
        by (apply Qle_shift_div_r; lra).
      unfold Py.round3.
      destruct (round_bounds 0 1000 (inject_Z n / inject_Z d * 1000)) as [R0 R1].
      * change (inject_Z 0) with 0. lra.
      * change (inject_Z 1000) with 1000. lra.
      * rewrite Zle_Qle in R0, R1.
        change (inject_Z 0) with 0 in R0. change (inject_Z 1000) with 1000 in R1.
        split.
        -- apply Qle_shift_div_l; lra.
        -- apply Qle_shift_div_r; lra.
Qed.

Lemma get_value_percentual_range_witness :
  exists s q,
    sb_200 = Ok s /\ get_value_percentual s = Ok q /\ 0 <= q /\ q <= 1.
Proof.
  with_ok sb_200 ltac:(fun s =>
    destruct (get_value_percentual_range s)
      as [[_ E]|(_ & _ & q & E & B0 & B1)];
    [ vm_compute; discriminate
    | vm_compute in E; discriminate
    | exists s, q; split; [vm_compute; reflexivity|]; auto ]).
Defined.

(** ** Recomputing the rectangles *)

Lemma apply_size_changes_twice (self : ScrollBar) :
  _apply_size_changes (_apply_size_changes self) = _apply_size_changes self.
Proof.
  destruct self as [[r a ro vi ke me sa] lm mo o len th ps ss pad sp sr vr sc].
  destruct r as [rx ry rw rh]. destruct o; reflexivity.
Qed.

Lemma up_to_date_apply (self : ScrollBar) :
  up_to_date (_apply_size_changes self).
Proof. apply apply_size_changes_twice. Qed.

(** The setters of the range commute with the recomputation. *)
Lemma up_to_date_with_values_range (self : ScrollBar) (v : Q * Q) :
  up_to_date self -> up_to_date (with_values_range self v).
Proof.
  unfold up_to_date. intro H.
  change (_apply_size_changes (with_values_range self v))
    with (with_values_range (_apply_size_changes self) v).
  now rewrite H.
Qed.

Lemma up_to_date_slider_in_rect (self : ScrollBar) (p : Z) :
  up_to_date self -> _slider_position self == inject_Z p ->
  slider_in_rect self p.
Proof.
  intros H Hp. rewrite <- H.
  apply apply_size_changes_slider_in_rect. exact Hp.
Qed.

(** X3.  [set_orientation(o)] always succeeds, [get_orientation()] then
    answers [o], the rectangles are up to date, and on an object whose
    rectangles were up to date, setting the former orientation again
    restores the object exactly. *)
Theorem set_orientation_round_trip (self : ScrollBar) (o : Orientation) :
  up_to_date self ->
  exists self1,
    set_orientation o self = (self1, Ok tt)
    /\ get_orientation self1 = o
    /\ up_to_date self1
    /\ set_orientation (get_orientation self) self1 = (self, Ok tt).
Proof.
  intro H. unfold set_orientation. se_unfold.
  eexists. split; [reflexivity|]. split; [|split].
  - destruct o; reflexivity.
  - apply up_to_date_apply.
  - f_equal. transitivity (_apply_size_changes self); [|exact H]. clear H.
    destruct self as [[r a ro vi ke me sa] lm mo o0 len th ps ss pad sp sr vr sc].
    destruct r as [rx ry rw rh]. destruct o, o0; reflexivity.
Qed.

Lemma set_orientation_round_trip_witness :
  exists s s1,
    sb_200 = Ok s
    /\ set_orientation ORIENTATION_VERTICAL s = (s1, Ok tt)
    /\ set_orientation ORIENTATION_HORIZONTAL s1 = (s, Ok tt).
Proof.
  with_ok sb_200 ltac:(fun s =>
    destruct (set_orientation_round_trip s ORIENTATION_VERTICAL)
      as (s1 & E1 & _ & _ & E2);
    [ vm_compute; reflexivity
    | exists s, s1; split; [vm_compute; reflexivity|]; split; [exact E1|];
      exact E2 ]).
Defined.

(** ** The setters *)

(** X4.  [set_maximum(v)] fails exactly when [v] is not above the current
    minimum, and a failing call leaves the object as it was; otherwise
    the maximum becomes [v] and the range stays well ordered. *)
Theorem set_maximum_accepts_iff (value : Q) (self : ScrollBar) :
  (value <= vmin self
   /\ set_maximum value self = (self, Raise AssertionError))
  \/ (vmin self < value
      /\ exists self',
           set_maximum value self = (self', Ok tt)
           /\ vmax self' = value /\ vmin self' = vmin self
           /\ vmin self' < vmax self').
Proof.
  destruct (set_maximum_cases value self) as [[H E]|[H E]].
  - right. split; [exact H|]. eexists. split; [exact E|].
    cbn. repeat split. exact H.
  - left. auto.
Qed.

(** X5.  On an object with [min < max], [set_page_step(v)] fails its
    assertion exactly when [v] is not positive, leaving the object as it
    was; for a positive [v] the assertion passes and the call assigns
    neither the length, the range, the slider position, the thickness,
    the padding nor the orientation: the slider is not moved, and not
    clamped into its new travel. *)
Theorem set_page_step_keeps_slider (value : Q) (self : ScrollBar) :
  vmin self < vmax self ->
  (value <= 0 /\ set_page_step value self = (self, Raise AssertionError))
  \/ (0 < value
      /\ snd (set_page_step value self) <> Raise AssertionError
      /\ let self' := fst (set_page_step value self) in
         _page_ctrl_length self' = _page_ctrl_length self
         /\ _values_range self' = _values_range self
         /\ _slider_position self' = _slider_position self
         /\ _page_ctrl_thick self' = _page_ctrl_thick self
         /\ _slider_pad self' = _slider_pad self
         /\ _orientation self' = _orientation self).
Proof.
  intro Hr.
  destruct (set_page_step_cases value self Hr)
    as [[Hv E]|[(Hv & _ & E)|(Hv & _ & E)]]; cbv zeta in E.
  - left. auto.
  - right. split; [exact Hv|]. rewrite E. cbn [fst snd].
    split; [discriminate|]. repeat split.
  - right. split; [exact Hv|]. rewrite E. cbn [fst snd].
    split; [discriminate|]. repeat split.
Qed.

Lemma set_page_step_keeps_slider_witness :
  exists s0 s1 s2,
    sb_100 = Ok s0 /\ set_value 100 s0 = (s1, Ok tt)
    /\ set_page_step 100 s1 = (s2, Ok tt)
    /\ _slider_position s1 == 80
    /\ _slider_position s2 = _slider_position s1.
Proof.
  with_ok sb_100 ltac:(fun s0 =>
    with_run (set_value 100 s0) ltac:(fun s1 =>
      with_run (set_page_step 100 s1) ltac:(fun s2 =>
        exists s0, s1, s2;
        split; [vm_compute; reflexivity|];
        split; [vm_compute; reflexivity|];
        split; [vm_compute; reflexivity|];
        split; [vm_compute; reflexivity|];
        destruct (set_page_step_keeps_slider 100 s1)
          as [[H _]|(_ & _ & _ & _ & Hq & _)];
        [ vm_compute; reflexivity
        | exfalso; revert H; vm_compute; intro H; apply H; reflexivity
        | exact Hq ]))).
Defined.

(** X6.  [set_length(v)] fails its assertion exactly when [v] is not
    positive, leaving the object as it was; for a positive [v] the
    assertion passes, the length becomes [v], page step and range are
    kept, and the slider position becomes the smaller of its old value
    and [v - page_step]: the old value when that is not above
    [v - page_step], and [v - page_step] otherwise, which is negative
    when [v] is below the page step. *)
Theorem set_length_clamps_from_above (value : Q) (self : ScrollBar) :
  (value <= 0 /\ set_length value self = (self, Raise AssertionError))
  \/ (0 < value
      /\ snd (set_length value self) <> Raise AssertionError
      /\ let self' := fst (set_length value self) in
         _page_ctrl_length self' = value
         /\ _page_step self' = _page_step self
         /\ _values_range self' = _values_range self
         /\ _slider_position self'
            = Py.min (_slider_position self) (value - _page_step self)
         /\ (_slider_position self <= value - _page_step self ->
             _slider_position self' = _slider_position self)
         /\ (value - _page_step self < _slider_position self ->
             _slider_position self' = value - _page_step self)
         /\ (value < _page_step self -> _slider_position self' < 0)).
Proof.
  unfold set_length. se_unfold.
  destruct (Py.ltb 0 value) eqn:E.
  - apply ltb_lt in E. right. split; [exact E|]. cbn [fst snd].
    split; [discriminate|]. zcbn.
    destruct (min_spec (_slider_position self) (value - _page_step self))
      as (M0 & M1 & M2).
    repeat split.
    + intro H. unfold Py.min.
      replace (Py.ltb (value - _page_step self) (_slider_position self))
        with false by (symmetry; apply ltb_ge; exact H).
      reflexivity.
    + intro H. unfold Py.min.
      replace (Py.ltb (value - _page_step self) (_slider_position self))
        with true by (symmetry; apply ltb_lt; exact H).
      reflexivity.
    + intro H. lra.
  - apply ltb_ge in E. left. auto.
Qed.

Lemma set_length_clamps_from_above_witness :
  exists s0 s1 s2,
    sb_100 = Ok s0 /\ set_value 100 s0 = (s1, Ok tt)
    /\ set_length 50 s1 = (s2, Ok tt)
    /\ _slider_position s1 == 80
    /\ _page_step s1 == 20
    /\ _slider_position s2 = 50 - _page_step s1.
Proof.
  with_ok sb_100 ltac:(fun s0 =>
    with_run (set_value 100 s0) ltac:(fun s1 =>
      with_run (set_length 50 s1) ltac:(fun s2 =>
        exists s0, s1, s2;
        split; [vm_compute; reflexivity|];
        split; [vm_compute; reflexivity|];
        split; [vm_compute; reflexivity|];
        split; [vm_compute; reflexivity|];
        split; [vm_compute; reflexivity|];
        destruct (set_length_clamps_from_above 50 s1)
          as [[H _]|(_ & _ & _ & _ & _ & _ & _ & Hq & _)];
        [ exfalso; revert H; vm_compute; intro H; apply H; reflexivity
        | apply Hq; vm_compute; reflexivity ]))).
Defined.

(** X7.  On an object with [min < max], [set_value(v)] fails exactly when
    [v] lies outside [[min, max]], leaving the object as it was;
    otherwise it succeeds and changes neither length, page step, range
    nor orientation. *)
Theorem set_value_accepts_iff (value : Q) (self : ScrollBar) :
  vmin self < vmax self ->
  ((value < vmin self \/ vmax self < value)
   /\ set_value value self = (self, Raise AssertionError))
  \/ (vmin self <= value /\ value <= vmax self
      /\ exists self',
           set_value value self = (self', Ok tt)
           /\ same_geometry self self').
Proof.
  intro Hr.
  destruct (Qlt_le_dec value (vmin self)) as [H0|H0].
  - left. split; [auto|]. unfold set_value. se_unfold.
    replace (Qle_bool (vmin self) value) with false
      by (symmetry; apply Qle_bool_false; exact H0).
    reflexivity.
  - destruct (Qlt_le_dec (vmax self) value) as [H1|H1].
    + left. split; [auto|]. unfold set_value. se_unfold.
      replace (Qle_bool value (vmax self)) with false
        by (symmetry; apply Qle_bool_false; exact H1).
      rewrite andb_false_r. reflexivity.
    + right. split; [exact H0|]. split; [exact H1|].
      rewrite (set_value_cases value self Hr H0 H1). cbv zeta.
      unfold bind, ret.
      match goal with |- context [_scroll ?r ?p self] =>
        destruct (_scroll_cases r p self) as [[_ E]|(_ & _ & E)];
        cbv zeta in E; rewrite E end.
      * exists self. split; [reflexivity|]. unfold same_geometry. tauto.
      * eexists. split; [reflexivity|]. unfold same_geometry. zcbn. tauto.
Qed.

Lemma set_value_accepts_iff_witness :
  exists s s',
    sb_200 = Ok s /\ set_value 50 s = (s', Ok tt) /\ same_geometry s s'.
Proof.
  with_ok sb_200 ltac:(fun s =>
    destruct (set_value_accepts_iff 50 s)
      as [[H _]|(_ & _ & s' & E & G)];
    [ vm_compute; reflexivity
    | exfalso; revert H; vm_compute; intros [H|H]; discriminate H
    | exists s, s'; split; [vm_compute; reflexivity|]; split; assumption ]).
Defined.

(** ** [_scroll] *)

Lemma clamped_move_translation (rect1 rect2 : Rect.t) (pixels : Q)
  (self : ScrollBar) :
  Rect.width rect1 = Rect.width rect2 ->
  Rect.height rect1 = Rect.height rect2 ->
  clamped_move rect1 pixels self = clamped_move rect2 pixels self.
Proof.
  intros Hw Hh. unfold clamped_move, idx.
  destruct (_orientation self); zcbn; lia.
Qed.

(** X8.  What [_scroll] does depends on the size of the rectangle it is
    given, not on where the rectangle lies: two rectangles of the same
    width and height give the same result. *)
Theorem _scroll_translation_invariant (rect1 rect2 : Rect.t) (pixels : Q)
  (self : ScrollBar) :
  Rect.width rect1 = Rect.width rect2 ->
  Rect.height rect1 = Rect.height rect2 ->
  _scroll rect1 pixels self = _scroll rect2 pixels self.
Proof.
  intros Hw Hh.
  pose proof (clamped_move_translation rect1 rect2 pixels self Hw Hh) as Hm.
  destruct (_scroll_cases rect1 pixels self) as [[H1 E1]|(H1 & M1 & E1)];
    destruct (_scroll_cases rect2 pixels self) as [[H2 E2]|(H2 & M2 & E2)];
    cbv zeta in *; rewrite E1, E2; rewrite Hm in *.
  - reflexivity.
  - exfalso. destruct H1; contradiction.
  - exfalso. destruct H2; contradiction.
  - reflexivity.
Qed.

Lemma _scroll_translation_invariant_witness :
  exists s,
    sb_200 = Ok s
    /\ _scroll (Rect.mk 0 0 200 20) 30 s = _scroll (Rect.mk 640 480 200 20) 30 s.
Proof.
  with_ok sb_200 ltac:(fun s =>
    exists s; split; [vm_compute; reflexivity|];
    apply _scroll_translation_invariant; reflexivity).
Defined.

Lemma round_zero (q : Q) : q == 0 -> Py.round q = 0%Z.
Proof.
  intro H. destruct (round_bounds 0 0 q); change (inject_Z 0) with 0; try lra.
  lia.
Qed.

(** X9.  [_scroll] on any rectangle, whatever the sizes the rectangles
    hold: with the slider at the whole pixel [p] (slider rectangle at
    [p + padding]) and [T] whole pixels of travel in [rect]
    ([T = length of rect - length of the slider rectangle - 2 padding]),
    [0 <= p <= T], the call puts the slider at
    [min(max(p + round(pixels), 0), T)], moves the slider rectangle with
    it, and answers true exactly when the slider moved. *)
Theorem _scroll_clamps_in_track (rect : Rect.t) (pixels : Q)
  (self : ScrollBar) (p : Z) :
  slider_at self p ->
  (0 <= p <= track_travel rect self)%Z ->
  let p' := clamp 0 (track_travel rect self) (p + Py.round pixels) in
  exists self',
    _scroll rect pixels self = (self', Ok (negb (p' =? p)%Z))
    /\ slider_at self' p'
    /\ track_travel rect self' = track_travel rect self
    /\ (p' = p -> self' = self).
Proof.
  intros Hat Hp p'.
  destruct (_scroll_track_invariant rect pixels self p Hat)
    as (s1 & moved & E & Hat1 & Ht & Hf & Htr & _).
  cbv zeta in Hat1, Ht, Hf.
  set (m := Z.min (Z.max (Py.round pixels) (- p))
                  (track_travel rect self - p)) in *.
  assert (Hp' : p' = (p + m)%Z) by (unfold p', clamp, m; lia).
  exists s1. destruct moved.
  - destruct (Ht eq_refl) as (_ & Hm).
    assert (Hne : (p' =? p)%Z = false) by (apply Z.eqb_neq; lia).
    rewrite Hne, Hp'. cbn [negb].
    split; [exact E|]. split; [exact Hat1|]. split; [exact Htr|]. lia.
  - destruct (Hf eq_refl) as (Hz & ->).
    assert (Hm : m = 0%Z).
    { destruct Hz as [Hz|Hz]; [|exact Hz].
      unfold m. rewrite (round_zero _ Hz). lia. }
    assert (He : (p' =? p)%Z = true) by (apply Z.eqb_eq; lia).
    rewrite He. cbn [negb].
    split; [exact E|]. replace p' with p by lia.
    split; [exact Hat|]. split; [reflexivity|]. reflexivity.
Qed.

Lemma _scroll_clamps_in_track_witness :
  exists s0 s1,
    sb_10_80 = Ok s0
    /\ track_travel (get_rect s0) s0 = 9%Z
    /\ _scroll (get_rect s0) 100 s0 = (s1, Ok true)
    /\ slider_at s1 9.
Proof.
  with_ok sb_10_80 ltac:(fun s0 =>
    destruct (_scroll_clamps_in_track (get_rect s0) 100 s0 0)
      as (s1 & E & Hat & _);
    [ vm_compute; split; reflexivity
    | vm_compute; split; discriminate
    | exists s0, s1; split; [vm_compute; reflexivity|];
      split; [vm_compute; reflexivity|];
      split; [exact E|exact Hat] ]).
Defined.

(** X10.  On an object whose rectangles agree with its fields and whose
    slider is at the whole pixel [p] inside its travel, [_scroll] puts the
    slider at [p + round(pixels)] clamped into [[0, travel]], and answers
    true exactly when that differs from [p]. *)
Theorem _scroll_clamps (rect : Rect.t) (pixels : Q) (self : ScrollBar) (p : Z) :
  slider_in_rect self p ->
  dim (is_vertical (_orientation self)) rect
  = dim (is_vertical (_orientation self)) (_rect (base self)) ->
  (0 <= p <= travel self)%Z ->
  let p' := clamp 0 (travel self) (p + Py.round pixels) in
  exists self',
    _scroll rect pixels self = (self', Ok (negb (p' =? p)%Z))
    /\ slider_in_rect self' p'
    /\ travel self' = travel self.
Proof.
  intros Hinv Hrect Hp p'.
  destruct (_scroll_invariant rect pixels self p Hinv Hrect)
    as (s1 & moved & E & Ht & Hf & Hb & Ho & HL & HP & _).
  cbv zeta in Ht, Hf.
  set (m := Z.min (Z.max (Py.round pixels) (- p)) (travel self - p)) in *.
  assert (Hpm : p' = (p + m)%Z) by (unfold p', clamp, m; lia).
  exists s1. rewrite E.
  assert (Htr : travel s1 = travel self)
    by (unfold travel; rewrite HL, HP; reflexivity).
  destruct moved.
  - destruct (Ht eq_refl) as (_ & Hm & Hs).
    replace (p' =? p)%Z with false by (symmetry; apply Z.eqb_neq; lia).
    rewrite Hpm. auto.
  - destruct (Hf eq_refl) as (Hz & ->).
    assert (Hm : m = 0%Z).
    { destruct Hz as [Hz|Hz]; [|exact Hz].
      unfold m. rewrite (round_zero _ Hz). lia. }
    replace (p' =? p)%Z with true by (symmetry; apply Z.eqb_eq; lia).
    replace p' with p by lia. auto.
Qed.

Lemma _scroll_clamps_witness :
  exists s s',
    sb_200 = Ok s
    /\ _scroll (get_rect s) 1000 s = (s', Ok true)
    /\ slider_in_rect s' 160.
Proof.
  with_ok sb_200 ltac:(fun s =>
    destruct (_scroll_clamps (get_rect s) 1000 s 0)
      as (s' & E & H & _);
    [ vm_compute; repeat split; reflexivity
    | vm_compute; reflexivity
    | vm_compute; split; discriminate
    | exists s, s'; split; [vm_compute; reflexivity|];
      split; [exact E|exact H] ]).
Defined.

Lemma Qfloor_between (z : Z) (q : Q) :
  inject_Z z <= q -> q < inject_Z z + 1 -> Qfloor q = z.
Proof.
  intros H0 H1.
  pose proof (Qfloor_le q) as F0. pose proof (Qlt_floor q) as F1.
  rewrite inject_Z_plus in F1. change (inject_Z 1) with 1 in F1.
  assert (A : (Qfloor q < z + 1)%Z).
  { rewrite Zlt_Qlt, inject_Z_plus. change (inject_Z 1) with 1. lra. }
  assert (B : (z < Qfloor q + 1)%Z).
  { rewrite Zlt_Qlt, inject_Z_plus. change (inject_Z 1) with 1. lra. }
  lia.
Qed.

Lemma round_half (q : Q) : - (1 # 2) <= q -> q <= 1 # 2 -> Py.round q = 0%Z.
Proof.
  intros H0 H1. unfold Py.round.
  destruct (Qlt_le_dec q 0) as [N|N].
  - rewrite (Qfloor_between (-1) q) by (change (inject_Z (-1)) with (-1); lra).
    change (inject_Z (-1)) with (-1).
    destruct (Qcompare (q - -1) (1 # 2)) eqn:C.
    + reflexivity.
    + apply Qlt_alt in C. lra.
    + reflexivity.
  - rewrite (Qfloor_between 0 q) by (change (inject_Z 0) with 0; lra).
    change (inject_Z 0) with 0.
    destruct (Qcompare (q - 0) (1 # 2)) eqn:C.
    + reflexivity.
    + reflexivity.
    + apply Qgt_alt in C. lra.
Qed.

(** X11.  On such an object a request of at most half a pixel in either
    direction is rounded away: [_scroll] answers false and changes
    nothing. *)
Theorem _scroll_half_pixel (rect : Rect.t) (pixels : Q) (self : ScrollBar)
  (p : Z) :
  slider_in_rect self p ->
  dim (is_vertical (_orientation self)) rect
  = dim (is_vertical (_orientation self)) (_rect (base self)) ->
  (0 <= p <= travel self)%Z ->
  - (1 # 2) <= pixels -> pixels <= 1 # 2 ->
  _scroll rect pixels self = (self, Ok false).
Proof.
  intros Hinv Hrect Hp H0 H1.
  destruct (_scroll_invariant rect pixels self p Hinv Hrect)
    as (s1 & moved & E & Ht & Hf & _).
  cbv zeta in Ht, Hf. rewrite (round_half pixels H0 H1) in Ht, Hf.
  rewrite E. destruct moved.
  - destruct (Ht eq_refl) as (_ & Hm & _). lia.
  - destruct (Hf eq_refl) as (_ & ->). reflexivity.
Qed.

Lemma _scroll_half_pixel_witness :
  exists s, sb_200 = Ok s /\ _scroll (get_rect s) (1 # 2) s = (s, Ok false).
Proof.
  with_ok sb_200 ltac:(fun s =>
    exists s; split; [vm_compute; reflexivity|];
    apply (_scroll_half_pixel (get_rect s) (1 # 2) s 0);
    [ vm_compute; repeat split; reflexivity
    | vm_compute; reflexivity
    | vm_compute; split; discriminate
    | vm_compute; discriminate
    | vm_compute; discriminate ]).
Defined.

(** X12.  Dragging past an end: with the slider at the end of its travel
    every request further that way, and with the slider at 0 every
    request below 0, is answered false and changes nothing. *)
Theorem _scroll_saturates (rect : Rect.t) (pixels : Q) (self : ScrollBar)
  (p : Z) :
  slider_in_rect self p ->
  dim (is_vertical (_orientation self)) rect
  = dim (is_vertical (_orientation self)) (_rect (base self)) ->
  (0 <= travel self)%Z ->
  (p = travel self /\ 0 <= pixels) \/ (p = 0%Z /\ pixels <= 0) ->
  _scroll rect pixels self = (self, Ok false).
Proof.
  intros Hinv Hrect Ht Hend.
  destruct (_scroll_invariant rect pixels self p Hinv Hrect)
    as (s1 & moved & E & Hmoved & Hf & _).
  cbv zeta in Hmoved, Hf.
  pose proof (round_close pixels) as R. apply Qabs_Qle_condition in R.
  destruct R as [R0 R1].
  assert (Hm : Z.min (Z.max (Py.round pixels) (- p)) (travel self - p) = 0%Z).
  { destruct Hend as [[-> H]|[-> H]].
    - assert (0 <= Py.round pixels)%Z; [|lia].
      destruct (Z_le_gt_dec 0 (Py.round pixels)) as [L|G]; [exact L|].
      assert (G' : (Py.round pixels + 1 <= 0)%Z) by lia.
      rewrite Zle_Qle, inject_Z_plus in G'.
      change (inject_Z 1) with 1 in G'. change (inject_Z 0) with 0 in G'. lra.
    - assert (Py.round pixels <= 0)%Z; [|lia].
      destruct (Z_le_gt_dec (Py.round pixels) 0) as [L|G]; [exact L|].
      assert (G' : (1 <= Py.round pixels)%Z) by lia.
      rewrite Zle_Qle in G'. change (inject_Z 1) with 1 in G'. lra. }
  rewrite E. destruct moved.
  - destruct (Hmoved eq_refl) as (_ & Hn & _). contradiction.
  - destruct (Hf eq_refl) as (_ & ->). reflexivity.
Qed.

Lemma _scroll_saturates_witness :
  exists s s',
    sb_200 = Ok s
    /\ _scroll (get_rect s) 1000 s = (s', Ok true)
    /\ _scroll (get_rect s') 25 s' = (s', Ok false).
Proof.
  with_ok sb_200 ltac:(fun s =>
    with_run (_scroll (get_rect s) 1000 s) ltac:(fun s' =>
      exists s, s'; split; [vm_compute; reflexivity|];
      split; [vm_compute; reflexivity|];
      apply (_scroll_saturates (get_rect s') 25 s' 160);
      [ vm_compute; repeat split; reflexivity
      | vm_compute; reflexivity
      | vm_compute; discriminate
      | left; split; [vm_compute; reflexivity|vm_compute; discriminate] ])).
Defined.

(** ** Keeping the slider placed *)

Lemma int_add_whole (q : Q) (p m : Z) :
  q == inject_Z p -> Py.int (q + inject_Z m) = (Py.int q + m)%Z.
Proof.
  intro H. rewrite (int_comp _ _ H), int_inject_Z.
  assert (E : q + inject_Z m == inject_Z (p + m))
    by (rewrite inject_Z_plus, H; reflexivity).
  rewrite (int_comp _ _ E). apply int_inject_Z.
Qed.

Lemma up_to_date_intro (s : ScrollBar) :
  _rect (base (_apply_size_changes s)) = _rect (base s) ->
  _slider_rect (_apply_size_changes s) = _slider_rect s ->
  up_to_date s.
Proof.
  unfold up_to_date, _apply_size_changes. cbv zeta.
  match goal with |- context [with_slider_rect (with_rect _ ?r) ?sr] =>
    generalize sr; generalize r end.
  intros r sr H1 H2.
  unfold with_slider_rect, with_rect, set_base_rect in H1, H2.
  cbn in H1, H2. subst sr r.
  destruct s as [[r a ro vi ke me sa] lm mo o len th ps ss pad sp sr vr sc].
  reflexivity.
Qed.

Lemma up_to_date_scrolled (self : ScrollBar) (p m : Z) :
  up_to_date self -> _slider_position self == inject_Z p ->
  up_to_date
    (with_slider_position
       (with_slider_rect self
          (Rect.move (_slider_rect self) (move_pos (_orientation self) m)))
       (_slider_position self + inject_Z m)).
Proof.
  intros H Hp.
  pose proof (int_add_whole _ p m Hp) as Hi.
  assert (Hr : _rect (base (_apply_size_changes self)) = _rect (base self))
    by (rewrite H; reflexivity).
  assert (Hs : _slider_rect (_apply_size_changes self) = _slider_rect self)
    by (rewrite H; reflexivity).
  apply up_to_date_intro.
  - exact Hr.
  - zcbn. rewrite <- Hs. unfold _apply_size_changes. zcbn.
    destruct (_orientation self); zcbn; rewrite Hi;
      unfold Rect.move, Rect.inflate, Rect.set_x, Rect.set_y; zcbn;
      f_equal; lia.
Qed.

Lemma up_to_date_rects (s : ScrollBar) :
  up_to_date s ->
  let o := is_vertical (_orientation s) in
  pos o (_slider_rect s) = (Py.int (_slider_position s) + _slider_pad s)%Z
  /\ dim o (_slider_rect s) = (Py.int (_page_step s) - 2 * _slider_pad s)%Z
  /\ pos (negb o) (_slider_rect s) = _slider_pad s
  /\ dim (negb o) (_slider_rect s)
     = (_page_ctrl_thick s - 2 * _slider_pad s)%Z
  /\ dim o (_rect (base s)) = Py.int (_page_ctrl_length s)
  /\ dim (negb o) (_rect (base s)) = _page_ctrl_thick s.
Proof.
  intro H. unfold up_to_date in H.
  assert (Hs : _slider_rect s = _slider_rect (_apply_size_changes s))
    by (rewrite H; reflexivity).
  assert (Hr : _rect (base s) = _rect (base (_apply_size_changes s)))
    by (rewrite H; reflexivity).
  cbv zeta. rewrite Hs, Hr. clear H Hs Hr.
  pose proof (quot_double_opp (_slider_pad s)) as Hq.
  pose proof (int_inject_Z (_page_ctrl_thick s)) as Ht.
  unfold _apply_size_changes. zcbn.
  destruct (_orientation s); zcbn; rewrite Hq, Ht; repeat split; lia.
Qed.

Lemma placed_slider_in_rect (s : ScrollBar) :
  placed s ->
  exists p, up_to_date s /\ _slider_position s == inject_Z p
            /\ slider_in_rect s p /\ (0 <= p <= travel s)%Z.
Proof.
  intros (p & Hu & Hq & Hp). exists p.
  repeat split; try assumption; try lia.
  all: apply (up_to_date_slider_in_rect s p Hu Hq).
Qed.

(** One [_scroll], whatever it answers, keeps a placed slider placed. *)
Lemma _scroll_keeps_placed (rect : Rect.t) (pixels : Q) (s s' : ScrollBar)
  (r : result bool) :
  _scroll rect pixels s = (s', r) ->
  placed s ->
  dim (is_vertical (_orientation s)) rect
  = dim (is_vertical (_orientation s)) (_rect (base s)) ->
  placed s' /\ base s' = base s /\ _orientation s' = _orientation s.
Proof.
  intros E Hpl Hrect.
  destruct (placed_slider_in_rect s Hpl) as (p & Hu & Hq & Hinv & Hp).
  pose proof (clamped_move_travel rect pixels s p Hinv Hrect) as Hm.
  destruct (_scroll_cases rect pixels s) as [[_ E1]|(_ & Hn & E1)];
    cbv zeta in *; rewrite E1 in E; inversion E; subst s' r; clear E.
  - auto.
  - split; [|split; reflexivity].
    exists (p + clamped_move rect pixels s)%Z.
    split; [apply (up_to_date_scrolled s p); assumption|].
    split; [zcbn; rewrite Hq, inject_Z_plus; reflexivity|].
    unfold travel in *. zcbn. rewrite Hm. lia.
Qed.

Lemma placed_frame (s s' : ScrollBar) :
  _apply_size_changes s' = s' ->
  _slider_position s' = _slider_position s ->
  _page_ctrl_length s' = _page_ctrl_length s ->
  _page_step s' = _page_step s ->
  placed s -> placed s'.
Proof.
  intros Hu Hq HL HP (p & _ & Hp & Ht). exists p.
  unfold travel in *. rewrite Hq, HL, HP. auto.
Qed.

Lemma placed_with_mouseover (s : ScrollBar) (b : bool) :
  placed s -> placed (with_mouseover s b).
Proof.
  intros H. apply (placed_frame s); try reflexivity; [|exact H].
  destruct H as (_ & Hu & _). unfold up_to_date in Hu.
  change (_apply_size_changes (with_mouseover s b))
    with (with_mouseover (_apply_size_changes s) b).
  now rewrite Hu.
Qed.

Lemma placed_with_scrolling (s : ScrollBar) (b : bool) :
  placed s -> placed (with_scrolling s b).
Proof.
  intros H. apply (placed_frame s); try reflexivity; [|exact H].
  destruct H as (_ & Hu & _). unfold up_to_date in Hu.
  change (_apply_size_changes (with_scrolling s b))
    with (with_scrolling (_apply_size_changes s) b).
  now rewrite Hu.
Qed.

Lemma placed_with_last_mouse_pos (s : ScrollBar) (q : Z * Z) :
  placed s -> placed (with_last_mouse_pos s q).
Proof.
  intros H. apply (placed_frame s); try reflexivity; [|exact H].
  destruct H as (_ & Hu & _). unfold up_to_date in Hu.
  change (_apply_size_changes (with_last_mouse_pos s q))
    with (with_last_mouse_pos (_apply_size_changes s) q).
  now rewrite Hu.
Qed.

Lemma placed_with_values_range (s : ScrollBar) (v : Q * Q) :
  placed s -> placed (with_values_range s v).
Proof.
  intros H. apply (placed_frame s); try reflexivity; [|exact H].
  destruct H as (_ & Hu & _). apply up_to_date_with_values_range. exact Hu.
Qed.

(** X13.  A placed slider lies inside the track: with a padding that is
    not negative, every point of the absolute slider rectangle
    ([get_slider_rect()]) is a point of the widget's absolute
    rectangle. *)
Theorem slider_inside_track (s : ScrollBar) (pt : Z * Z) :
  placed s ->
  (0 <= _slider_pad s)%Z ->
  Rect.collidepoint (get_slider_rect s) pt = true ->
  Rect.collidepoint (get_rect_abs s) pt = true.
Proof.
  intros Hpl Hpad Hc.
  destruct Hpl as (p & Hu & Hq & Hp).
  pose proof (up_to_date_rects s Hu) as R. cbv zeta in R.
  assert (Hi : Py.int (_slider_position s) = p)
    by (rewrite (int_comp _ _ Hq); apply int_inject_Z).
  rewrite Hi in R. unfold travel in Hp.
  unfold Rect.collidepoint, get_slider_rect, get_rect_abs, Rect.move,
    Rect.topleft in *.
  zcbn.
  rewrite !andb_true_iff, !Z.leb_le, !Z.ltb_lt in *.
  destruct (_orientation s); zcbn; lia.
Qed.

Lemma slider_inside_track_witness :
  exists s,
    sb_200 = Ok s
    /\ Rect.collidepoint (get_slider_rect s) (5, 5)%Z = true
    /\ Rect.collidepoint (get_rect_abs s) (5, 5)%Z = true.
Proof.
  with_ok sb_200 ltac:(fun s =>
    exists s; split; [vm_compute; reflexivity|];
    split; [vm_compute; reflexivity|];
    apply (slider_inside_track s);
    [ exists 0%Z; vm_compute; repeat split; try reflexivity; discriminate
    | vm_compute; discriminate
    | vm_compute; reflexivity ]).
Defined.

Lemma init_placed (w0 : Widget) (length : Q) (values_range : Q * Q)
  (orientation : Orientation) (slider_pad page_ctrl_thick : Z)
  (self : ScrollBar) :
  __init__ w0 length values_range orientation slider_pad page_ctrl_thick
  = Ok self ->
  placed self.
Proof.
  intro H.
  destruct (init_slider_in_rect _ _ _ _ _ _ _ H) as (_ & (Hq & _) & Ht).
  apply init_cases in H. cbv zeta in H.
  destruct H as (_ & _ & self1 & _ & ->).
  exists 0%Z. split; [|split; [exact Hq|lia]].
  unfold up_to_date.
  change (_apply_size_changes (with_scrolling ?s false))
    with (with_scrolling (_apply_size_changes s) false).
  now rewrite apply_size_changes_twice.
Qed.

Ltac dims_side :=
  zcbn;
  try match goal with H : _orientation _ = _ |- _ => rewrite H end;
  assumption.

Ltac placed_case :=
  repeat first
    [ progress (se_unfold; unfold on_sb, emit, scroll_and_change)
    | progress cbn [sb log fst snd]
    | match goal with
      | |- context [_scroll ?r ?p ?s] =>
          let E := fresh "E" in
          let x := fresh "x" in
          destruct (_scroll r p s) as [x [[|]|?]] eqn:E
      | |- context [get_value_percentual ?s] =>
          destruct (get_value_percentual s) eqn:?
      | |- context [_last_mouse_pos ?s] =>
          destruct (_last_mouse_pos s) eqn:?
      | |- context [match _orientation ?s with _ => _ end] =>
          destruct (_orientation s) eqn:?
      | |- context [if ?c then _ else _] => destruct c eqn:?
      end ].

Lemma handle_event_keeps_placed (rect : Rect.t) (event : Event)
  (updated : bool) (w : World) :
  placed (sb w) ->
  dim (is_vertical (_orientation (sb w))) rect
  = dim (is_vertical (_orientation (sb w))) (_rect (base (sb w))) ->
  match handle_event rect event updated w with
  | (w', _) =>
      placed (sb w') /\ base (sb w') = base (sb w)
      /\ _orientation (sb w') = _orientation (sb w)
  end.
Proof.
  intros Hpl Hrect.
  destruct event as [d [ls rs [mx my] over]]. destruct w as [s l].
  unfold handle_event. cbn [data ambient mouse_pos sb log] in *.
  destruct d as [key|[rel|] pos|gain|button pos| |].
  all: placed_case.
  all: repeat match goal with
       | E : _scroll _ _ (with_last_mouse_pos ?s ?q) = _ |- _ =>
           apply _scroll_keeps_placed in E;
           [ destruct E as (? & ? & ?)
           | apply placed_with_last_mouse_pos; assumption
           | dims_side ]
       | E : _scroll _ _ _ = _ |- _ =>
           apply _scroll_keeps_placed in E;
           [ destruct E as (? & ? & ?) | assumption | dims_side ]
       end.
  all: zcbn.
  all: repeat split;
       repeat first [ apply placed_with_mouseover
                    | apply placed_with_scrolling
                    | apply placed_with_last_mouse_pos ];
       try assumption; try reflexivity; try congruence.
Qed.

Lemma for_events_keeps_placed (rect : Rect.t) (events : list Event) :
  forall (updated : bool) (w : World),
    placed (sb w) ->
    dim (is_vertical (_orientation (sb w))) rect
    = dim (is_vertical (_orientation (sb w))) (_rect (base (sb w))) ->
    placed (sb (fst (for_events rect events updated w))).
Proof.
  induction events as [|event rest IH]; intros updated w Hpl Hrect.
  - exact Hpl.
  - cbn [for_events]. unfold bind.
    pose proof (handle_event_keeps_placed rect event updated w Hpl Hrect) as H.
    destruct (handle_event rect event updated w) as [w1 [u1|ex]];
      destruct H as (Hpl1 & Hb & Ho).
    + apply IH; [exact Hpl1|]. rewrite Ho, Hb. exact Hrect.
    + exact Hpl1.
Qed.

(** X14.  Whatever the events of a batch are, and whether [update]
    returns or raises, a slider that was placed (rectangles up to date,
    position a whole pixel inside the travel) is placed afterwards: no
    drag, click, wheel, key or focus event takes the slider out of its
    travel or out of step with its rectangle. *)
Theorem update_keeps_placed (events : list Event) (w : World) :
  placed (sb w) -> placed (sb (fst (update events w))).
Proof.
  intro Hpl. unfold update. unfold bind at 1. unfold gets at 1.
  destruct (readonly (base (sb w)) || negb (_visible (base (sb w)))).
  - exact Hpl.
  - pose proof (for_events_keeps_placed (get_rect_abs (sb w)) events false w
                  Hpl) as H.
    unfold bind.
    destruct (for_events (get_rect_abs (sb w)) events false w)
      as [w1 [[|]|ex]]; cbn [fst] in *.
    + apply H. destruct (_orientation (sb w)); reflexivity.
    + apply H. destruct (_orientation (sb w)); reflexivity.
    + apply H. destruct (_orientation (sb w)); reflexivity.
Qed.

Lemma update_keeps_placed_witness :
  exists s,
    sb_200 = Ok s
    /\ placed (sb (fst (update [press_at (5, 5)%Z; focus_lost_at (10, 5)%Z;
                                focus_gained_at (900, 5)%Z]
                               {| sb := s; log := [] |}))).
Proof.
  with_ok sb_200 ltac:(fun s =>
    exists s; split; [vm_compute; reflexivity|];
    apply update_keeps_placed;
    exists 0%Z; vm_compute; repeat split; try reflexivity; discriminate).
Defined.

(** X15.  [set_value], [set_orientation], [set_minimum] and [set_maximum]
    keep a placed slider placed, whether they succeed or raise.  (The
    constructor returns an object whose slider is placed: [init_placed].) *)
Theorem setters_keep_placed (s : ScrollBar) :
  placed s ->
  (forall v, placed (fst (set_value v s)))
  /\ (forall o, placed (fst (set_orientation o s)))
  /\ (forall v, placed (fst (set_minimum v s)))
  /\ (forall v, placed (fst (set_maximum v s))).
Proof.
  intro Hpl. split; [|split; [|split]].
  - intro v. unfold set_value. se_unfold.
    destruct (Qle_bool (vmin s) v && Qle_bool v (vmax s)); [|exact Hpl].
    destruct (Py.is_zero (vmax s - vmin s)); [exact Hpl|].
    match goal with |- context [_scroll ?r ?p s] =>
      destruct (_scroll r p s) as [s' [b|e]] eqn:E end; cbn [fst];
      apply _scroll_keeps_placed in E; try assumption; try reflexivity;
      apply E.
  - intro o. unfold set_orientation. se_unfold. cbn [fst].
    destruct Hpl as (p & _ & Hq & Hp). exists p.
    split; [apply up_to_date_apply|]. split; [exact Hq|exact Hp].
  - intro v. destruct (set_minimum_cases v s) as [(_ & _ & E)|[_ E]];
      rewrite E; cbn [fst]; [apply placed_with_values_range|]; exact Hpl.
  - intro v. destruct (set_maximum_cases v s) as [[_ E]|[_ E]];
      rewrite E; cbn [fst]; [apply placed_with_values_range|]; exact Hpl.
Qed.

Lemma setters_keep_placed_witness :
  exists s, sb_200 = Ok s /\ placed (fst (set_value 37 s)).
Proof.
  with_ok sb_200 ltac:(fun s =>
    exists s; split; [vm_compute; reflexivity|];
    apply (proj1 (setters_keep_placed s
             (init_placed default_widget 200 (0, 100) ORIENTATION_HORIZONTAL
                          0 20 s eq_refl)))).
Defined.

(** ** What [update] never changes *)

Lemma same_config_refl (s : ScrollBar) : same_config s s.
Proof. unfold same_config, same_geometry. tauto. Qed.

Lemma same_config_trans (a b c : ScrollBar) :
  same_config a b -> same_config b c -> same_config a c.
Proof. unfold same_config, same_geometry. intuition congruence. Qed.

Lemma _scroll_same_config (rect : Rect.t) (pixels : Q) (s s' : ScrollBar)
  (r : result bool) :
  _scroll rect pixels s = (s', r) -> same_config s s'.
Proof.
  intro E.
  destruct (_scroll_cases rect pixels s) as [[_ E1]|(_ & _ & E1)];
    cbv zeta in E1; rewrite E1 in E; inversion E; subst s' r.
  - apply same_config_refl.
  - unfold same_config, same_geometry. zcbn.
    destruct (_orientation s); zcbn; tauto.
Qed.

Lemma handle_event_same_config (rect : Rect.t) (event : Event)
  (updated : bool) (w : World) :
  same_config (sb w) (sb (fst (handle_event rect event updated w))).
Proof.
  destruct event as [d [ls rs [mx my] over]]. destruct w as [s l].
  unfold handle_event. cbn [data ambient mouse_pos sb log] in *.
  destruct d as [key|[rel|] pos|gain|button pos| |].
  all: placed_case.
  all: repeat match goal with
       | E : _scroll _ _ _ = _ |- _ => apply _scroll_same_config in E
       end.
  all: unfold same_config, same_geometry in *; zcbn; intuition congruence.
Qed.

Lemma for_events_same_config (rect : Rect.t) (events : list Event) :
  forall (updated : bool) (w : World),
    same_config (sb w) (sb (fst (for_events rect events updated w))).
Proof.
  induction events as [|event rest IH]; intros updated w.
  - apply same_config_refl.
  - cbn [for_events]. unfold bind.
    pose proof (handle_event_same_config rect event updated w) as H.
    destruct (handle_event rect event updated w) as [w1 [u1|ex]];
      cbn [fst] in H.
    + eapply same_config_trans; [exact H|apply IH].
    + exact H.
Qed.

Lemma for_events_same_config_update (events : list Event) (w : World) :
  same_config (sb w) (sb (fst (update events w))).
Proof.
  unfold update. unfold bind at 1. unfold gets at 1.
  destruct (readonly (base (sb w)) || negb (_visible (base (sb w)))).
  - apply same_config_refl.
  - pose proof (for_events_same_config (get_rect_abs (sb w)) events false w)
      as H.
    unfold bind.
    destruct (for_events (get_rect_abs (sb w)) events false w)
      as [w1 [[|]|ex]]; exact H.
Qed.

(** X16.  Whatever the events are, and whether it returns or raises,
    [update] leaves the base part of the widget, the orientation, the
    length, the page step, the single step, the range, the thickness, the
    padding and the size of the slider rectangle as they were: events
    only move the slider and set the drag, hover and pointer fields. *)
Theorem update_same_config (events : list Event) (w : World) (w' : World)
  (r : result bool) :
  update events w = (w', r) ->
  same_config (sb w) (sb w').
Proof.
  intro E. pose proof (for_events_same_config_update events w) as H.
  rewrite E in H. exact H.
Qed.

Lemma update_same_config_witness :
  exists s w',
    sb_200 = Ok s
    /\ update [press_at (5, 5)%Z; focus_lost_at (10, 5)%Z;
               focus_gained_at (60, 5)%Z] {| sb := s; log := [] |}
       = (w', Ok false)
    /\ same_config s (sb w').
Proof.
  with_ok sb_200 ltac:(fun s =>
    with_run (update [press_at (5, 5)%Z; focus_lost_at (10, 5)%Z;
                      focus_gained_at (60, 5)%Z] {| sb := s; log := [] |})
      ltac:(fun w' =>
        exists s, w'; split; [vm_compute; reflexivity|];
        split; [vm_compute; reflexivity|];
        apply (update_same_config
                 [press_at (5, 5)%Z; focus_lost_at (10, 5)%Z;
                  focus_gained_at (60, 5)%Z] {| sb := s; log := [] |} w'
                 (Ok false));
        vm_compute; reflexivity)).
Defined.

(** ** What every call keeps *)

Lemma sound_same_config (s s' : ScrollBar) :
  same_config s s' -> sound s -> sound s'.
Proof.
  intros ((_ & _ & EL & _ & ER) & Et & Epad & _) (Hr & HL & Ht).
  unfold sound, vmin, vmax in *. rewrite ER, EL, Et, Epad. auto.
Qed.

Lemma sound_with_values_range (s : ScrollBar) (lo hi : Q) :
  lo < hi -> sound s -> sound (with_values_range s (lo, hi)).
Proof.
  intros H (_ & HL & Ht). unfold sound. auto.
Qed.

Lemma sound_apply (s : ScrollBar) : sound s -> sound (_apply_size_changes s).
Proof. intro H. exact H. Qed.

Lemma init_sound (w0 : Widget) (length : Q) (values_range : Q * Q)
  (orientation : Orientation) (slider_pad page_ctrl_thick : Z)
  (self : ScrollBar) :
  __init__ w0 length values_range orientation slider_pad page_ctrl_thick
  = Ok self ->
  sound self.
Proof.
  intro H.
  destruct (init_slider_in_rect _ _ _ _ _ _ _ H) as (HL & _ & _).
  apply init_cases in H. cbv zeta in H.
  destruct H as (Hr & Ht & self1 & E & ->).
  match type of E with set_page_step ?v ?s0 = _ =>
    set (value := v) in *; set (self0 := s0) in * end.
  assert (Hr0 : vmin self0 < vmax self0) by exact Hr.
  destruct (set_page_step_cases value self0 Hr0)
    as [[_ E']|[(Hv & _ & E')|(Hv & _ & E')]];
    rewrite E' in E; inversion E; subst self1; clear E E';
    (split; [exact Hr|]); (split; [exact HL|exact Ht]).
Qed.

Lemma run_call_sound (c : Call) (w : World) :
  sound (sb w) -> sound (sb (run_call c w)).
Proof.
  intro Hs. pose proof Hs as (Hr & HL & Ht).
  destruct c as [v|v|v|o|v|v|events]; unfold run_call, on_sb.
  - (* set_length *)
    unfold set_length. se_unfold.
    destruct (Py.ltb 0 v) eqn:E; cbn [fst sb]; [|exact Hs].
    apply ltb_lt in E. apply sound_apply.
    split; [exact Hr|]. split; [exact E|exact Ht].
  - (* set_maximum *)
    destruct (set_maximum_cases v (sb w)) as [[H E]|[_ E]]; rewrite E;
      cbn [fst sb]; [|exact Hs].
    apply sound_with_values_range; assumption.
  - (* set_minimum *)
    destruct (set_minimum_cases v (sb w)) as [(_ & H & E)|[_ E]]; rewrite E;
      cbn [fst sb]; [|exact Hs].
    apply sound_with_values_range; assumption.
  - (* set_orientation *)
    unfold set_orientation. se_unfold. cbn [fst sb].
    apply sound_apply. exact Hs.
  - (* set_page_step *)
    destruct (set_page_step_cases v (sb w) Hr)
      as [[_ E]|[(Hv & _ & E)|(Hv & _ & E)]]; cbv zeta in E; rewrite E;
      cbn [fst sb]; [exact Hs| |]; apply sound_apply; exact Hs.
  - (* set_value *)
    unfold set_value. se_unfold.
    destruct (Qle_bool (vmin (sb w)) v && Qle_bool v (vmax (sb w)));
      cbn [fst sb]; [|exact Hs].
    destruct (Py.is_zero (vmax (sb w) - vmin (sb w))); cbn [fst sb];
      [exact Hs|].
    match goal with |- context [_scroll ?r ?p (sb w)] =>
      destruct (_scroll r p (sb w)) as [s' [b|e]] eqn:E end; cbn [fst sb];
      apply _scroll_same_config in E;
      apply (sound_same_config (sb w)); assumption.
  - (* update *)
    apply (sound_same_config (sb w)); [|exact Hs].
    apply for_events_same_config_update.
Qed.

(** X17.  Every object the constructor returns, and every object reached
    from it by any sequence of calls of [set_length], [set_maximum],
    [set_minimum], [set_orientation], [set_page_step], [set_value] and
    [update], failed calls included, has [min < max], a positive length
    and a slider at least 2 pixels thick: each of these fields is
    assigned only behind the assertion that guards it. *)
Theorem run_calls_sound (w0 : Widget) (length : Q) (values_range : Q * Q)
  (orientation : Orientation) (slider_pad page_ctrl_thick : Z)
  (self : ScrollBar) (calls : list Call) (l : list Callback) :
  __init__ w0 length values_range orientation slider_pad page_ctrl_thick
  = Ok self ->
  sound self /\ sound (sb (run_calls calls {| sb := self; log := l |})).
Proof.
  intro H. pose proof (init_sound _ _ _ _ _ _ _ H) as Hs.
  split; [exact Hs|].
  assert (G : forall w, sound (sb w) -> sound (sb (run_calls calls w))).
  { clear. induction calls as [|c rest IH]; intros w Hw.
    - exact Hw.
    - cbn [run_calls fold_left]. apply IH. apply run_call_sound. exact Hw. }
  apply G. exact Hs.
Qed.

Lemma run_calls_sound_witness :
  exists s,
    sb_200 = Ok s
    /\ sound (sb (run_calls [CallSetValue 100; CallSetPageStep 100;
                             CallSetLength 30; CallSetMinimum (-1);
                             CallUpdate [page_down; release]]
                            {| sb := s; log := [] |})).
Proof.
  with_ok sb_200 ltac:(fun s =>
    exists s; split; [vm_compute; reflexivity|];
    apply (proj2 (run_calls_sound default_widget 200 (0, 100)
                    ORIENTATION_HORIZONTAL 0 20 s _ [] eq_refl))).
Defined.

(** ** Events that do nothing, and the event that raises *)

Lemma handle_event_ignored (rect : Rect.t) (event : Event) (updated : bool)
  (w : World) :
  ignored (sb w) event = true ->
  handle_event rect event updated w = (w, Ok updated).
Proof.
  destruct event as [d amb]. destruct w as [s l].
  unfold ignored, handle_event. cbn [data ambient sb log].
  destruct d as [key|[rel|] pos|gain|button pos| |]; se_unfold;
    cbn [sb log]; intro H.
  - destruct (_keyboard_enabled (base s)), (is_vertical (_orientation s)), key;
      cbn in H |- *; try discriminate; reflexivity.
  - rewrite H. reflexivity.
  - reflexivity.
  - discriminate.
  - destruct (_mouse_enabled (base s)); cbn [negb orb] in H |- *;
      [|reflexivity].
    destruct (button =? 4)%Z eqn:B4; destruct (button =? 5)%Z eqn:B5;
      destruct (button =? 1)%Z eqn:B1; destruct (button =? 2)%Z eqn:B2;
      destruct (button =? 3)%Z eqn:B3;
      rewrite ?Z.eqb_eq in *; try lia;
      destruct (is_vertical (_orientation s));
      destruct (_scrollarea (base s));
      try destruct (area_mouse_is_over amb);
      cbn in H |- *; try discriminate; reflexivity.
  - rewrite H. reflexivity.
  - reflexivity.
Qed.

(** X18.  A batch made of events the scroll bar passes over (see
    [ignored]) changes nothing, calls nothing, and [update] answers
    false. *)
Theorem update_ignored_events (events : list Event) (w : World) :
  forallb (ignored (sb w)) events = true ->
  update events w = (w, Ok false).
Proof.
  intro H. unfold update. unfold bind at 1. unfold gets at 1.
  destruct (readonly (base (sb w)) || negb (_visible (base (sb w))));
    [reflexivity|].
  assert (G : forall rect u,
             for_events rect events u w = (w, Ok u)).
  { intros rect. induction events as [|e rest IH]; intro u.
    - reflexivity.
    - cbn [forallb] in H. apply andb_true_iff in H. destruct H as [He Hr].
      cbn [for_events]. unfold bind.
      rewrite (handle_event_ignored rect e u w He). apply IH. exact Hr. }
  unfold bind. rewrite G. reflexivity.
Qed.

Lemma update_ignored_events_witness :
  exists s,
    sb_200 = Ok s
    /\ update [page_down; {| data := MOUSEBUTTONDOWN 4 (5, 5)%Z;
                             ambient := quiet |};
               {| data := OTHEREVENT; ambient := quiet |}]
              {| sb := s; log := [] |}
       = ({| sb := s; log := [] |}, Ok false).
Proof.
  with_ok sb_200 ltac:(fun s =>
    exists s; split; [vm_compute; reflexivity|];
    apply update_ignored_events; vm_compute; reflexivity).
Defined.

Lemma get_value_percentual_raises (s : ScrollBar) :
  _page_ctrl_length s == _page_step s \/ get_maximum s = get_minimum s ->
  get_value_percentual s = Raise ZeroDivisionError.
Proof.
  intro H. unfold get_value_percentual, get_minmax.
  destruct (get_value_cases s) as [[_ E]|(HL & g & E)]; rewrite E.
  - reflexivity.
  - destruct H as [H|H]; [contradiction|].
    replace (get_maximum s - get_minimum s =? 0)%Z with true
      by (symmetry; apply Z.eqb_eq; lia).
    reflexivity.
Qed.

(** X19.  Event handling can fail: on a widget that is enabled, during a
    drag, when the length equals the page step or the two integer bounds
    coincide, a batch that starts with a pointer motion makes [update]
    raise [ZeroDivisionError] at once; the object is left as it was and
    nothing is called. *)
Theorem update_raises_on_drag_without_range
  (rel pos : Z * Z) (a : Ambient) (rest : list Event) (w : World) :
  update_enabled (sb w) = true ->
  _mouse_enabled (base (sb w)) = true ->
  scrolling (sb w) = true ->
  _page_ctrl_length (sb w) == _page_step (sb w)
  \/ get_maximum (sb w) = get_minimum (sb w) ->
  update ({| data := MOUSEMOTION (Some rel) pos; ambient := a |} :: rest) w
  = (w, Raise ZeroDivisionError).
Proof.
  intros He Hm Hs Hz.
  pose proof (get_value_percentual_raises (sb w) Hz) as Hr.
  unfold update_enabled in He. apply negb_true_iff in He.
  unfold update. unfold bind at 1. unfold gets at 1. rewrite He.
  cbn [for_events]. unfold handle_event. cbn [data ambient].
  destruct w as [s l]. cbn [sb log] in *.
  destruct a as [ls rs [mx my] over]. cbn [mouse_pos].
  se_unfold. unfold on_sb. cbn [sb log]. rewrite Hm, Hs. cbn [negb sb log].
  rewrite Hr. reflexivity.
Qed.

Lemma update_raises_on_drag_without_range_witness :
  exists s0 s1 w2,
    sb_100 = Ok s0
    /\ set_page_step 100 s0 = (s1, Ok tt)
    /\ update [press_at (5, 5)%Z] {| sb := s1; log := [] |} = (w2, Ok false)
    /\ update [{| data := MOUSEMOTION (Some (3, 0)%Z) (8, 5)%Z;
                  ambient := mouse_at (8, 5)%Z |}] w2
       = (w2, Raise ZeroDivisionError).
Proof.
  with_ok sb_100 ltac:(fun s0 =>
    with_run (set_page_step 100 s0) ltac:(fun s1 =>
      with_run (update [press_at (5, 5)%Z] {| sb := s1; log := [] |})
        ltac:(fun w2 =>
          exists s0, s1, w2;
          split; [vm_compute; reflexivity|];
          split; [vm_compute; reflexivity|];
          split; [vm_compute; reflexivity|];
          apply update_raises_on_drag_without_range;
          [ vm_compute; reflexivity
          | vm_compute; reflexivity
          | vm_compute; reflexivity
          | left; vm_compute; reflexivity ]))).
Defined.

(** ** Single events *)

Lemma for_events_app (rect : Rect.t) (e1 e2 : list Event) :
  forall (updated : bool) (w : World),
    for_events rect (e1 ++ e2) updated w
    = bind (for_events rect e1 updated)
           (fun updated' => for_events rect e2 updated') w.
Proof.
  induction e1 as [|e rest IH]; intros updated w.
  - reflexivity.
  - cbn [app for_events]. unfold bind.
    destruct (handle_event rect e updated w) as [w1 [u1|ex]]; [|reflexivity].
    rewrite IH. unfold bind. reflexivity.
Qed.

(** X20.  A release of a mouse button ends the drag unconditionally:
    when the mouse is enabled and [update] returns from a batch whose
    last event is a button release, the scroll bar is not being
    dragged. *)
Theorem update_release_ends_drag (events : list Event) (a : Ambient)
  (w w' : World) (b : bool) :
  update_enabled (sb w) = true ->
  _mouse_enabled (base (sb w)) = true ->
  update (events ++ [{| data := MOUSEBUTTONUP; ambient := a |}]) w
  = (w', Ok b) ->
  scrolling (sb w') = false.
Proof.
  intros He Hm E.
  unfold update_enabled in He. apply negb_true_iff in He.
  unfold update in E. unfold bind at 1 in E. unfold gets at 1 in E.
  rewrite He in E. unfold bind at 1 in E. rewrite for_events_app in E.
  unfold bind at 1 in E.
  pose proof (for_events_same_config (get_rect_abs (sb w)) events false w)
    as Hc.
  destruct (for_events (get_rect_abs (sb w)) events false w)
    as [w1 [u1|ex]]; cbn [fst] in Hc; [|discriminate].
  destruct Hc as ((Hb & _) & _).
  cbn [for_events] in E. unfold handle_event in E. cbn [data] in E.
  se_unfold. unfold on_sb, emit in E. se_unfold.
  rewrite Hb, Hm in E. cbn [negb] in E.
  destruct (scrolling (sb w1)) eqn:Hs; cbn [sb log] in E.
  - inversion E. reflexivity.
  - destruct u1; inversion E; subst; cbn [sb]; exact Hs.
Qed.

Lemma update_release_ends_drag_witness :
  exists s w',
    sb_200 = Ok s
    /\ update ([press_at (5, 5)%Z] ++ [release]) {| sb := s; log := [] |}
       = (w', Ok true)
    /\ scrolling (sb w') = false.
Proof.
  with_ok sb_200 ltac:(fun s =>
    with_run (update ([press_at (5, 5)%Z] ++ [release])
                {| sb := s; log := [] |}) ltac:(fun w' =>
      exists s, w'; split; [vm_compute; reflexivity|];
      split; [vm_compute; reflexivity|];
      apply (update_release_ends_drag [press_at (5, 5)%Z] quiet
               {| sb := s; log := [] |} w' true);
      vm_compute; reflexivity)).
Defined.

Lemma round_whole (z : Z) : Py.round (inject_Z z) = z.
Proof.
  destruct (round_bounds z z (inject_Z z)); try lra. lia.
Qed.

(** The notified scroll of a placed slider: the slider goes to the
    clamped target and [change()] is called exactly when it moved. *)
Lemma scroll_and_change_placed (rect : Rect.t) (pixels : Q) (updated : bool)
  (w : World) (p : Z) :
  slider_in_rect (sb w) p ->
  dim (is_vertical (_orientation (sb w))) rect
  = dim (is_vertical (_orientation (sb w))) (_rect (base (sb w))) ->
  (0 <= p <= travel (sb w))%Z ->
  let p' := clamp 0 (travel (sb w)) (p + Py.round pixels) in
  exists w',
    scroll_and_change rect pixels updated w
    = (w', Ok (if (p' =? p)%Z then updated else true))
    /\ _slider_position (sb w') == inject_Z p'
    /\ log w' = log w ++ (if (p' =? p)%Z then [] else [CbChange])
    /\ _mouseover (sb w') = _mouseover (sb w)
    /\ scrolling (sb w') = scrolling (sb w).
Proof.
  intros Hinv Hrect Hp p'.
  destruct (_scroll_invariant rect pixels (sb w) p Hinv Hrect)
    as (s1 & moved & E & Ht & Hf & _).
  cbv zeta in Ht, Hf.
  set (m := Z.min (Z.max (Py.round pixels) (- p)) (travel (sb w) - p)) in *.
  assert (Hpm : p' = (p + m)%Z) by (unfold p', clamp, m; lia).
  destruct (scroll_and_change_cases rect pixels updated w)
    as [(s' & E1 & E2 & _ & _ & Hsc & Hmo)|[E1 E2]]; rewrite E2 in E;
    inversion E; subst s1 moved; clear E; rewrite E1.
  - destruct (Ht eq_refl) as (_ & Hm & (Hq & _)).
    replace (p' =? p)%Z with false by (symmetry; apply Z.eqb_neq; lia).
    eexists. split; [reflexivity|]. cbn [sb log].
    rewrite Hpm. auto.
  - destruct (Hf eq_refl) as (Hz & _).
    assert (Hm : m = 0%Z).
    { destruct Hz as [Hz|Hz]; [|exact Hz].
      unfold m. rewrite (round_zero _ Hz). lia. }
    replace (p' =? p)%Z with true by (symmetry; apply Z.eqb_eq; lia).
    exists w. split; [reflexivity|]. rewrite app_nil_r.
    replace p' with p by lia. destruct Hinv as (Hq & _). auto.
Qed.

Lemma update_single (event : Event) (w : World) :
  update_enabled (sb w) = true ->
  update [event] w
  = bind (handle_event (get_rect_abs (sb w)) event false)
         (fun updated =>
            bind (if updated : bool then emit CbUpdate else ret tt)
                 (fun _ => ret updated)) w.
Proof.
  intro He. unfold update_enabled in He. apply negb_true_iff in He.
  unfold update. unfold bind at 1. unfold gets at 1. rewrite He.
  cbn [for_events]. unfold bind, ret.
  destruct (handle_event (get_rect_abs (sb w)) event false w) as [w1 [u1|ex]];
    reflexivity.
Qed.

Lemma get_rect_abs_dim (s : ScrollBar) (o : bool) :
  dim o (get_rect_abs s) = dim o (_rect (base s)).
Proof. destruct o; reflexivity. Qed.

(** X21.  A click on the track outside the slider pages towards the
    click: on an enabled widget with a placed slider at [p], a press of
    button 1, 2 or 3 at a point of the widget's rectangle that is not in
    the slider rectangle moves the slider to [p + round(page_step)]
    (click beyond the slider's origin) or [p - round(page_step)],
    clamped into the travel; if the slider moved, [change()] and then
    the update callbacks are called once each and [update] answers
    true, otherwise nothing is called and it answers false. *)
Theorem update_track_click (button : Z) (pt : Z * Z) (a : Ambient)
  (w : World) (p : Z) :
  update_enabled (sb w) = true ->
  _mouse_enabled (base (sb w)) = true ->
  slider_in_rect (sb w) p ->
  (0 <= p <= travel (sb w))%Z ->
  (button = 1 \/ button = 2 \/ button = 3)%Z ->
  Rect.collidepoint (get_slider_rect (sb w)) pt = false ->
  Rect.collidepoint (get_rect_abs (sb w)) pt = true ->
  let o := _orientation (sb w) in
  let direction : Q :=
    if (pos (is_vertical o) (get_slider_rect (sb w)) <? idx o pt)%Z
    then 1 else -1 in
  let p' := clamp 0 (travel (sb w))
              (p + Py.round (direction * _page_step (sb w))) in
  exists w',
    update [{| data := MOUSEBUTTONDOWN button pt; ambient := a |}] w
    = (w', Ok (negb (p' =? p)%Z))
    /\ _slider_position (sb w') == inject_Z p'
    /\ log w' = log w ++ (if (p' =? p)%Z then [] else [CbChange; CbUpdate]).
Proof.
  intros He Hm Hinv Hp Hb Hs Hr o direction p'.
  rewrite (update_single _ w He).
  unfold bind at 1. unfold handle_event. cbn [data ambient].
  unfold bind at 1. unfold gets at 1. rewrite Hm. cbn [negb].
  assert (B45 : ((button =? 4)%Z || (button =? 5)%Z) = false).
  { apply orb_false_iff. split; apply Z.eqb_neq; lia. }
  assert (B123 : ((button =? 1)%Z || (button =? 2)%Z || (button =? 3)%Z)
                 = true).
  { destruct Hb as [ -> | [ -> | -> ] ]; reflexivity. }
  rewrite B45, B123, Hs, Hr. cbn [andb].
  assert (Hd : (if (idx (_orientation (sb w))
                      (Rect.x (get_slider_rect (sb w)),
                       Rect.y (get_slider_rect (sb w)))
                    <? idx (_orientation (sb w)) pt)%Z
                then 1 else -1) = direction).
  { unfold direction, o, idx. destruct (_orientation (sb w)); reflexivity. }
  rewrite Hd.
  destruct (scroll_and_change_placed (get_rect_abs (sb w))
              (direction * _page_step (sb w)) false w p Hinv
              (get_rect_abs_dim _ _) Hp)
    as (w1 & E & Hq & Hl & _).
  cbv zeta in E, Hq, Hl. fold p' in E, Hq, Hl. rewrite E.
  destruct (p' =? p)%Z; cbn [negb].
  - exists w1. unfold bind, ret. cbn. rewrite app_nil_r in *. auto.
  - unfold bind, emit, modify, ret. eexists. split; [reflexivity|].
    cbn [sb log]. split; [exact Hq|]. rewrite Hl, <- app_assoc. reflexivity.
Qed.

Lemma update_track_click_witness :
  exists s w',
    sb_200 = Ok s
    /\ update [press_at (150, 5)%Z] {| sb := s; log := [] |} = (w', Ok true)
    /\ _slider_position (sb w') == 40
    /\ log w' = [CbChange; CbUpdate].
Proof.
  with_ok sb_200 ltac:(fun s =>
    destruct (update_track_click 1 (150, 5)%Z (mouse_at (150, 5)%Z)
                {| sb := s; log := [] |} 0)
      as (w' & E & Hq & Hl);
    [ vm_compute; reflexivity
    | vm_compute; reflexivity
    | vm_compute; repeat split; reflexivity
    | vm_compute; split; discriminate
    | left; reflexivity
    | vm_compute; reflexivity
    | vm_compute; reflexivity
    | exists s, w'; split; [vm_compute; reflexivity|];
      vm_compute in E, Hq, Hl; repeat split;
      [ exact E | vm_compute; exact Hq | exact Hl ] ]).
Defined.

(** X22.  A page key steps a vertical bar: on an enabled widget with the
    keyboard enabled, a vertical orientation and a placed slider at [p],
    with no shift key held, page-down (page-up) moves the slider to [p]
    plus (minus) the rounded page step, clamped into the travel;
    [update] answers true and calls [change()] and the update callbacks
    exactly when the slider moved. *)
Theorem update_page_key (down : bool) (a : Ambient) (w : World) (p : Z) :
  update_enabled (sb w) = true ->
  _keyboard_enabled (base (sb w)) = true ->
  _orientation (sb w) = ORIENTATION_VERTICAL ->
  pressed_lshift a || pressed_rshift a = false ->
  slider_in_rect (sb w) p ->
  (0 <= p <= travel (sb w))%Z ->
  let key := if down then K_PAGEDOWN else K_PAGEUP in
  let direction : Q := if down then 1 else -1 in
  let step := _page_step (sb w) in
  let p' := clamp 0 (travel (sb w)) (p + Py.round (direction * step)) in
  exists w',
    update [{| data := KEYDOWN key; ambient := a |}] w
    = (w', Ok (negb (p' =? p)%Z))
    /\ _slider_position (sb w') == inject_Z p'
    /\ log w' = log w ++ (if (p' =? p)%Z then [] else [CbChange; CbUpdate]).
Proof.
  intros He Hk Ho Hshift Hinv Hp key direction step p'.
  rewrite (update_single _ w He).
  unfold bind at 1. unfold handle_event. cbn [data ambient].
  unfold bind at 1. unfold gets at 1. rewrite Hk, Ho. cbn [is_vertical andb].
  rewrite Hshift.
  assert (Hkey : match key with
                 | K_PAGEUP | K_PAGEDOWN => true
                 | K_other _ => false
                 end = true) by (unfold key; destruct down; reflexivity).
  rewrite Hkey.
  assert (Hd : match key with K_PAGEDOWN => 1 | _ => -1 end = direction)
    by (unfold key, direction; destruct down; reflexivity).
  rewrite Hd. fold step.
  destruct (scroll_and_change_placed (get_rect_abs (sb w))
              (direction * step) false w p Hinv
              (get_rect_abs_dim _ _) Hp)
    as (w1 & E & Hq & Hl & _).
  cbv zeta in E, Hq, Hl. fold p' in E, Hq, Hl. rewrite E.
  destruct (p' =? p)%Z; cbn [negb].
  - exists w1. unfold bind, ret. cbn. rewrite app_nil_r in *. auto.
  - unfold bind, emit, modify, ret. eexists. split; [reflexivity|].
    cbn [sb log]. split; [exact Hq|]. rewrite Hl, <- app_assoc. reflexivity.
Qed.

Lemma update_page_key_witness :
  exists s w',
    sb_200_vertical = Ok s
    /\ update [page_down] {| sb := s; log := [] |} = (w', Ok true)
    /\ _slider_position (sb w') == 40.
Proof.
  with_ok sb_200_vertical ltac:(fun s =>
    destruct (update_page_key true quiet {| sb := s; log := [] |} 0)
      as (w' & E & Hq & _);
    [ vm_compute; reflexivity
    | vm_compute; reflexivity
    | vm_compute; reflexivity
    | vm_compute; reflexivity
    | vm_compute; repeat split; reflexivity
    | vm_compute; split; discriminate
    | exists s, w'; split; [vm_compute; reflexivity|];
      vm_compute in E, Hq; split; [exact E|vm_compute; exact Hq] ]).
Defined.

(** X23.  The wheel steps a vertical bar: on an enabled widget with the
    mouse enabled, a vertical orientation, a placed slider at [p], and
    either no owning scroll area or the pointer over it, button 4 (5)
    moves the slider to [p] minus (plus) the rounded single step,
    clamped into the travel; [update] answers true and calls [change()]
    and the update callbacks exactly when the slider moved. *)
Theorem update_wheel (up : bool) (pt : Z * Z) (a : Ambient) (w : World)
  (p : Z) :
  update_enabled (sb w) = true ->
  _mouse_enabled (base (sb w)) = true ->
  _orientation (sb w) = ORIENTATION_VERTICAL ->
  match _scrollarea (base (sb w)) with
  | Some _ => area_mouse_is_over a = true
  | None => True
  end ->
  slider_in_rect (sb w) p ->
  (0 <= p <= travel (sb w))%Z ->
  let button := if up then 4%Z else 5%Z in
  let direction : Q := if up then -1 else 1 in
  let p' := clamp 0 (travel (sb w))
              (p + Py.round (direction * _single_step (sb w))) in
  exists w',
    update [{| data := MOUSEBUTTONDOWN button pt; ambient := a |}] w
    = (w', Ok (negb (p' =? p)%Z))
    /\ _slider_position (sb w') == inject_Z p'
    /\ log w' = log w ++ (if (p' =? p)%Z then [] else [CbChange; CbUpdate]).
Proof.
  intros He Hm Ho Ha Hinv Hp button direction p'.
  rewrite (update_single _ w He).
  unfold bind at 1. unfold handle_event. cbn [data ambient].
  unfold bind at 1. unfold gets at 1. rewrite Hm, Ho.
  cbn [negb is_vertical].
  assert (B : ((button =? 4)%Z || (button =? 5)%Z) = true)
    by (unfold button; destruct up; reflexivity).
  assert (A : match _scrollarea (base (sb w)) with
              | Some _ => area_mouse_is_over a
              | None => true
              end = true)
    by (destruct (_scrollarea (base (sb w))); [exact Ha|reflexivity]).
  rewrite B, A. cbn [andb].
  assert (Hd : (if (button =? 4)%Z then -1 else 1) = direction)
    by (unfold button, direction; destruct up; reflexivity).
  rewrite Hd.
  destruct (scroll_and_change_placed (get_rect_abs (sb w))
              (direction * _single_step (sb w)) false w p Hinv
              (eq_trans (get_rect_abs_dim _ _) eq_refl) Hp)
    as (w1 & E & Hq & Hl & _).
  cbv zeta in E, Hq, Hl. fold p' in E, Hq, Hl. rewrite E.
  destruct (p' =? p)%Z; cbn [negb].
  - exists w1. unfold bind, ret. cbn. rewrite app_nil_r in *. auto.
  - unfold bind, emit, modify, ret. eexists. split; [reflexivity|].
    cbn [sb log]. split; [exact Hq|]. rewrite Hl, <- app_assoc. reflexivity.
Qed.

Lemma update_wheel_witness :
  exists s w',
    sb_200_vertical = Ok s
    /\ update [{| data := MOUSEBUTTONDOWN 5 (5, 5)%Z; ambient := quiet |}]
              {| sb := s; log := [] |} = (w', Ok true)
    /\ _slider_position (sb w') == 20.
Proof.
  with_ok sb_200_vertical ltac:(fun s =>
    destruct (update_wheel false (5, 5)%Z quiet {| sb := s; log := [] |} 0)
      as (w' & E & Hq & _);
    [ vm_compute; reflexivity
    | vm_compute; reflexivity
    | vm_compute; reflexivity
    | vm_compute; exact I
    | vm_compute; repeat split; reflexivity
    | vm_compute; split; discriminate
    | exists s, w'; split; [vm_compute; reflexivity|];
      vm_compute in E, Hq; split; [exact E|vm_compute; exact Hq] ]).
Defined.

(** X24.  A drag follows the pointer: on an enabled widget with the mouse
    enabled, no owning scroll area, a drag under way, a placed slider at
    [p] and no zero divisor in [get_value_percentual], a pointer motion
    moves the slider to [p] plus the motion along the axis, clamped into
    the travel, and [update] answers true exactly when the slider
    moved. *)
Theorem update_drag_motion (rel pt : Z * Z) (a : Ambient) (w : World)
  (p : Z) :
  update_enabled (sb w) = true ->
  _mouse_enabled (base (sb w)) = true ->
  _scrollarea (base (sb w)) = None ->
  scrolling (sb w) = true ->
  no_zero_division (sb w) ->
  slider_in_rect (sb w) p ->
  (0 <= p <= travel (sb w))%Z ->
  let p' := clamp 0 (travel (sb w)) (p + idx (_orientation (sb w)) rel) in
  exists w',
    update [{| data := MOUSEMOTION (Some rel) pt; ambient := a |}] w
    = (w', Ok (negb (p' =? p)%Z))
    /\ _slider_position (sb w') == inject_Z p'
    /\ scrolling (sb w') = true.
Proof.
  intros He Hm Ha Hs Hz Hinv Hp p'.
  rewrite (update_single _ w He).
  destruct (get_value_percentual_ok (sb w) Hz) as [q Hq0].
  unfold bind at 1. unfold handle_event. cbn [data ambient].
  destruct a as [ls rs [mx my] over]. cbn [mouse_pos].
  unfold bind at 1. unfold gets at 1. rewrite Hm, Hs, Ha. cbn [negb].
  unfold bind at 1. unfold bind at 1. unfold on_sb at 1. unfold read.
  rewrite Hq0. rewrite andb_false_r. unfold ret at 1.
  unfold bind at 1.
  destruct (scroll_and_change_placed (get_rect_abs (sb w))
              (inject_Z (idx (_orientation (sb w)) rel)) false
              {| sb := sb w; log := log w |} p Hinv
              (get_rect_abs_dim _ _) Hp)
    as (w1 & E & Hq & _ & _ & Hsc).
  cbv zeta in E, Hq. rewrite round_whole in E, Hq. cbn [sb] in E, Hq, Hsc.
  fold p' in E, Hq. rewrite E.
  unfold bind at 1. unfold gets at 1.
  destruct (p' =? p)%Z; cbn [negb];
    destruct (Rect.collidepoint (get_rect_abs (sb w)) pt);
    destruct (_mouseover (sb w1));
    unfold bind, on_sb, emit, modify, ret; cbn [negb sb log];
    eexists; (split; [reflexivity|]); cbn [sb log]; zcbn;
    rewrite ?Hsc, ?Hs; auto.
Qed.

Lemma update_drag_motion_witness :
  exists s w1 w2,
    sb_200 = Ok s
    /\ update [press_at (5, 5)%Z] {| sb := s; log := [] |} = (w1, Ok false)
    /\ update [{| data := MOUSEMOTION (Some (30, 2)%Z) (35, 7)%Z;
                  ambient := mouse_at (35, 7)%Z |}] w1
       = (w2, Ok true)
    /\ _slider_position (sb w2) == 30.
Proof.
  with_ok sb_200 ltac:(fun s =>
    with_run (update [press_at (5, 5)%Z] {| sb := s; log := [] |})
      ltac:(fun w1 =>
        destruct (update_drag_motion (30, 2)%Z (35, 7)%Z
                    (mouse_at (35, 7)%Z) w1 0)
          as (w2 & E & Hq & _);
        [ vm_compute; reflexivity
        | vm_compute; reflexivity
        | vm_compute; reflexivity
        | vm_compute; reflexivity
        | split; vm_compute; discriminate
        | vm_compute; repeat split; reflexivity
        | vm_compute; split; discriminate
        | exists s, w1, w2; split; [vm_compute; reflexivity|];
          split; [vm_compute; reflexivity|];
          vm_compute in E, Hq; split; [exact E|vm_compute; exact Hq] ])).
Defined.

(** ** [set_value] at the ends of the range and in between *)

Lemma round_le_whole (x : Q) (b : Z) : x <= inject_Z b -> (Py.round x <= b)%Z.
Proof.
  intro H. pose proof (round_close x) as R. apply Qabs_Qle_condition in R.
  destruct (Z_le_gt_dec (Py.round x) b) as [L|G]; [exact L|].
  assert (G' : (b + 1 <= Py.round x)%Z) by lia.
  rewrite Zle_Qle, inject_Z_plus in G'. change (inject_Z 1) with 1 in G'.
  lra.
Qed.

Lemma round_ge_whole (x : Q) (a : Z) : inject_Z a <= x -> (a <= Py.round x)%Z.
Proof.
  intro H. pose proof (round_close x) as R. apply Qabs_Qle_condition in R.
  destruct (Z_le_gt_dec a (Py.round x)) as [L|G]; [exact L|].
  assert (G' : (Py.round x + 1 <= a)%Z) by lia.
  rewrite Zle_Qle, inject_Z_plus in G'. change (inject_Z 1) with 1 in G'.
  lra.
Qed.

Lemma round3_whole (q : Q) (z : Z) :
  q * 1000 == inject_Z (z * 1000) -> Py.round3 q == inject_Z z.
Proof.
  intro H. unfold Py.round3.
  assert (R : Py.round (q * 1000) = (z * 1000)%Z).
  { destruct (round_bounds (z * 1000) (z * 1000) (q * 1000)); try lra. lia. }
  rewrite R, inject_Z_mult. change (inject_Z 1000) with 1000. field.
Qed.

(** X25.  [set_value(min)] brings the slider to position 0: on an object
    with [min < max], a length different from the page step and a placed
    slider, the call succeeds, the position is 0, [get_value()] is
    [get_minimum()] and, when the integer bounds differ,
    [get_value_percentual()] is 0. *)
Theorem set_value_minimum (self : ScrollBar) (p : Z) :
  slider_in_rect self p ->
  (0 <= p <= travel self)%Z ->
  vmin self < vmax self ->
  ~ _page_ctrl_length self == _page_step self ->
  exists self',
    set_value (vmin self) self = (self', Ok tt)
    /\ _slider_position self' == 0
    /\ get_value self' = Ok (get_minimum self)
    /\ (get_maximum self <> get_minimum self ->
        exists q, get_value_percentual self' = Ok q /\ q == 0).
Proof.
  intros Hinv Hp Hr HL.
  rewrite (set_value_cases (vmin self) self Hr) by lra. cbv zeta.
  set (len := _page_ctrl_length self - _page_step self).
  set (pixels := Py.min len
                   (Py.max 0 ((vmin self - vmin self) * len
                              / (vmax self - vmin self)))).
  assert (Hpx : pixels <= 0).
  { unfold pixels.
    assert (Z0 : (vmin self - vmin self) * len / (vmax self - vmin self) == 0)
      by (field; lra).
    destruct (max_spec 0 ((vmin self - vmin self) * len
                          / (vmax self - vmin self))) as (M0 & M1 & M2).
    destruct (min_spec len (Py.max 0 ((vmin self - vmin self) * len
                                      / (vmax self - vmin self))))
      as (N0 & N1 & N2).
    destruct M2; lra. }
  destruct (_scroll_invariant (get_rect self) (pixels - _slider_position self)
              self p Hinv eq_refl)
    as (s1 & moved & E & Ht & Hf & _ & _ & FL & FP & FR).
  cbv zeta in Ht, Hf.
  destruct Hinv as (Hq & Hrest).
  set (r := Py.round (pixels - _slider_position self)) in *.
  assert (Hr' : (r <= - p)%Z).
  { apply round_le_whole. rewrite inject_Z_opp. lra. }
  assert (Hpos : _slider_position s1 == 0).
  { destruct moved.
    - destruct (Ht eq_refl) as (_ & _ & (Hq1 & _)). rewrite Hq1.
      replace (p + Z.min (Z.max r (- p)) (travel self - p))%Z with 0%Z by lia.
      reflexivity.
    - destruct (Hf eq_refl) as ([Hz|Hz] & ->).
      + assert (P0 : inject_Z p <= 0) by lra.
        change 0 with (inject_Z 0) in P0. rewrite <- Zle_Qle in P0.
        rewrite Hq. replace p with 0%Z by lia. reflexivity.
      + rewrite Hq. replace p with 0%Z by lia. reflexivity. }
  unfold bind. rewrite E. unfold ret. exists s1. split; [reflexivity|].
  split; [exact Hpos|].
  assert (Z1 : Py.is_zero (_page_ctrl_length s1 - _page_step s1) = false)
    by (apply is_zero_false; rewrite FL, FP; lra).
  assert (G : get_value s1 = Ok (get_minimum self)).
  { unfold get_value, get_minimum, vmin, vmax in *. rewrite Z1, FR.
    f_equal. apply int_comp. rewrite FL, FP. fold len.
    set (lo := fst (_values_range self)) in *.
    set (hi := snd (_values_range self)) in *.
    assert (V : lo + _slider_position s1 * (hi - lo) / len == lo)
      by (rewrite Hpos; field; unfold len; lra).
    destruct (max_spec lo (lo + _slider_position s1 * (hi - lo) / len))
      as (M0 & M1 & M2).
    destruct (min_spec hi (Py.max lo (lo + _slider_position s1 * (hi - lo) / len)))
      as (N0 & N1 & N2).
    destruct M2, N2; lra. }
  split; [exact G|].
  intro Hd. unfold get_value_percentual, get_minmax. rewrite G.
  assert (Em : get_minimum s1 = get_minimum self)
    by (unfold get_minimum, vmin; rewrite FR; reflexivity).
  assert (EM : get_maximum s1 = get_maximum self)
    by (unfold get_maximum, vmax; rewrite FR; reflexivity).
  rewrite Em, EM.
  replace (get_maximum self - get_minimum self =? 0)%Z with false
    by (symmetry; apply Z.eqb_neq; lia).
  eexists. split; [reflexivity|].
  change 0 with (inject_Z 0). apply round3_whole.
  rewrite Z.sub_diag. change (inject_Z (0 * 1000)) with 0.
  change (inject_Z 0) with 0. field.
  change 0 with (inject_Z 0). rewrite inject_Z_injective. lia.
Qed.

Lemma set_value_minimum_witness :
  exists s0 s1 s2,
    sb_200 = Ok s0
    /\ set_value 70 s0 = (s1, Ok tt)
    /\ set_value 0 s1 = (s2, Ok tt)
    /\ _slider_position s2 == 0
    /\ get_value s2 = Ok 0%Z.
Proof.
  with_ok sb_200 ltac:(fun s0 =>
    with_run (set_value 70 s0) ltac:(fun s1 =>
      destruct (set_value_minimum s1 112) as (s2 & E & Hq & G & _);
      [ vm_compute; repeat split; reflexivity
      | vm_compute; split; discriminate
      | vm_compute; reflexivity
      | vm_compute; discriminate
      | exists s0, s1, s2; split; [vm_compute; reflexivity|];
        split; [vm_compute; reflexivity|];
        split; [exact E|]; split; [exact Hq|exact G] ])).
Defined.

(** X26.  [set_value(max)] brings the slider to the end of its travel
    when the bounds of the range, the length and the page step are whole
    numbers: on such an object with [min < max], [page_step < length]
    and a placed slider, the call succeeds, the position is
    [length - page_step], [get_value()] is [get_maximum()] and
    [get_value_percentual()] is 1. *)
Theorem set_value_maximum (self : ScrollBar) (p : Z) :
  slider_in_rect self p ->
  (0 <= p <= travel self)%Z ->
  vmin self < vmax self ->
  inject_Z (Py.int (vmin self)) == vmin self ->
  inject_Z (Py.int (vmax self)) == vmax self ->
  inject_Z (Py.int (_page_ctrl_length self)) == _page_ctrl_length self ->
  inject_Z (Py.int (_page_step self)) == _page_step self ->
  _page_step self < _page_ctrl_length self ->
  exists self',
    set_value (vmax self) self = (self', Ok tt)
    /\ _slider_position self' == _page_ctrl_length self - _page_step self
    /\ get_value self' = Ok (get_maximum self)
    /\ inject_Z (get_maximum self) == vmax self
    /\ exists q, get_value_percentual self' = Ok q /\ q == 1.
Proof.
  intros Hinv Hp Hr Imin Imax IL IP HPL.
  rewrite (set_value_cases (vmax self) self Hr) by lra. cbv zeta.
  set (len := _page_ctrl_length self - _page_step self).
  assert (Hlen : 0 < len) by (unfold len; lra).
  assert (Htr : inject_Z (travel self) == len)
    by (unfold travel, len; rewrite inject_Z_sub, IL, IP; reflexivity).
  set (pixels := Py.min len
                   (Py.max 0 ((vmax self - vmin self) * len
                              / (vmax self - vmin self)))).
  assert (Hpx : pixels == len).
  { unfold pixels.
    assert (Z0 : (vmax self - vmin self) * len / (vmax self - vmin self) == len)
      by (field; lra).
    destruct (max_spec 0 ((vmax self - vmin self) * len
                          / (vmax self - vmin self))) as (M0 & M1 & M2).
    destruct (min_spec len (Py.max 0 ((vmax self - vmin self) * len
                                      / (vmax self - vmin self))))
      as (N0 & N1 & N2).
    destruct M2, N2; lra. }
  destruct (_scroll_invariant (get_rect self) (pixels - _slider_position self)
              self p Hinv eq_refl)
    as (s1 & moved & E & Ht & Hf & _ & _ & FL & FP & FR).
  cbv zeta in Ht, Hf.
  destruct Hinv as (Hq & Hrest).
  set (r := Py.round (pixels - _slider_position self)) in *.
  assert (Hx : pixels - _slider_position self == inject_Z (travel self - p))
    by (rewrite inject_Z_sub; lra).
  assert (Hr' : r = (travel self - p)%Z).
  { unfold r. destruct (round_bounds (travel self - p) (travel self - p)
                          (pixels - _slider_position self)); try lra. lia. }
  assert (Hpos : _slider_position s1 == len).
  { destruct moved.
    - destruct (Ht eq_refl) as (_ & _ & (Hq1 & _)). rewrite Hq1.
      replace (p + Z.min (Z.max r (- p)) (travel self - p))%Z
        with (travel self) by lia.
      exact Htr.
    - destruct (Hf eq_refl) as ([Hz|Hz] & ->).
      + lra.
      + rewrite Hq, <- Htr. replace p with (travel self) by lia. reflexivity. }
  unfold bind. rewrite E. unfold ret. exists s1. split; [reflexivity|].
  split; [exact Hpos|].
  assert (Z1 : Py.is_zero (_page_ctrl_length s1 - _page_step s1) = false)
    by (apply is_zero_false; rewrite FL, FP; fold len; lra).
  assert (G : get_value s1 = Ok (get_maximum self)).
  { unfold get_value, get_maximum, vmin, vmax in *. rewrite Z1, FR.
    f_equal. apply int_comp. rewrite FL, FP. fold len.
    set (lo := fst (_values_range self)) in *.
    set (hi := snd (_values_range self)) in *.
    assert (V : lo + _slider_position s1 * (hi - lo) / len == hi)
      by (rewrite Hpos; field; lra).
    destruct (max_spec lo (lo + _slider_position s1 * (hi - lo) / len))
      as (M0 & M1 & M2).
    destruct (min_spec hi (Py.max lo (lo + _slider_position s1 * (hi - lo) / len)))
      as (N0 & N1 & N2).
    destruct M2, N2; lra. }
  split; [exact G|]. split; [exact Imax|].
  assert (Hd : get_maximum self <> get_minimum self).
  { unfold get_maximum, get_minimum. intro Heq.
    rewrite Heq in Imax. lra. }
  unfold get_value_percentual, get_minmax. rewrite G.
  assert (Em : get_minimum s1 = get_minimum self)
    by (unfold get_minimum, vmin; rewrite FR; reflexivity).
  assert (EM : get_maximum s1 = get_maximum self)
    by (unfold get_maximum, vmax; rewrite FR; reflexivity).
  rewrite Em, EM.
  replace (get_maximum self - get_minimum self =? 0)%Z with false
    by (symmetry; apply Z.eqb_neq; lia).
  eexists. split; [reflexivity|].
  change 1 with (inject_Z 1). apply round3_whole.
  change (inject_Z (1 * 1000)) with 1000. field.
  change 0 with (inject_Z 0). rewrite inject_Z_injective. lia.
Qed.

Lemma set_value_maximum_witness :
  exists s0 s1,
    sb_200 = Ok s0
    /\ set_value 100 s0 = (s1, Ok tt)
    /\ _slider_position s1 == 160
    /\ get_value s1 = Ok 100%Z.
Proof.
  with_ok sb_200 ltac:(fun s0 =>
    destruct (set_value_maximum s0 0) as (s1 & E & Hq & G & _ & _);
    [ vm_compute; repeat split; reflexivity
    | vm_compute; split; discriminate
    | vm_compute; reflexivity
    | vm_compute; reflexivity
    | vm_compute; reflexivity
    | vm_compute; reflexivity
    | vm_compute; reflexivity
    | vm_compute; reflexivity
    | exists s0, s1; split; [vm_compute; reflexivity|];
      split; [exact E|]; split; [rewrite Hq; vm_compute; reflexivity|];
      exact G ]).
Defined.



(** * Further properties of the controller predicates *)

Section ControlsExclusive.

Import Controls.

Variable Target : Type.

(** X28.  An axis event means at most one analog direction: of the four
    predicates [joy_axis_x_left], [joy_axis_x_right], [joy_axis_y_up]
    and [joy_axis_y_down] at most one answers true, and none does when
    the magnitude of the value does not exceed the deadzone or the axis
    is neither the x nor the y axis. *)
Theorem joy_axis_at_most_one
  (self : Controller) (event : JoyAxisMotion) (widget : Target) :
  (Nat.b2n (joy_axis_x_left Target self event widget)
   + Nat.b2n (joy_axis_x_right Target self event widget)
   + Nat.b2n (joy_axis_y_up Target self event widget)
   + Nat.b2n (joy_axis_y_down Target self event widget) <= 1)%nat
  /\ (Qabs (value event) <= JOY_DEADZONE
      \/ (axis event <> JOY_AXIS_X /\ axis event <> JOY_AXIS_Y) ->
      joy_axis_x_left Target self event widget = false
      /\ joy_axis_x_right Target self event widget = false
      /\ joy_axis_y_up Target self event widget = false
      /\ joy_axis_y_down Target self event widget = false).
Proof.
  unfold joy_axis_x_left, joy_axis_x_right, joy_axis_y_up, joy_axis_y_down,
    JOY_AXIS_X, JOY_AXIS_Y, JOY_DEADZONE.
  destruct (Z.eqb_spec (axis event) 0) as [Ex|Ex];
    destruct (Z.eqb_spec (axis event) 1) as [Ey|Ey]; try lia;
    destruct (Py.ltb (value event) (- (1 # 2))) eqn:Lo;
    destruct (Py.ltb (1 # 2) (value event)) eqn:Hi;
    rewrite ?ltb_lt, ?ltb_ge in *; try lra;
    (split; [cbn; lia|]);
    intros [H|[H1 H2]]; try lia; try (cbn; tauto);
    apply Qabs_Qle_condition in H; lra.
Qed.

(** X29.  A hat event means at most one digital direction, the centred
    hat [(0, 0)] means none, and a button event is never both the select
    and the back button. *)
Theorem joy_hat_at_most_one
  (self : Controller) (hat : JoyHatMotion) (press : JoyButtonDown)
  (widget : Target) :
  (Nat.b2n (joy_up Target self hat widget)
   + Nat.b2n (joy_down Target self hat widget)
   + Nat.b2n (joy_left Target self hat widget)
   + Nat.b2n (joy_right Target self hat widget) <= 1)%nat
  /\ (hat_value hat = (0, 0)%Z ->
      joy_up Target self hat widget = false
      /\ joy_down Target self hat widget = false
      /\ joy_left Target self hat widget = false
      /\ joy_right Target self hat widget = false)
  /\ (joy_select Target self press widget
      && joy_back Target self press widget = false).
Proof.
  unfold joy_up, joy_down, joy_left, joy_right, joy_select, joy_back,
    pair_eqb, JOY_UP, JOY_DOWN, JOY_LEFT, JOY_RIGHT, JOY_BUTTON_SELECT,
    JOY_BUTTON_BACK.
  destruct (hat_value hat) as [hx hy]. cbn [fst snd].
  split; [|split].
  - destruct (Z.eqb_spec hx 0), (Z.eqb_spec hx 1), (Z.eqb_spec hx (-1)),
      (Z.eqb_spec hy 0), (Z.eqb_spec hy 1), (Z.eqb_spec hy (-1));
      try lia; cbn; lia.
  - intro H. inversion H. subst. cbn. tauto.
  - destruct (Z.eqb_spec (button press) 0), (Z.eqb_spec (button press) 1);
      try lia; reflexivity.
Qed.

End ControlsExclusive.
